(** * FactoryLM PLC access layer: connection manager, simulated PLC,
      connection service and network scanner.

    A shallow embedding of the Python sources under
    [services/plc-modbus] together with the properties their
    specification states about them.

    Conventions of the embedding:
    - Python [int] is [Z]; Python [float] delays and latencies are exact
      rationals [Q] (the arithmetic performed on them by the code is
      multiplication by a power of two, comparison and [min], all of which
      are exact on the values involved);
    - a Python [dict] is a [gmap];
    - a method that mutates [self] takes the object and returns the new one;
    - a method that may raise returns a [result];
    - calls made to collaborators ([connect], [time.sleep], the operation
      closure, the scanner) are recorded in a trace, so that statements about
      "how many calls were issued" can be made. *)

From Stdlib Require Import ZArith QArith Qminmax Qpower Lia.
From Stdlib Require Import Sorting.Sorted.
From stdpp Require Import base option list gmap strings pretty.

Local Open Scope string_scope.
Local Open Scope list_scope.
Local Open Scope Z_scope.

(** ** Python exceptions *)

Module Py.

(** The exception classes the sources raise or catch.  [IOError] is an alias
    of [OSError]; [ConnectionError] derives from it. *)
Inductive PyClass : Type :=
  | ExceptionT
  | IOErrorT
  | ConnectionErrorT
  | ValueErrorT
  | KeyErrorT.

Record PyExn : Type := MkExn { exn_type : PyClass; exn_args : string }.

Definition ConnectionError (msg : string) : PyExn := MkExn ConnectionErrorT msg.
Definition IOError (msg : string) : PyExn := MkExn IOErrorT msg.
Definition ValueError (msg : string) : PyExn := MkExn ValueErrorT msg.
Definition KeyError (msg : string) : PyExn := MkExn KeyErrorT msg.

(** [issubclass c d]. *)
Definition issubclass (c d : PyClass) : bool :=
  match d, c with
  | ExceptionT, _ => true
  | IOErrorT, (IOErrorT | ConnectionErrorT) => true
  | ConnectionErrorT, ConnectionErrorT => true
  | ValueErrorT, ValueErrorT => true
  | KeyErrorT, KeyErrorT => true
  | _, _ => false
  end.

Definition isinstance (e : PyExn) (c : PyClass) : bool :=
  issubclass (exn_type e) c.

(** Outcome of a call: a returned value or a raised exception. *)
Inductive result (A : Type) : Type :=
  | Ok (a : A)
  | Raise (e : PyExn).
Arguments Ok {A} a.
Arguments Raise {A} e.


(** [range(n)]. *)
Definition range (n : Z) : list Z := map Z.of_nat (seq 0 (Z.to_nat n)).

(** [range(a, b)]. *)
Definition range2 (a b : Z) : list Z :=
  map (fun i => a + Z.of_nat i) (seq 0 (Z.to_nat (b - a))).

(** Two-argument [min] on floats: the first argument unless the second is
    strictly smaller. *)
Definition min (a b : Q) : Q := if Qle_bool a b then a else b.

(** [str(i)] for an [int]. *)
Definition str (i : Z) : string := pretty i.

(** [str(l)] for a list of [int]. *)
Fixpoint str_items (l : list Z) : string :=
  match l with
  | [] => ""
  | [x] => str x
  | x :: rest => str x +:+ ", " +:+ str_items rest
  end.

Definition str_list (l : list Z) : string := "[" +:+ str_items l +:+ "]".

(** [d[k]] on a dict with [int] keys: [KeyError] when the key is absent. *)
Definition getitem {V : Type} (d : gmap Z V) (k : Z) : result V :=
  match d !! k with
  | Some v => Ok v
  | None => Raise (KeyError (str k))
  end.

(** [d.get(k, dflt)]. *)
Definition get {V : Type} (d : gmap Z V) (k : Z) (dflt : V) : V :=
  default dflt (d !! k).

End Py.

Import Py.

(** ** The client capability used by the connection manager

    [BasePLCClient] as the manager uses it: [connect] may return a truth
    value or raise, [is_connected] is a query. *)

Class BasePLCClient (C : Type) : Type := {
  connect : C -> C * result bool;
  disconnect : C -> C * result unit;
  is_connected : C -> bool
}.

(** ** connection_manager.py *)

Module ConnectionManager.

(** Calls made by the manager to its collaborators, in program order. *)
Inductive Event : Type :=
  | EvConnect            (* client.connect() *)
  | EvSleep (delay : Q)  (* time.sleep(delay) *)
  | EvFunc.              (* func() *)

Abbreviation Trace := (list Event).

Definition is_connect (e : Event) : bool :=
  match e with EvConnect => true | _ => false end.
Definition is_func (e : Event) : bool :=
  match e with EvFunc => true | _ => false end.
Definition is_sleep (e : Event) : bool :=
  match e with EvSleep _ => true | _ => false end.

Definition count (p : Event -> bool) (tr : Trace) : nat :=
  length (filter (fun e => p e = true) tr).

(** [time.sleep(d)]: raises [ValueError] on a negative length. *)
Definition time_sleep (d : Q) (tr : Trace) : Trace * result unit :=
  if Qle_bool 0 d then (tr ++ [EvSleep d], Ok tt)
  else (tr, Raise (ValueError "sleep length must be non-negative")).

Definition DEFAULT_RETRY_COUNT : Z := 3.
Definition DEFAULT_RETRY_DELAY : Q := 1.
Definition MAX_BACKOFF_DELAY : Q := 30.

Section Manager.

Context {C : Type} `{BasePLCClient C}.

Record PLCConnectionManager : Type := MkManager {
  client : C;
  retry_count : Z;
  retry_delay : Q;
  auto_reconnect : bool;
  _connected : bool;
  _consecutive_failures : Z;
  _last_error : option PyExn
}.

(** [__init__]. *)
Definition init (c : C) (rc : Z) (rd : Q) (ar : bool) : PLCConnectionManager :=
  MkManager c rc rd ar false 0 None.

Definition set_client (c : C) (m : PLCConnectionManager) :=
  MkManager c (retry_count m) (retry_delay m) (auto_reconnect m)
            (_connected m) (_consecutive_failures m) (_last_error m).
Definition set_connected (b : bool) (m : PLCConnectionManager) :=
  MkManager (client m) (retry_count m) (retry_delay m) (auto_reconnect m)
            b (_consecutive_failures m) (_last_error m).
Definition set_failures (n : Z) (m : PLCConnectionManager) :=
  MkManager (client m) (retry_count m) (retry_delay m) (auto_reconnect m)
            (_connected m) n (_last_error m).
Definition set_last_error (e : option PyExn) (m : PLCConnectionManager) :=
  MkManager (client m) (retry_count m) (retry_delay m) (auto_reconnect m)
            (_connected m) (_consecutive_failures m) e.

(** [_calculate_backoff]:
    [delay = retry_delay * (2 ** min(failures, 5)); min(delay, MAX)]. *)
Definition _calculate_backoff (m : PLCConnectionManager) : Q :=
  let delay := (retry_delay m * (2 ^ Z.min (_consecutive_failures m) 5))%Q in
  Py.min delay MAX_BACKOFF_DELAY.

(** The delay computed when the failure counter holds [n]. *)
Definition backoff_at (m : PLCConnectionManager) (n : Z) : Q :=
  _calculate_backoff (set_failures n m).

(** The immutable retry policy is the same in two manager states. *)
Definition same_policy (m m' : PLCConnectionManager) : Prop :=
  retry_count m' = retry_count m /\
  retry_delay m' = retry_delay m /\
  auto_reconnect m' = auto_reconnect m.

(** One iteration of the [for attempt in range(retry_count)] loop of
    [ensure_connected], followed by the remaining iterations.  [None] means
    the loop ran to its end without returning. *)
Fixpoint ensure_connected_loop (attempts : list Z)
    (m : PLCConnectionManager) (tr : Trace)
    : PLCConnectionManager * Trace * option (result bool) :=
  match attempts with
  | [] => (m, tr, None)
  | attempt :: rest =>
      let '(c', r) := connect (client m) in
      let m1 := set_client c' m in
      let tr1 := tr ++ [EvConnect] in
      match r with
      | Ok true =>
          (set_last_error None (set_failures 0 (set_connected true m1)),
           tr1, Some (Ok true))
      | _ =>
          (* except Exception as e: self._last_error = e *)
          let m2 := match r with
                    | Raise e => set_last_error (Some e) m1
                    | Ok _ => m1
                    end in
          if attempt <? retry_count m2 - 1 then
            match time_sleep (_calculate_backoff m2) tr1 with
            | (tr2, Ok _) => ensure_connected_loop rest m2 tr2
            | (tr2, Raise e) => (m2, tr2, Some (Raise e))
            end
          else ensure_connected_loop rest m2 tr1
      end
  end.

(** What the connect loop can do: run through all attempts, each of them
    failed, without touching the counter; or stop at a successful
    [connect()] with the counter reset. *)
Inductive loop_outcome (m : PLCConnectionManager) (tr : Trace) (attempts : list Z)
    : PLCConnectionManager * Trace * option (result bool) -> Prop :=
  | all_failed (m' : PLCConnectionManager) (tr' : Trace) :
      _consecutive_failures m' = _consecutive_failures m ->
      count is_connect tr' = (count is_connect tr + length attempts)%nat ->
      count is_func tr' = count is_func tr ->
      same_policy m m' ->
      loop_outcome m tr attempts (m', tr', None)
  | connected (m' : PLCConnectionManager) (tr' : Trace) :
      _consecutive_failures m' = 0 ->
      _connected m' = true ->
      _last_error m' = None ->
      (count is_connect tr < count is_connect tr'
         <= count is_connect tr + length attempts)%nat ->
      count is_func tr' = count is_func tr ->
      same_policy m m' ->
      loop_outcome m tr attempts (m', tr', Some (Ok true)).

(** [ensure_connected]. *)
Definition ensure_connected (m : PLCConnectionManager) (tr : Trace)
    : PLCConnectionManager * Trace * result bool :=
  if is_connected (client m) then (set_connected true m, tr, Ok true)
  else if negb (auto_reconnect m) then (m, tr, Ok false)
  else
    match ensure_connected_loop (range (retry_count m)) m tr with
    | (m', tr', Some r) => (m', tr', r)
    | (m', tr', None) =>
        (set_connected false
           (set_failures (_consecutive_failures m' + 1) m'), tr', Ok false)
    end.

(** [disconnect]: errors of the client are swallowed. *)
Definition manager_disconnect (m : PLCConnectionManager) : PLCConnectionManager :=
  let '(c', _) := disconnect (client m) in
  set_connected false (set_client c' m).

(** The [try] body shared by [read_with_retry] and [write_with_retry] up to
    the call of [func]. *)
Definition call_connected {T : Type} (func : C -> C * result T)
    (m : PLCConnectionManager) (tr : Trace)
    : PLCConnectionManager * Trace * result T :=
  match ensure_connected m tr with
  | (m1, tr1, Raise e) => (m1, tr1, Raise e)
  | (m1, tr1, Ok false) =>
      (m1, tr1, Raise (ConnectionError "Unable to connect to PLC"))
  | (m1, tr1, Ok true) =>
      let '(c', r) := func (client m1) in
      (set_client c' m1, tr1 ++ [EvFunc], r)
  end.

(** The manager after the assignments of the [except ConnectionError]
    clause. *)
Definition connection_lost (m : PLCConnectionManager) : PLCConnectionManager :=
  set_last_error (Some (ConnectionError "Connection lost"))
    (set_failures (_consecutive_failures m + 1) (set_connected false m)).

(** The manager after the assignments of the [except IOError as e] clause. *)
Definition operation_failed (e : PyExn) (m : PLCConnectionManager)
    : PLCConnectionManager :=
  set_failures (_consecutive_failures m + 1) (set_last_error (Some e) m).

(** The two [except] clauses, identical in both retry loops.  The result is
    [None] when the loop goes on to the next attempt and [Some e] when the
    exception [e] leaves the loop. *)
Definition handle_failure (attempt : Z) (e : PyExn)
    (m : PLCConnectionManager) (tr : Trace)
    : PLCConnectionManager * Trace * option PyExn :=
  if isinstance e ConnectionErrorT then
    let m1 := connection_lost m in
    if attempt <? retry_count m1 - 1 then
      match time_sleep (_calculate_backoff m1) tr with
      | (tr1, Ok _) => (m1, tr1, None)
      | (tr1, Raise e') => (m1, tr1, Some e')
      end
    else (m1, tr, Some e)
  else if isinstance e IOErrorT then
    let m1 := operation_failed e m in
    if attempt <? retry_count m1 - 1 then
      match time_sleep (_calculate_backoff m1) tr with
      | (tr1, Ok _) => (m1, tr1, None)
      | (tr1, Raise e') => (m1, tr1, Some e')
      end
    else (m1, tr, Some e)
  else (m, tr, Some e).

Fixpoint read_with_retry_loop {T : Type} (func : C -> C * result T)
    (attempts : list Z) (m : PLCConnectionManager) (tr : Trace)
    : PLCConnectionManager * Trace * option (result T) :=
  match attempts with
  | [] => (m, tr, None)
  | attempt :: rest =>
      match call_connected func m tr with
      | (m1, tr1, Ok v) => (set_failures 0 m1, tr1, Some (Ok v))
      | (m1, tr1, Raise e) =>
          match handle_failure attempt e m1 tr1 with
          | (m2, tr2, None) => read_with_retry_loop func rest m2 tr2
          | (m2, tr2, Some e') => (m2, tr2, Some (Raise e'))
          end
      end
  end.

(** [read_with_retry]. *)
Definition read_with_retry {T : Type} (func : C -> C * result T)
    (m : PLCConnectionManager) (tr : Trace)
    : PLCConnectionManager * Trace * result T :=
  match read_with_retry_loop func (range (retry_count m)) m tr with
  | (m', tr', Some r) => (m', tr', r)
  | (m', tr', None) =>
      (m', tr', Raise (IOError "Operation failed after all retries"))
  end.

Fixpoint write_with_retry_loop (func : C -> C * result bool)
    (attempts : list Z) (m : PLCConnectionManager) (tr : Trace)
    : PLCConnectionManager * Trace * option (result bool) :=
  match attempts with
  | [] => (m, tr, None)
  | attempt :: rest =>
      let '(m1, tr1, r) :=
        match call_connected func m tr with
        | (m1, tr1, Ok true) => (set_failures 0 m1, tr1, Ok true)
        | (m1, tr1, Ok false) =>
            (m1, tr1, Raise (IOError "Write operation returned False"))
        | (m1, tr1, Raise e) => (m1, tr1, Raise e)
        end in
      match r with
      | Ok v => (m1, tr1, Some (Ok v))
      | Raise e =>
          match handle_failure attempt e m1 tr1 with
          | (m2, tr2, None) => write_with_retry_loop func rest m2 tr2
          | (m2, tr2, Some e') => (m2, tr2, Some (Raise e'))
          end
      end
  end.

(** The closure that does to the client what [func] does and then raises
    the [IOError] of a rejected write. *)
Definition raising_io_error (func : C -> C * result bool) (c : C)
    : C * result bool :=
  (fst (func c), Raise (IOError "Write operation returned False")).

(** [write_with_retry]. *)
Definition write_with_retry (func : C -> C * result bool)
    (m : PLCConnectionManager) (tr : Trace)
    : PLCConnectionManager * Trace * result bool :=
  match write_with_retry_loop func (range (retry_count m)) m tr with
  | (m', tr', Some r) => (m', tr', r)
  | (m', tr', None) => (m', tr', Ok false)
  end.

End Manager.

Arguments PLCConnectionManager C : clear implicits.

End ConnectionManager.

(** ** mock_plc.py *)

Module MockPLC.

Definition REGISTER_MOTOR_SPEED : Z := 100.
Definition REGISTER_MOTOR_CURRENT : Z := 101.
Definition REGISTER_TEMPERATURE : Z := 102.
Definition REGISTER_PRESSURE : Z := 103.
Definition REGISTER_CONVEYOR_SPEED : Z := 104.
Definition REGISTER_ERROR_CODE : Z := 105.

Definition COIL_MOTOR_RUNNING : Z := 0.
Definition COIL_MOTOR_STOPPED : Z := 1.
Definition COIL_FAULT_ALARM : Z := 2.
Definition COIL_CONVEYOR_RUNNING : Z := 3.
Definition COIL_SENSOR_1 : Z := 4.
Definition COIL_SENSOR_2 : Z := 5.
Definition COIL_E_STOP : Z := 6.

Record MockPLC : Type := MkMock {
  _connected : bool;
  _registers : gmap Z Z;
  _coils : gmap Z bool;
  scene_name : string
}.

Definition set_connected (b : bool) (s : MockPLC) : MockPLC :=
  MkMock b (_registers s) (_coils s) (scene_name s).
Definition set_register (a v : Z) (s : MockPLC) : MockPLC :=
  MkMock (_connected s) (<[a := v]> (_registers s)) (_coils s) (scene_name s).
Definition set_coil (a : Z) (v : bool) (s : MockPLC) : MockPLC :=
  MkMock (_connected s) (_registers s) (<[a := v]> (_coils s)) (scene_name s).

(** A value of the [initial_state] dict under a key that names no point:
    an [int] or a [bool]. *)
Inductive Value : Type :=
  | VInt (z : Z)
  | VBool (b : bool).

Definition register_map : list (string * Z) :=
  [("motor_speed", REGISTER_MOTOR_SPEED);
   ("motor_current", REGISTER_MOTOR_CURRENT);
   ("temperature", REGISTER_TEMPERATURE);
   ("pressure", REGISTER_PRESSURE);
   ("conveyor_speed", REGISTER_CONVEYOR_SPEED);
   ("error_code", REGISTER_ERROR_CODE)].

Definition coil_map : list (string * Z) :=
  [("motor_running", COIL_MOTOR_RUNNING);
   ("motor_stopped", COIL_MOTOR_STOPPED);
   ("fault_alarm", COIL_FAULT_ALARM);
   ("conveyor_running", COIL_CONVEYOR_RUNNING);
   ("sensor_1_active", COIL_SENSOR_1);
   ("sensor_2_active", COIL_SENSOR_2);
   ("e_stop_active", COIL_E_STOP)].

Fixpoint assoc (k : string) (l : list (string * Z)) : option Z :=
  match l with
  | [] => None
  | (k', a) :: rest => if String.eqb k k' then Some a else assoc k rest
  end.

(** Where the loop of [_apply_initial_state] sends the value of a key:
    [if key in register_map: ... elif key in coil_map: ...]. *)
Inductive Target : Type :=
  | ToRegister (address : Z)
  | ToCoil (address : Z)
  | Nowhere.

Definition target (key : string) : Target :=
  match assoc key register_map with
  | Some a => ToRegister a
  | None =>
      match assoc key coil_map with
      | Some a => ToCoil a
      | None => Nowhere
      end
  end.

(** The values of the [initial_state] dict are stored as they are given.
    They are taken with the types of the stores they go to
    ([Dict[int, int]] for the registers, [Dict[int, bool]] for the coils):
    the value under a key that names a register is an [int], under a key
    that names a coil a [bool]. *)
Definition value_type (t : Target) : Type :=
  match t with
  | ToRegister _ => Z
  | ToCoil _ => bool
  | Nowhere => Value
  end.

(** One item [key: value] of the dict. *)
Record Entry : Type := MkEntry {
  entry_key : string;
  entry_value : value_type (target entry_key)
}.

(** The assignment the loop body makes for a value sent to [t]. *)
Definition store (t : Target) : value_type t -> MockPLC -> MockPLC :=
  match t with
  | ToRegister a => fun value s => set_register a value s
  | ToCoil a => fun value s => set_coil a value s
  | Nowhere => fun _ s => s
  end.

(** [_apply_initial_state]: the items of the dict in insertion order. *)
Fixpoint _apply_initial_state (state : list Entry) (s : MockPLC) : MockPLC :=
  match state with
  | [] => s
  | entry :: rest =>
      _apply_initial_state rest
        (store (target (entry_key entry)) (entry_value entry) s)
  end.

Definition default_registers : gmap Z Z :=
  <[REGISTER_ERROR_CODE := 0]>
  (<[REGISTER_CONVEYOR_SPEED := 0]>
  (<[REGISTER_PRESSURE := 100]>
  (<[REGISTER_TEMPERATURE := 250]>
  (<[REGISTER_MOTOR_CURRENT := 0]>
  (<[REGISTER_MOTOR_SPEED := 0]> ∅))))).

Definition default_coils : gmap Z bool :=
  <[COIL_E_STOP := false]>
  (<[COIL_SENSOR_2 := false]>
  (<[COIL_SENSOR_1 := false]>
  (<[COIL_CONVEYOR_RUNNING := false]>
  (<[COIL_FAULT_ALARM := false]>
  (<[COIL_MOTOR_STOPPED := true]>
  (<[COIL_MOTOR_RUNNING := false]> ∅)))))).

(** [__init__(initial_state)]; an empty or absent dict leaves the defaults. *)
Definition init (initial_state : option (list Entry)) : MockPLC :=
  let s := MkMock false default_registers default_coils "sorting_station" in
  match initial_state with
  | Some state => _apply_initial_state state s
  | None => s
  end.

Definition connect (s : MockPLC) : MockPLC * result bool :=
  (set_connected true s, Ok true).

Definition disconnect (s : MockPLC) : MockPLC * result unit :=
  (set_connected false s, Ok tt).

Definition is_connected (s : MockPLC) : bool := _connected s.

Definition _ensure_connected (s : MockPLC) : result unit :=
  if negb (_connected s) then Raise (ConnectionError "MockPLC is not connected")
  else Ok tt.

(** The values the calls to [random] return during one run of
    [_simulate_behavior]; a field is read only where the code makes the
    corresponding call. *)
Record Draws : Type := MkDraws {
  noise : Z;          (* random.randint(-5, 5) *)
  warming : Z;        (* random.randint(1, 3) *)
  cooling : Z;        (* random.randint(1, 5) *)
  toggle_1 : bool;    (* random.random() < 0.1, first sensor *)
  choice_1 : bool;    (* random.choice([True, False]) *)
  toggle_2 : bool;    (* random.random() < 0.1, second sensor *)
  choice_2 : bool     (* random.choice([True, False]) *)
}.

(** The motor part of [_simulate_behavior].  [int(speed * 0.5)] is taken
    only for [speed > 0], where it is the integer quotient by two. *)
Definition simulate_motor (rnd : Draws) (motor_running : bool) (speed temp : Z)
    (s : MockPLC) : MockPLC :=
  if motor_running && (0 <? speed) then
    let base_current := speed `quot` 2 in
    let s1 := set_register REGISTER_MOTOR_CURRENT
                (Z.max 0 (base_current + noise rnd)) s in
    if temp <? 800 then
      set_register REGISTER_TEMPERATURE (Z.min 800 (temp + warming rnd)) s1
    else s1
  else
    if 250 <? temp then
      set_register REGISTER_TEMPERATURE (Z.max 250 (temp - cooling rnd)) s
    else s.

(** The sensor part of [_simulate_behavior]. *)
Definition simulate_sensors (rnd : Draws) (s : MockPLC) : MockPLC :=
  let s1 := if toggle_1 rnd then set_coil COIL_SENSOR_1 (choice_1 rnd) s
            else s in
  if toggle_2 rnd then set_coil COIL_SENSOR_2 (choice_2 rnd) s1 else s1.

(** [_simulate_behavior]. *)
Definition _simulate_behavior (rnd : Draws) (s : MockPLC)
    : MockPLC * result unit :=
  match getitem (_coils s) COIL_MOTOR_RUNNING with
  | Raise e => (s, Raise e)
  | Ok motor_running =>
  match getitem (_registers s) REGISTER_MOTOR_SPEED with
  | Raise e => (s, Raise e)
  | Ok speed =>
  match getitem (_registers s) REGISTER_TEMPERATURE with
  | Raise e => (s, Raise e)
  | Ok temp =>
      let s1 := simulate_motor rnd motor_running speed temp s in
      match getitem (_coils s1) COIL_CONVEYOR_RUNNING with
      | Raise e => (s1, Raise e)
      | Ok true => (simulate_sensors rnd s1, Ok tt)
      | Ok false => (s1, Ok tt)
      end
  end end end.

(** The loop [for i in range(count): values.append(d.get(address + i, dflt))]. *)
Definition read_values {V : Type} (d : gmap Z V) (dflt : V) (address count : Z)
    : list V :=
  map (fun i => get d (address + i) dflt) (range count).

(** [read_holding_registers]. *)
Definition read_holding_registers (rnd : Draws) (address count : Z)
    (s : MockPLC) : MockPLC * result (list Z) :=
  match _ensure_connected s with
  | Raise e => (s, Raise e)
  | Ok _ =>
      match _simulate_behavior rnd s with
      | (s1, Raise e) => (s1, Raise e)
      | (s1, Ok _) => (s1, Ok (read_values (_registers s1) 0 address count))
      end
  end.

(** [read_coils]. *)
Definition read_coils (address count : Z) (s : MockPLC)
    : MockPLC * result (list bool) :=
  match _ensure_connected s with
  | Raise e => (s, Raise e)
  | Ok _ => (s, Ok (read_values (_coils s) false address count))
  end.

(** [write_register]. *)
Definition write_register (address value : Z) (s : MockPLC)
    : MockPLC * result bool :=
  match _ensure_connected s with
  | Raise e => (s, Raise e)
  | Ok _ =>
      let s1 := set_register address value s in
      let s2 := if address =? REGISTER_MOTOR_SPEED
                then set_coil COIL_MOTOR_STOPPED (value =? 0) s1
                else s1 in
      (s2, Ok true)
  end.

(** [write_coil]. *)
Definition write_coil (address : Z) (value : bool) (s : MockPLC)
    : MockPLC * result bool :=
  match _ensure_connected s with
  | Raise e => (s, Raise e)
  | Ok _ =>
      let s1 := set_coil address value s in
      let s2 :=
        if address =? COIL_MOTOR_RUNNING then
          let s' := set_coil COIL_MOTOR_STOPPED (negb value) s1 in
          if negb value then
            set_register REGISTER_MOTOR_CURRENT 0
              (set_register REGISTER_MOTOR_SPEED 0 s')
          else s'
        else if address =? COIL_MOTOR_STOPPED then
          set_coil COIL_MOTOR_RUNNING (negb value) s1
        else s1 in
      (s2, Ok true)
  end.

(** [FactoryState] as [read_state] constructs it; [timestamp] is the value
    of [datetime.now()] at the call. *)
Record FactoryState : Type := MkFactoryState {
  motor_running : bool;
  motor_speed : Z;
  motor_current : Q;
  temperature : Q;
  pressure : Z;
  fault_active : bool;
  conveyor_speed : Z;
  conveyor_running : bool;
  sensor_1_active : bool;
  sensor_2_active : bool;
  e_stop_active : bool;
  error_code : Z;
  timestamp : Z;
  state_scene_name : string
}.

Definition item {V : Type} (dflt : V) (l : list V) (i : nat) : V :=
  default dflt (l !! i).

(** [read_state]: it simulates once itself and once more through
    [read_holding_registers], hence the two sets of draws. *)
Definition read_state (rnd1 rnd2 : Draws) (now : Z) (s : MockPLC)
    : MockPLC * result FactoryState :=
  match _ensure_connected s with
  | Raise e => (s, Raise e)
  | Ok _ =>
  match _simulate_behavior rnd1 s with
  | (s1, Raise e) => (s1, Raise e)
  | (s1, Ok _) =>
  match read_holding_registers rnd2 100 6 s1 with
  | (s2, Raise e) => (s2, Raise e)
  | (s2, Ok registers) =>
  match read_coils 0 7 s2 with
  | (s3, Raise e) => (s3, Raise e)
  | (s3, Ok coils) =>
      (s3, Ok (MkFactoryState
                 (item false coils 0)
                 (item 0 registers 0)
                 (Qdiv (inject_Z (item 0 registers 1)) 10%Q)
                 (Qdiv (inject_Z (item 0 registers 2)) 10%Q)
                 (item 0 registers 3)
                 (item false coils 2)
                 (item 0 registers 4)
                 (item false coils 3)
                 (item false coils 4)
                 (item false coils 5)
                 (item false coils 6)
                 (item 0 registers 5)
                 now
                 (scene_name s3)))
  end end end end.

(** [start_motor(speed)]. *)
Definition start_motor (speed : Z) (s : MockPLC) : MockPLC * result bool :=
  match write_coil COIL_MOTOR_RUNNING true s with
  | (s1, Raise e) => (s1, Raise e)
  | (s1, Ok _) =>
      match write_register REGISTER_MOTOR_SPEED
              (Z.min 100 (Z.max 0 speed)) s1 with
      | (s2, Raise e) => (s2, Raise e)
      | (s2, Ok _) => (s2, Ok true)
      end
  end.

(** [stop_motor()]. *)
Definition stop_motor (s : MockPLC) : MockPLC * result bool :=
  match write_coil COIL_MOTOR_RUNNING false s with
  | (s1, Raise e) => (s1, Raise e)
  | (s1, Ok _) => (s1, Ok true)
  end.

(** The operations a user of the simulated client can issue, and the state
    reached by a sequence of them (results are dropped, an operation that
    raises leaves the state it had reached). *)
Inductive Op : Type :=
  | OpConnect
  | OpDisconnect
  | OpWriteCoil (address : Z) (value : bool)
  | OpWriteRegister (address value : Z)
  | OpReadHoldingRegisters (rnd : Draws) (address count : Z)
  | OpReadCoils (address count : Z)
  | OpReadState (rnd1 rnd2 : Draws) (now : Z).

Definition step (s : MockPLC) (op : Op) : MockPLC :=
  match op with
  | OpConnect => fst (connect s)
  | OpDisconnect => fst (disconnect s)
  | OpWriteCoil a v => fst (write_coil a v s)
  | OpWriteRegister a v => fst (write_register a v s)
  | OpReadHoldingRegisters rnd a c => fst (read_holding_registers rnd a c s)
  | OpReadCoils a c => fst (read_coils a c s)
  | OpReadState r1 r2 now => fst (read_state r1 r2 now s)
  end.

Definition run (ops : list Op) (s : MockPLC) : MockPLC := fold_left step ops s.

(** The state after [connect(); write_register(100, 50)] on a fresh
    instance. *)
Definition speed_written : MockPLC :=
  run [OpConnect; OpWriteRegister REGISTER_MOTOR_SPEED 50] (init None).

(** The state after [connect(); write_coil(0, True); write_register(100, 50)]
    on a fresh instance: the motor runs at half speed. *)
Definition motor_at_half_speed : MockPLC :=
  run [OpConnect; OpWriteCoil COIL_MOTOR_RUNNING true;
       OpWriteRegister REGISTER_MOTOR_SPEED 50] (init None).

(** Draws without noise that warm or cool by one unit and toggle nothing. *)
Definition calm : Draws := MkDraws 0 1 1 false false false false.

(** The error raised by every data operation of a disconnected instance. *)
Definition not_connected : PyExn := ConnectionError "MockPLC is not connected".

(** [motor_running == (not motor_stopped)] on the coil store. *)
Definition complementary (s : MockPLC) : Prop :=
  exists r : bool,
    _coils s !! COIL_MOTOR_RUNNING = Some r /\
    _coils s !! COIL_MOTOR_STOPPED = Some (negb r).

End MockPLC.

#[global] Instance MockPLC_client : BasePLCClient MockPLC.MockPLC := {
  connect := MockPLC.connect;
  disconnect := MockPLC.disconnect;
  is_connected := MockPLC.is_connected
}.

(** ** backend/services/plc_connection.py *)

Module PLCConnectionService.

(** The part of [ModbusTCPClient] the service calls.  [is_connected] may
    raise (the service guards it with [try]). *)
Class ModbusTCPClient (C : Type) : Type := {
  client_is_connected : C -> result bool;
  client_write_coil : Z -> bool -> C -> C * result bool
}.

(** Calls issued to the underlying client. *)
Inductive Call : Type :=
  | CallIsConnected
  | CallWriteCoil (address : Z) (value : bool).

Definition is_write (c : Call) : bool :=
  match c with CallWriteCoil _ _ => true | _ => false end.

Definition write_calls (log : list Call) : nat :=
  length (filter (fun c => is_write c = true) log).

Definition COIL_NAMES : gmap Z string :=
  list_to_map
    [(0, "motor_running"); (1, "motor_stopped"); (2, "fault_alarm");
     (3, "conveyor_running"); (4, "sensor_1_active"); (5, "sensor_2_active");
     (6, "e_stop_active"); (7, "DI_00"); (8, "DI_01"); (9, "DI_02");
     (10, "DI_03"); (11, "DI_04"); (12, "DI_05"); (13, "DI_06");
     (14, "DI_07"); (15, "DO_00"); (16, "DO_01"); (17, "DO_03")].

(** [list(range(0, 7)) + [15, 16, 17]]. *)
Definition WRITABLE_COILS : list Z := range2 0 7 ++ [15; 16; 17].

(** [address in WRITABLE_COILS]. *)
Definition contains (l : list Z) (a : Z) : bool := existsb (Z.eqb a) l.

Section Service.

Context {C : Type} `{ModbusTCPClient C}.

Record Service : Type := MkService {
  _client : option C;
  _ip : option string;
  _port : Z;
  _connected : bool;
  _last_seen : option Z
}.

(** [__init__]. *)
Definition init : Service := MkService None None 502 false None.

(** The [is_connected] property. *)
Definition is_connected (svc : Service) (log : list Call)
    : list Call * bool :=
  match _client svc with
  | None => (log, false)
  | Some c =>
      (log ++ [CallIsConnected],
       match client_is_connected c with
       | Ok b => b
       | Raise _ => false
       end)
  end.

Record WriteCoilResult : Type := MkWriteCoilResult {
  success : bool;
  address : Z;
  value : bool;
  name : string
}.

Definition not_writable_message (address : Z) : string :=
  "Address " +:+ str address +:+ " is not writable. Writable: "
  +:+ str_list WRITABLE_COILS.

(** [write_coil(address, value)]; [now] is [datetime.now()]. *)
Definition write_coil (now : Z) (address : Z) (value : bool)
    (svc : Service) (log : list Call)
    : Service * list Call * result WriteCoilResult :=
  let '(log1, connected) := is_connected svc log in
  if negb connected then (svc, log1, Raise (ConnectionError "Not connected to PLC"))
  else if negb (contains WRITABLE_COILS address) then
    (svc, log1, Raise (ValueError (not_writable_message address)))
  else
    match _client svc with
    | None =>
        (* not reached: [is_connected] is false without a client *)
        (svc, log1, Raise (MkExn ExceptionT "AttributeError"))
    | Some c =>
        let log2 := log1 ++ [CallWriteCoil address value] in
        match client_write_coil address value c with
        | (c', Raise e) =>
            (MkService (Some c') (_ip svc) (_port svc) (_connected svc)
               (_last_seen svc), log2, Raise e)
        | (c', Ok success) =>
            (MkService (Some c') (_ip svc) (_port svc) (_connected svc)
               (Some now), log2,
             Ok (MkWriteCoilResult success address value
                   (default ("coil_" +:+ str address) (COIL_NAMES !! address))))
        end
    end.

End Service.

Arguments Service C : clear implicits.

(** A test double for the underlying client: it is connected when [fake_up]
    holds and stores the coils written to it. *)
Record Fake : Type := MkFake {
  fake_up : bool;
  fake_coils : gmap Z bool
}.

#[global] Instance fake_client : ModbusTCPClient Fake := {
  client_is_connected c := Ok (fake_up c);
  client_write_coil a v c := (MkFake (fake_up c) (<[a := v]> (fake_coils c)), Ok true)
}.

(** A service connected to a fake client at 192.168.1.100. *)
Definition connected_service : Service Fake :=
  MkService (Some (MkFake true ∅)) (Some "192.168.1.100") 502 true (Some 0).

(** The addresses of the specification's writable set [{0-6, 15-17}]. *)
Definition in_writable_set (address : Z) : Prop :=
  0 <= address <= 6 \/ 15 <= address <= 17.

End PLCConnectionService.

(** ** backend/models/scan_models.py and backend/services/network_scanner.py *)

Module NetworkScanner.

Inductive Status : Type :=
  | online
  | timeout_
  | connection_refused
  | error.

Definition is_online (st : Status) : bool :=
  match st with online => true | _ => false end.

Record ScanRequest : Type := MkScanRequest {
  req_subnet : string;
  req_start : Z;
  req_end : Z;
  req_timeout : Q
}.

(** [ScanRequest()] with the field defaults. *)
Definition default_request : ScanRequest :=
  MkScanRequest "192.168.1" 1 254 (3 # 10).

Record ScanResult : Type := MkScanResult {
  ip : string;
  port : Z;
  status : Status;
  response_time_ms : option Q;
  error_message : option string
}.

Record DeviceInfo : Type := MkDeviceInfo {
  dev_ip : string;
  dev_port : Z;
  dev_status : Status;
  dev_response_time_ms : Q
}.

Record ScanResponse : Type := MkScanResponse {
  devices : list DeviceInfo;
  count : Z;
  online_count : Z;
  scan_time_seconds : Q;
  subnet_scanned : string
}.

Record Scanner : Type := MkScanner {
  timeout : Q;
  scan_port : Z;
  max_workers : Z
}.

(** [x or 0.0] for an optional float: [None] and [0.0] are falsy. *)
Definition or_zero (x : option Q) : Q :=
  match x with
  | Some v => if Qeq_bool v 0 then 0%Q else v
  | None => 0%Q
  end.

(** The [DeviceInfo(...)] built from an online result. *)
Definition to_device (r : ScanResult) : DeviceInfo :=
  MkDeviceInfo (ip r) (port r) online (or_zero (response_time_ms r)).

(** [list.sort(key=...)] is a stable ascending sort that compares keys with
    [<] only; stable insertion computes the same list. *)
Section Sort.

Context {A : Type} (key : A -> Q).

Definition key_lt (x y : A) : bool := negb (Qle_bool (key y) (key x)).

(** Ascending order of the keys. *)
Definition key_le (x y : A) : Prop := (key x <= key y)%Q.

(** The element's key equals [k]. *)
Definition has_key (k : Q) (x : A) : bool := Qeq_bool (key x) k.

Fixpoint insert_by (x : A) (l : list A) : list A :=
  match l with
  | [] => [x]
  | y :: rest => if key_lt y x then y :: insert_by x rest else x :: y :: rest
  end.

Fixpoint sort_by (l : list A) : list A :=
  match l with
  | [] => []
  | x :: rest => insert_by x (sort_by rest)
  end.

End Sort.

(** The comprehension and the sort of [get_online_devices]. *)
Definition online_devices (results : list ScanResult) : list DeviceInfo :=
  sort_by dev_response_time_ms
    (map to_device (filter (fun r => is_online (status r) = true) results)).

Section Network.

(** The network as the scanner sees it: the outcome of [_probe_ip] for an
    address (the method catches every exception and always returns a
    result), the order in which [as_completed] yields the finished probes,
    and the elapsed [perf_counter] time. *)
Variable _probe_ip : Scanner -> string -> ScanResult.
Variable as_completed : list ScanResult -> list ScanResult.
Variable elapsed : Q.

(** [scan_subnet]; the second component logs the addresses probed.
    [ThreadPoolExecutor] refuses a non-positive [max_workers]. *)
Definition scan_subnet (self : Scanner) (subnet : string) (start end_ : Z)
    (probed : list string)
    : list string * result (list ScanResult * Q) :=
  let ips := map (fun i => subnet +:+ "." +:+ str i) (range2 start (end_ + 1)) in
  if max_workers self <=? 0 then
    (probed, Raise (ValueError "max_workers must be greater than 0"))
  else
    (probed ++ ips, Ok (as_completed (map (_probe_ip self) ips), elapsed)).

(** [get_online_devices]. *)
Definition get_online_devices (self : Scanner) (subnet : string)
    (start end_ : Z) (probed : list string)
    : list string * result (list DeviceInfo * Z * Q) :=
  match scan_subnet self subnet start end_ probed with
  | (probed', Raise e) => (probed', Raise e)
  | (probed', Ok (results, duration)) =>
      (probed',
       Ok (online_devices results, Z.of_nat (length results), duration))
  end.

End Network.

(** The probe outcomes the claims about the scanner speak of: online with a
    latency, or timed out. *)
Definition online_or_timeout (r : ScanResult) : Prop :=
  (status r = online /\ is_Some (response_time_ms r)) \/ status r = timeout_.

(** The candidate addresses of [scan_subnet]. *)
Definition candidates (subnet : string) (start end_ : Z) : list string :=
  map (fun i => subnet +:+ "." +:+ str i) (range2 start (end_ + 1)).

(** A fixture network: 10.0.0.3 answers in 2.5 ms, 10.0.0.5 in 1.25 ms and
    every other address times out. *)
Definition fixture_probe (self : Scanner) (ip : string) : ScanResult :=
  if String.eqb ip "10.0.0.3" then
    MkScanResult ip (scan_port self) online (Some (5 # 2)) None
  else if String.eqb ip "10.0.0.5" then
    MkScanResult ip (scan_port self) online (Some (5 # 4)) None
  else MkScanResult ip (scan_port self) timeout_ None None.

Definition fixture_scanner : Scanner := MkScanner (1 # 10) 502 50.

End NetworkScanner.

(** ** backend/config.py and backend/routes/setup.py *)

Module Setup.

Import NetworkScanner.

Record Settings : Type := MkSettings {
  scanner_default_timeout : Q;
  scanner_default_port : Z;
  scanner_max_workers : Z
}.

Definition default_settings : Settings := MkSettings (3 # 10) 502 50.

Record HTTPException : Type := MkHTTPException {
  status_code : Z;
  detail : string
}.

Section Route.

Variable settings : Settings.
Variable _probe_ip : Scanner -> string -> ScanResult.
Variable as_completed : list ScanResult -> list ScanResult.
Variable elapsed : Q.
(** [round(x, 2)] on a float. *)
Variable round2 : Q -> Q.
(** [str(e)] of a caught exception. *)
Definition exn_str (e : PyExn) : string := exn_args e.

(** [scan_network(request)]; the trace logs every scanner constructed
    together with the addresses it probed. *)
Definition scan_network (request : option ScanRequest)
    (scanners : list Scanner) (probed : list string)
    : list Scanner * list string * (HTTPException + ScanResponse) :=
  let request := match request with
                 | None => default_request
                 | Some r => r
                 end in
  if req_end request <? req_start request then
    (scanners, probed,
     inl (MkHTTPException 400
            ("start (" +:+ str (req_start request) +:+ ") must be <= end ("
             +:+ str (req_end request) +:+ ")")))
  else
    let scanner := MkScanner (req_timeout request)
                     (scanner_default_port settings)
                     (scanner_max_workers settings) in
    match get_online_devices _probe_ip as_completed elapsed scanner
            (req_subnet request) (req_start request) (req_end request)
            probed with
    | (probed', Raise e) =>
        (scanners ++ [scanner], probed',
         inl (MkHTTPException 500 ("Network scan failed: " +:+ exn_str e)))
    | (probed', Ok (devices, count, duration)) =>
        (scanners ++ [scanner], probed',
         inr (MkScanResponse devices count (Z.of_nat (length devices))
                (round2 duration)
                (req_subnet request +:+ "." +:+ str (req_start request)
                 +:+ "-" +:+ str (req_end request))))
    end.

End Route.

End Setup.

(** ** A scripted client for scenarios

    A test double in the style of the specification's scenarios: the
    outcomes of the successive [connect()] calls are fixed in advance; once
    the script is used up [connect()] returns [False]. *)

Module Scripted.

Record Client : Type := MkClient {
  script : list (result bool);
  up : bool
}.

Definition connect (c : Client) : Client * result bool :=
  match script c with
  | [] => (MkClient [] false, Ok false)
  | r :: rest =>
      (MkClient rest (match r with Ok true => true | _ => false end), r)
  end.

Definition disconnect (c : Client) : Client * result unit :=
  (MkClient (script c) false, Ok tt).

Definition is_connected (c : Client) : bool := up c.

#[global] Instance client : BasePLCClient Client := {
  connect := connect;
  disconnect := disconnect;
  is_connected := is_connected
}.

(** A client whose [connect()] never succeeds. *)
Definition dead : Client := MkClient [] false.

(** [connect()] returns [False], raises, returns [False]. *)
Definition fails_three_times : Client :=
  MkClient [Ok false; Raise (ConnectionError "refused"); Ok false] false.


(** An operation closure that returns [42]. *)
Definition read_42 (c : Client) : Client * result Z := (c, Ok 42).

(** A write closure that reports rejection by returning [False]. *)
Definition write_rejected (c : Client) : Client * result bool := (c, Ok false).

End Scripted.

(** ** The backoff formula of the specification *)

Module Spec.

(** [min(baseDelay * 2^min(n,5), maxBackoffDelay)], with the power taken on
    integers and the minimum of the rationals. *)
Definition backoff (baseDelay : Q) (n : Z) (maxBackoffDelay : Q) : Q :=
  Qmin (baseDelay * inject_Z (2 ^ Z.min n 5)) maxBackoffDelay.

#[global] Instance Status_eq_dec : EqDecision NetworkScanner.Status.
Proof. solve_decision. Defined.

(** The online subset of a list of probe results: the results whose status
    is Online, in the order of the list. *)
Definition online_subset (results : list NetworkScanner.ScanResult)
    : list NetworkScanner.ScanResult :=
  filter (fun r => NetworkScanner.status r = NetworkScanner.online) results.

(** A result projected to [DeviceInfo]: the same address and port, the
    status Online and the latency of the result (zero when it has none). *)
Definition projects_to (r : NetworkScanner.ScanResult)
    (d : NetworkScanner.DeviceInfo) : Prop :=
  NetworkScanner.dev_ip d = NetworkScanner.ip r /\
  NetworkScanner.dev_port d = NetworkScanner.port r /\
  NetworkScanner.dev_status d = NetworkScanner.online /\
  (NetworkScanner.dev_response_time_ms d
   == default 0 (NetworkScanner.response_time_ms r))%Q.

End Spec.

(** ** connection_manager.py: status and scoped use *)

Module ManagerStatus.

Import ConnectionManager.

(** Every [time.sleep] recorded in the trace lasted between zero and
    [MAX_BACKOFF_DELAY] seconds. *)
Definition sleep_bounded (e : Event) : Prop :=
  match e with
  | EvSleep d => (0 <= d)%Q /\ (d <= MAX_BACKOFF_DELAY)%Q
  | _ => True
  end.

(** The delays slept, in order. *)
Definition sleeps (tr : Trace) : list Q :=
  omap (fun e => match e with EvSleep d => Some d | _ => None end) tr.

Section Status.

Context {C : Type} `{BasePLCClient C}.

(** The [is_connected] property. *)
Definition is_connected_property (m : PLCConnectionManager C) : bool :=
  _connected m && is_connected (client m).

(** The dict returned by [get_status]. *)
Record Status : Type := MkStatus {
  status_connected : bool;
  status_consecutive_failures : Z;
  status_last_error : option string;
  status_auto_reconnect : bool;
  status_retry_count : Z;
  status_retry_delay : Q
}.

(** [get_status]. *)
Definition get_status (m : PLCConnectionManager C) : Status :=
  MkStatus (is_connected_property m)
           (_consecutive_failures m)
           (match _last_error m with
            | Some e => Some (exn_args e)
            | None => None
            end)
           (auto_reconnect m) (retry_count m) (retry_delay m).

(** [__enter__]: the manager itself is returned, an exception of
    [ensure_connected] is not caught. *)
Definition __enter__ (m : PLCConnectionManager C) (tr : Trace)
    : PLCConnectionManager C * Trace * result unit :=
  match ensure_connected m tr with
  | (m', tr', Ok _) => (m', tr', Ok tt)
  | (m', tr', Raise e) => (m', tr', Raise e)
  end.

(** [__exit__]: disconnects and returns [False], so that an exception of the
    [with] body is not suppressed. *)
Definition __exit__ (m : PLCConnectionManager C)
    : PLCConnectionManager C * bool :=
  (manager_disconnect m, false).

(** What relates the manager and trace before and after a call that makes
    at most [nconnect] calls of [connect()] and [nfunc] calls of the
    operation: the retry policy is kept, the numbers of calls are bounded
    and no sleep exceeds its bounds. *)
Definition bounded_effects (nconnect nfunc : nat)
    (m : PLCConnectionManager C) (tr : Trace)
    (m' : PLCConnectionManager C) (tr' : Trace) : Prop :=
  same_policy m m' /\
  (count is_connect tr' <= count is_connect tr + nconnect)%nat /\
  (count is_func tr' <= count is_func tr + nfunc)%nat /\
  (Forall sleep_bounded tr -> Forall sleep_bounded tr').

End Status.

End ManagerStatus.

(** ** connection_manager.py: the state after a retryable failure *)

Module ManagerRetry.

Import ConnectionManager.

Section Retry.

Context {C : Type} `{BasePLCClient C}.

(** The manager after the [except] clause that catches [e], an [IOError]
    or one of its subclasses. *)
Definition after_failure (e : PyExn) (m : PLCConnectionManager C)
    : PLCConnectionManager C :=
  if isinstance e ConnectionErrorT then connection_lost m
  else operation_failed e m.

(** The delays slept between [n + 1] failed attempts of an operation when
    the counter held [failures] before the first of them. *)
Definition operation_backoffs (m : PLCConnectionManager C) (n : nat) : list Q :=
  map (fun i => backoff_at m (_consecutive_failures m + 1 + Z.of_nat i))
      (seq 0 n).

End Retry.

End ManagerRetry.

(** ** mock_plc.py: helper methods *)

Module MockHelpers.

Import MockPLC.

(** Sequencing of two calls on the instance: the second runs on the state
    the first leaves, unless the first raised. *)
Definition and_then {A B : Type} (r : MockPLC * result A)
    (k : MockPLC -> MockPLC * result B) : MockPLC * result B :=
  match r with
  | (s, Ok _) => k s
  | (s, Raise e) => (s, Raise e)
  end.

(** [min(100, max(0, speed))]. *)
Definition clamp_percent (speed : Z) : Z := Z.min 100 (Z.max 0 speed).

(** [start_conveyor(speed)]. *)
Definition start_conveyor (speed : Z) (s : MockPLC) : MockPLC * result bool :=
  and_then (write_coil COIL_CONVEYOR_RUNNING true s) (fun s1 =>
  and_then (write_register REGISTER_CONVEYOR_SPEED (clamp_percent speed) s1)
    (fun s2 => (s2, Ok true))).

(** [stop_conveyor()]. *)
Definition stop_conveyor (s : MockPLC) : MockPLC * result bool :=
  and_then (write_coil COIL_CONVEYOR_RUNNING false s) (fun s1 =>
  and_then (write_register REGISTER_CONVEYOR_SPEED 0 s1)
    (fun s2 => (s2, Ok true))).

(** [trigger_error(error_code)]. *)
Definition trigger_error (error_code : Z) (s : MockPLC) : MockPLC * result unit :=
  and_then (write_register REGISTER_ERROR_CODE error_code s) (fun s1 =>
  and_then (if 0 <? error_code
            then write_coil COIL_FAULT_ALARM true s1
            else write_coil COIL_FAULT_ALARM false s1)
    (fun s2 => (s2, Ok tt))).

(** [clear_error()]. *)
Definition clear_error (s : MockPLC) : MockPLC * result unit :=
  trigger_error 0 s.

(** [trigger_estop()]. *)
Definition trigger_estop (s : MockPLC) : MockPLC * result unit :=
  and_then (write_coil COIL_E_STOP true s) (fun s1 =>
  and_then (stop_motor s1) (fun s2 =>
  and_then (stop_conveyor s2) (fun s3 => (s3, Ok tt)))).

(** [release_estop()]. *)
Definition release_estop (s : MockPLC) : MockPLC * result unit :=
  and_then (write_coil COIL_E_STOP false s) (fun s1 => (s1, Ok tt)).

(** Everything a user can call on the simulated client. *)
Inductive Call : Type :=
  | Basic (op : Op)
  | StartMotor (speed : Z)
  | StopMotor
  | StartConveyor (speed : Z)
  | StopConveyor
  | TriggerError (error_code : Z)
  | ClearError
  | TriggerEstop
  | ReleaseEstop.

Definition call (s : MockPLC) (c : Call) : MockPLC :=
  match c with
  | Basic op => step s op
  | StartMotor speed => fst (start_motor speed s)
  | StopMotor => fst (stop_motor s)
  | StartConveyor speed => fst (start_conveyor speed s)
  | StopConveyor => fst (stop_conveyor s)
  | TriggerError code => fst (trigger_error code s)
  | ClearError => fst (clear_error s)
  | TriggerEstop => fst (trigger_estop s)
  | ReleaseEstop => fst (release_estop s)
  end.

Definition calls (cs : list Call) (s : MockPLC) : MockPLC := fold_left call cs s.

(** What an item of the [initial_state] dict gives to a register, and to a
    coil: the address and the value, read off the item. *)
Definition register_given (entry : Entry) : option (Z * Z) :=
  match target (entry_key entry) as t return value_type t -> option (Z * Z) with
  | ToRegister a => fun value => Some (a, value)
  | _ => fun _ => None
  end (entry_value entry).
Definition coil_given (entry : Entry) : option (Z * bool) :=
  match target (entry_key entry) as t
        return value_type t -> option (Z * bool) with
  | ToCoil a => fun value => Some (a, value)
  | _ => fun _ => None
  end (entry_value entry).

(** The register and coil addresses the constructor fills in. *)
Definition register_addresses : gset Z := list_to_set [100; 101; 102; 103; 104; 105].
Definition coil_addresses : gset Z := list_to_set [0; 1; 2; 3; 4; 5; 6].

(** All the points of the constructor are present in the stores. *)
Definition populated (s : MockPLC) : Prop :=
  register_addresses ⊆ dom (_registers s) /\ coil_addresses ⊆ dom (_coils s).

(** The stores of [s'] have at least the keys of those of [s]. *)
Definition keeps_keys (s s' : MockPLC) : Prop :=
  dom (_registers s) ⊆ dom (_registers s') /\ dom (_coils s) ⊆ dom (_coils s').

(** Every register holds an integer that a float represents exactly: on
    such values [int(speed * 0.5)] is the integer quotient by two and the
    conversions to float in [_simulate_behavior] and [read_state] cannot
    overflow. *)
Definition float_safe (s : MockPLC) : Prop :=
  map_Forall (fun _ v => Z.abs v < 2 ^ 53) (_registers s).

(** The values [random.randint] can return in [_simulate_behavior]. *)
Definition draws_in_range (r : Draws) : Prop :=
  -5 <= noise r <= 5 /\ 1 <= warming r <= 3 /\ 1 <= cooling r <= 5.

End MockHelpers.

(** ** backend/services/plc_connection.py: session and bulk read *)

Module PLCSession.

Import PLCConnectionService.

(** The rest of [ModbusTCPClient] as the service uses it: the constructor
    (host, port, timeout), [connect], [disconnect] and the two bulk reads.
    Each of them may raise. *)
Class ModbusTCPSession (C : Type) `{ModbusTCPClient C} : Type := {
  new_client : string -> Z -> Q -> result C;
  client_connect : C -> C * result bool;
  client_disconnect : C -> C * result unit;
  client_read_coils : Z -> Z -> C -> C * result (list bool);
  client_read_holding_registers : Z -> Z -> C -> C * result (list Z)
}.

Definition REGISTER_NAMES : gmap Z string :=
  list_to_map
    [(100, "motor_speed"); (101, "motor_current"); (102, "temperature");
     (103, "pressure"); (104, "conveyor_speed"); (105, "error_code")].

(** The dict of [connect]. *)
Record ConnectResult : Type := MkConnectResult {
  connect_success : bool;
  connect_message : string
}.

(** The dict of [get_status]. *)
Record ServiceStatus : Type := MkServiceStatus {
  status_connected : bool;
  status_ip : option string;
  status_port : Z;
  status_last_seen : option Z
}.

(** The dict of [read_io]. *)
Record IOData : Type := MkIOData {
  io_coils : gmap string bool;
  io_inputs : gmap string bool;
  io_outputs : gmap string bool;
  io_registers : gmap string Z;
  io_timestamp : Z
}.

(** The three dicts filled by the loop over [enumerate(coils)]. *)
Fixpoint group_coils (i : Z) (coils : list bool)
    (acc : gmap string bool * gmap string bool * gmap string bool)
    : gmap string bool * gmap string bool * gmap string bool :=
  match coils with
  | [] => acc
  | value :: rest =>
      let '(coil_data, input_data, output_data) := acc in
      let name := default ("coil_" +:+ str i) (COIL_NAMES !! i) in
      group_coils (i + 1) rest
        (if i <=? 6 then (<[name := value]> coil_data, input_data, output_data)
         else if i <=? 14
              then (coil_data, <[name := value]> input_data, output_data)
              else (coil_data, input_data, <[name := value]> output_data))
  end.

(** The dict filled by the loop over [enumerate(registers)]. *)
Fixpoint name_registers (i : Z) (registers : list Z) (acc : gmap string Z)
    : gmap string Z :=
  match registers with
  | [] => acc
  | value :: rest =>
      let addr := 100 + i in
      let name := default ("register_" +:+ str addr) (REGISTER_NAMES !! addr) in
      name_registers (i + 1) rest (<[name := value]> acc)
  end.

(** The names of the program variables (coils 0-6), of the inputs (7-14) and
    of the outputs (15-17), in address order. *)
Definition program_names : list string :=
  ["motor_running"; "motor_stopped"; "fault_alarm"; "conveyor_running";
   "sensor_1_active"; "sensor_2_active"; "e_stop_active"].
Definition input_names : list string :=
  ["DI_00"; "DI_01"; "DI_02"; "DI_03"; "DI_04"; "DI_05"; "DI_06"; "DI_07"].
Definition output_names : list string := ["DO_00"; "DO_01"; "DO_03"].
Definition register_names : list string :=
  ["motor_speed"; "motor_current"; "temperature"; "pressure";
   "conveyor_speed"; "error_code"].

(** The dict with the given keys and values, pairwise. *)
Definition named {V : Type} (names : list string) (values : list V)
    : gmap string V :=
  list_to_map (zip names values).

Section Session.

Context {C : Type} `{ModbusTCPSession C}.

(** The [is_connected] property, without the call log. *)
Definition connected (svc : Service C) : bool := snd (is_connected svc []).

(** [connect(ip, port)]; [now] is [datetime.now()].  An existing client is
    disconnected first, errors ignored; whatever goes wrong afterwards is
    reported in the result, never raised. *)
Definition connect (now : Z) (ip : string) (port : Z) (svc : Service C)
    : Service C * ConnectResult :=
  let old :=
    match _client svc with
    | Some c => Some (fst (client_disconnect c))
    | None => None
    end in
  match new_client ip port 3%Q with
  | Raise e =>
      (MkService old (Some ip) port false (_last_seen svc),
       MkConnectResult false (exn_args e))
  | Ok c =>
      match client_connect c with
      | (c', Ok true) =>
          (MkService (Some c') (Some ip) port true (Some now),
           MkConnectResult true
             ("Connected to " +:+ ip +:+ ":" +:+ str port))
      | (c', Ok false) =>
          (MkService (Some c') (Some ip) port false (_last_seen svc),
           MkConnectResult false
             ("Failed to connect to " +:+ ip +:+ ":" +:+ str port))
      | (c', Raise e) =>
          (MkService (Some c') (Some ip) port false (_last_seen svc),
           MkConnectResult false (exn_args e))
      end
  end.

(** [disconnect()]: the client, if any, is told to disconnect (errors
    ignored) and then dropped. *)
Definition disconnect (svc : Service C) : Service C :=
  let _ := match _client svc with
           | Some c => Some (client_disconnect c)
           | None => None
           end in
  MkService None (_ip svc) (_port svc) false (_last_seen svc).

(** [get_status()]. *)
Definition get_status (svc : Service C) : ServiceStatus :=
  MkServiceStatus (connected svc) (_ip svc) (_port svc) (_last_seen svc).

(** [read_io()]; [now] and [stamp] are the two readings of
    [datetime.now()], for [_last_seen] and for the timestamp returned. *)
Definition read_io (now stamp : Z) (svc : Service C)
    : Service C * result IOData :=
  if negb (connected svc) then
    (svc, Raise (ConnectionError "Not connected to PLC"))
  else
    match _client svc with
    | None => (svc, Raise (MkExn ExceptionT "AttributeError"))
    | Some c =>
        match client_read_coils 0 18 c with
        | (c1, Raise e) =>
            (MkService (Some c1) (_ip svc) (_port svc) (_connected svc)
               (_last_seen svc), Raise e)
        | (c1, Ok coils) =>
            match client_read_holding_registers 100 6 c1 with
            | (c2, Raise e) =>
                (MkService (Some c2) (_ip svc) (_port svc) (_connected svc)
                   (_last_seen svc), Raise e)
            | (c2, Ok registers) =>
                let '(coil_data, input_data, output_data) :=
                  group_coils 0 coils (∅, ∅, ∅) in
                (MkService (Some c2) (_ip svc) (_port svc) (_connected svc)
                   (Some now),
                 Ok (MkIOData coil_data input_data output_data
                       (name_registers 0 registers ∅) stamp))
            end
        end
    end.

End Session.

End PLCSession.

(** ** backend/routes/plc.py *)

Module PLCRoutes.

Import PLCConnectionService PLCSession Setup.

(** What a route handler produces: a response, an [HTTPException], or an
    exception it does not catch. *)
Inductive Outcome (A : Type) : Type :=
  | Response (a : A)
  | HTTPError (e : HTTPException)
  | Uncaught (e : PyExn).
Arguments Response {A} a.
Arguments HTTPError {A} e.
Arguments Uncaught {A} e.

Definition not_connected_detail : string :=
  "Not connected to PLC. Use POST /api/plc/connect first.".

(** The bounds [ge=0, le=17] of [WriteCoilRequest.address]. *)
Definition valid_write_coil_address (address : Z) : bool :=
  (0 <=? address) && (address <=? 17).

Section Routes.

Context {C : Type} `{ModbusTCPSession C}.

(** [get_plc_status]. *)
Definition get_plc_status (svc : Service C) : ServiceStatus := get_status svc.

(** The handlers of a [try] around a service call, in the order of the
    [except] clauses of [write_coil]. *)
Definition write_coil_error {A : Type} (e : PyExn) : Outcome A :=
  if isinstance e ValueErrorT then HTTPError (MkHTTPException 400 (exn_args e))
  else if isinstance e ConnectionErrorT
       then HTTPError (MkHTTPException 503 (exn_args e))
  else if isinstance e IOErrorT
       then HTTPError (MkHTTPException 500 ("Write failed: " +:+ exn_args e))
  else Uncaught e.

(** The [write_coil] route. *)
Definition write_coil (now : Z) (address : Z) (value : bool)
    (svc : Service C) (log : list Call)
    : Service C * list Call * Outcome WriteCoilResult :=
  let '(log1, up) := is_connected svc log in
  if negb up then
    (svc, log1, HTTPError (MkHTTPException 503 not_connected_detail))
  else
    match PLCConnectionService.write_coil now address value svc log1 with
    | (svc', log2, Ok r) => (svc', log2, Response r)
    | (svc', log2, Raise e) => (svc', log2, write_coil_error e)
    end.

(** The [connect_to_plc] route. *)
Definition connect_to_plc (now : Z) (ip : string) (port : Z) (svc : Service C)
    : Service C * ConnectResult :=
  connect now ip port svc.

End Routes.

End PLCRoutes.

(** ** backend/services/network_scanner.py: one probe *)

Module Probe.

Import NetworkScanner.

(** The exception classes [_probe_ip] tells apart, in the order of its
    [except] clauses. *)
Inductive ErrorKind : Type :=
  | TimeoutErrorK
  | ConnectionRefusedErrorK
  | OSErrorK
  | ExceptionK.

(** The course of the [try] block: [connect()] returned true after
    [elapsed_ms] and the client was closed, [connect()] returned false, or
    an exception with the given [str] was raised. *)
Inductive Attempt : Type :=
  | Connected (elapsed_ms : Q)
  | NotConnected
  | Raised (kind : ErrorKind) (message : string).

(** [needle in haystack]. *)
Definition occurs_in (needle haystack : string) : bool :=
  match String.index 0 needle haystack with
  | Some _ => true
  | None => false
  end.

Section Probe.

(** [round(x, 2)] and [str.lower]. *)
Variable round2 : Q -> Q.
Variable lower : string -> string.

(** [_probe_ip(ip)], given the course of the connection attempt. *)
Definition _probe_ip (self : Scanner) (ip : string) (attempt : Attempt)
    : ScanResult :=
  match attempt with
  | Connected elapsed_ms =>
      MkScanResult ip (scan_port self) online (Some (round2 elapsed_ms)) None
  | NotConnected =>
      MkScanResult ip (scan_port self) connection_refused None None
  | Raised TimeoutErrorK _ =>
      MkScanResult ip (scan_port self) timeout_ None None
  | Raised ConnectionRefusedErrorK _ =>
      MkScanResult ip (scan_port self) connection_refused None None
  | Raised OSErrorK message =>
      if occurs_in "timed out" (lower message)
      then MkScanResult ip (scan_port self) timeout_ None None
      else MkScanResult ip (scan_port self) error None (Some message)
  | Raised ExceptionK message =>
      MkScanResult ip (scan_port self) error None (Some message)
  end.

End Probe.

End Probe.

(** ** factory.py *)

Module Factory.

(** The client classes the factory can construct; the two real ones are
    kept as their constructor arguments. *)
Inductive Client : Type :=
  | Mock (plc : MockPLC.MockPLC)
  | Micro820PLC (host : string) (port : Z) (timeout : Q) (retries : Z)
  | FactoryIOMicro820 (host : string) (port : Z) (timeout : Q) (retries : Z)
      (scene_name : string).

(** [x or y] on an optional string, integer and float. *)
Definition or_string (x : option string) (y : string) : string :=
  match x with
  | Some s => if String.eqb s EmptyString then y else s
  | None => y
  end.
Definition or_int (x : option Z) (y : Z) : Z :=
  match x with
  | Some n => if n =? 0 then y else n
  | None => y
  end.
Definition truthy_int (x : option Z) : bool :=
  match x with Some n => negb (n =? 0) | None => false end.
Definition truthy_float (x : option Q) : bool :=
  match x with Some q => negb (Qeq_bool q 0) | None => false end.

Definition unknown_type_message (plc_type : string) : string :=
  "Unknown PLC type: " +:+ plc_type +:+
  ". Valid types: mock, micro820, factoryio_micro820".

Section Environment.

(** The process environment and the string functions of Python the factory
    calls: [os.environ.get], [str.lower], [str.strip], [int] and [float]
    (which raise [ValueError] on a malformed string). *)
Variable environ : string -> option string.
Variable lower strip : string -> string.
Variable int_ : string -> result Z.
Variable float_ : string -> result Q.

(** [os.getenv(name, dflt)]. *)
Definition getenv (name dflt : string) : string := default dflt (environ name).

(** [create_plc_client]. *)
Definition create_plc_client (plc_type host : option string) (port : option Z)
    (timeout : option Q) (retries : option Z) (scene_name : option string)
    : result Client :=
  let plc_type := or_string plc_type (getenv "PLC_TYPE" "mock") in
  let host := or_string host (getenv "PLC_HOST" "localhost") in
  match (if truthy_int port then Ok (default 0 port)
         else int_ (getenv "PLC_PORT" "502")) with
  | Raise e => Raise e
  | Ok port =>
  match (if truthy_float timeout then Ok (default 0%Q timeout)
         else float_ (getenv "PLC_TIMEOUT" "5")) with
  | Raise e => Raise e
  | Ok timeout =>
  match (if truthy_int retries then Ok (default 0 retries)
         else int_ (getenv "PLC_RETRY_COUNT" "3")) with
  | Raise e => Raise e
  | Ok retries =>
      let scene_name :=
        or_string scene_name (getenv "FACTORY_IO_SCENE" "sorting_station") in
      let use_mock :=
        String.eqb (lower (getenv "USE_MOCK_PLC" "false")) "true" in
      let plc_type := if use_mock then "mock" else plc_type in
      let plc_type := strip (lower plc_type) in
      if String.eqb plc_type "mock" then Ok (Mock (MockPLC.init None))
      else if String.eqb plc_type "micro820"
      then Ok (Micro820PLC host port timeout retries)
      else if String.eqb plc_type "factoryio_micro820"
              || String.eqb plc_type "factoryio"
              || String.eqb plc_type "factory_io"
      then Ok (FactoryIOMicro820 host port timeout retries scene_name)
      else Raise (ValueError (unknown_type_message plc_type))
  end end end.

(** [create_managed_client]. *)
Definition create_managed_client (plc_type host : option string)
    (port : option Z) (timeout : option Q) (retries : option Z)
    (scene_name : option string) (auto_reconnect : bool)
    : result (ConnectionManager.PLCConnectionManager Client) :=
  match create_plc_client plc_type host port timeout retries scene_name with
  | Raise e => Raise e
  | Ok client =>
      Ok (ConnectionManager.init client (or_int retries 3) 1%Q auto_reconnect)
  end.

End Environment.

End Factory.

(** ** Test doubles and sample inputs *)

Module Fixtures.

Import PLCConnectionService PLCSession Factory.

(** A scripted client that reports connected from the start. *)
Definition live : Scripted.Client := Scripted.MkClient [] true.

(** A read closure that fails with an [IOError] on every call, and one
    that raises an exception the manager does not handle. *)
Definition read_fails (c : Scripted.Client) : Scripted.Client * result Z :=
  (c, Raise (IOError "read failed")).
Definition read_confused (c : Scripted.Client) : Scripted.Client * result Z :=
  (c, Raise (ValueError "bad register")).

(** The fake client as a full session: a new client starts disconnected
    with no coil set, [connect] always succeeds, a coil never written reads
    as [False] and every register as 0. *)
#[global] Instance fake_session : ModbusTCPSession Fake := {
  new_client _ _ _ := Ok (MkFake false ∅);
  client_connect c := (MkFake true (fake_coils c), Ok true);
  client_disconnect c := (MkFake false (fake_coils c), Ok tt);
  client_read_coils address count c :=
    (c, Ok (map (fun i => default false (fake_coils c !! (address + i)))
              (range count)));
  client_read_holding_registers address count c :=
    (c, Ok (map (fun _ => 0) (range count)))
}.

(** A service that was never connected. *)
Definition idle_service : Service Fake := MkService None None 502 false None.

(** A simulated PLC that is connected and has its motor running at 40 %. *)
Definition running_plc : MockPLC.MockPLC :=
  MockHelpers.calls
    [MockHelpers.Basic MockPLC.OpConnect; MockHelpers.StartMotor 40]
    (MockPLC.init None).

(** Draws of one simulation step: noise -2, warming 2, cooling 3, no sensor
    toggled. *)
Definition quiet_draws : MockPLC.Draws :=
  MockPLC.MkDraws (-2) 2 3 false false false false.

(** [str.lower] and [str.strip] on ASCII strings. *)
Definition ascii_lower (c : Ascii.ascii) : Ascii.ascii :=
  let n := Ascii.N_of_ascii c in
  if ((65 <=? n) && (n <=? 90))%N then Ascii.ascii_of_N (n + 32) else c.
Fixpoint fixture_lower (s : string) : string :=
  match s with
  | EmptyString => EmptyString
  | String c rest => String (ascii_lower c) (fixture_lower rest)
  end.
Definition is_space (c : Ascii.ascii) : bool :=
  let n := Ascii.N_of_ascii c in ((n =? 32) || ((9 <=? n) && (n <=? 13)))%N.
Fixpoint lstrip (l : list Ascii.ascii) : list Ascii.ascii :=
  match l with
  | c :: rest => if is_space c then lstrip rest else l
  | [] => []
  end.
Definition fixture_strip (s : string) : string :=
  String.string_of_list_ascii
    (rev (lstrip (rev (lstrip (String.list_ascii_of_string s))))).

(** [int] and [float] on strings of decimal digits; any other string is
    rejected with a [ValueError]. *)
Fixpoint digits (s : string) (acc : Z) : option Z :=
  match s with
  | EmptyString => Some acc
  | String c rest =>
      let n := Z.of_N (Ascii.N_of_ascii c) in
      if (48 <=? n) && (n <=? 57) then digits rest (10 * acc + (n - 48))
      else None
  end.
Definition fixture_int (s : string) : result Z :=
  match s, digits s 0 with
  | String _ _, Some n => Ok n
  | _, _ => Raise (ValueError ("invalid literal for int() with base 10: '"
                               +:+ s +:+ "'"))
  end.
Definition fixture_float (s : string) : result Q :=
  match s, digits s 0 with
  | String _ _, Some n => Ok (inject_Z n)
  | _, _ => Raise (ValueError ("could not convert string to float: '"
                               +:+ s +:+ "'"))
  end.

(** An environment that forces the mock client and configures a real one. *)
Definition fixture_environ (name : string) : option string :=
  if String.eqb name "USE_MOCK_PLC" then Some "TRUE"
  else if String.eqb name "PLC_TYPE" then Some "micro820"
  else if String.eqb name "PLC_RETRY_COUNT" then Some "5"
  else None.

End Fixtures.

(** * Properties *)

(** ** Python helpers *)

Module PyFacts.

Lemma min_Qmin (a b : Q) : (Py.min a b == Qmin a b)%Q.
Proof.
  unfold Py.min.
  destruct (Qle_bool a b) eqn:E.
  - apply Qle_bool_iff in E. symmetry. apply Q.min_l. exact E.
  - assert (Hlt : (b < a)%Q).
    { apply Qnot_le_lt. intro Hle. apply Qle_bool_iff in Hle. congruence. }
    symmetry. apply Q.min_r. apply Qlt_le_weak. exact Hlt.
Qed.

Lemma two_power (k : Z) : 0 <= k -> ((2 ^ k)%Q == inject_Z (2 ^ k))%Q.
Proof.
  intros Hk. rewrite (Zpower_Qpower 2 k Hk). reflexivity.
Qed.

Lemma length_range (n : Z) : length (range n) = Z.to_nat n.
Proof. unfold range. rewrite length_map, length_seq. reflexivity. Qed.

End PyFacts.

(** ** Connection manager *)

Module ConnectionManagerProps.

Import ConnectionManager PyFacts.

Section Backoff.

Context {C : Type} `{BasePLCClient C}.

Implicit Type m : PLCConnectionManager C.

Lemma backoff_spec m (n : Z) :
  0 <= n ->
  (backoff_at m n == Spec.backoff (retry_delay m) n MAX_BACKOFF_DELAY)%Q.
Proof.
  intros Hn. unfold backoff_at, _calculate_backoff, Spec.backoff. simpl.
  rewrite min_Qmin.
  rewrite (two_power (Z.min n 5)) by lia.
  reflexivity.
Qed.

Lemma backoff_capped m (n : Z) : (backoff_at m n <= MAX_BACKOFF_DELAY)%Q.
Proof.
  unfold backoff_at, _calculate_backoff. rewrite min_Qmin. apply Q.le_min_r.
Qed.

Lemma backoff_nonneg m (n : Z) :
  (0 <= retry_delay m)%Q -> (0 <= backoff_at m n)%Q.
Proof.
  intros Hd. unfold backoff_at, _calculate_backoff. simpl.
  rewrite min_Qmin. apply Q.min_glb.
  - apply Qmult_le_0_compat; [exact Hd|].
    apply Qpower_pos. discriminate.
  - discriminate.
Qed.

Lemma backoff_mono m (n n' : Z) :
  (0 <= retry_delay m)%Q -> 0 <= n <= n' ->
  (backoff_at m n <= backoff_at m n')%Q.
Proof.
  intros Hd Hn.
  rewrite !backoff_spec by lia. unfold Spec.backoff.
  apply Q.min_le_compat_r.
  rewrite !(Qmult_comm (retry_delay m)).
  apply Qmult_le_compat_r; [|exact Hd].
  rewrite <- Zle_Qle. apply Z.pow_le_mono_r; lia.
Qed.

(** C1: for a non-negative base delay and every failure count [n >= 0] the
    delay computed by [_calculate_backoff] is
    [min(baseDelay * 2^min(n,5), maxBackoffDelay)]; it does not decrease
    when [n] grows and it never exceeds [MAX_BACKOFF_DELAY = 30.0]. *)
Theorem calculate_backoff_formula_monotone_capped m (n n' : Z) :
  (0 <= retry_delay m)%Q -> 0 <= n <= n' ->
  (backoff_at m n == Spec.backoff (retry_delay m) n MAX_BACKOFF_DELAY)%Q /\
  (backoff_at m n <= backoff_at m n')%Q /\
  (backoff_at m n <= 30)%Q.
Proof.
  intros Hd Hn. split; [|split].
  - apply backoff_spec. lia.
  - apply backoff_mono; assumption.
  - apply (backoff_capped m n).
Qed.

Lemma calculate_backoff_nonneg m :
  (0 <= retry_delay m)%Q -> (0 <= _calculate_backoff m)%Q.
Proof.
  intros Hd. destruct m as [c rc rd ar co n le].
  apply (backoff_nonneg (MkManager c rc rd ar co n le) n Hd).
Qed.

End Backoff.

(** C1, witness: the default base delay of one second, between two and
    seven consecutive failures. *)
Lemma calculate_backoff_formula_monotone_capped_witness :
  let m := init Scripted.dead DEFAULT_RETRY_COUNT DEFAULT_RETRY_DELAY true in
  (backoff_at m 2 == Spec.backoff (retry_delay m) 2 MAX_BACKOFF_DELAY)%Q /\
  (backoff_at m 2 <= backoff_at m 7)%Q /\
  (backoff_at m 2 <= 30)%Q.
Proof.
  intros m.
  apply (calculate_backoff_formula_monotone_capped m 2 7);
    [discriminate | lia].
Defined.

(** The delays for 0, 1, 2, ... failures with the default base delay. *)
Lemma default_backoff_schedule :
  let m := init Scripted.dead DEFAULT_RETRY_COUNT DEFAULT_RETRY_DELAY true in
  map (backoff_at m) [0; 1; 2; 3; 4; 5; 6; 7] = [1; 2; 4; 8; 16; 30; 30; 30]%Q.
Proof. reflexivity. Qed.

(** *** Traces *)

Lemma count_app (p : Event -> bool) (t1 t2 : Trace) :
  count p (t1 ++ t2) = (count p t1 + count p t2)%nat.
Proof. unfold count. rewrite filter_app, length_app. reflexivity. Qed.

Lemma count_snoc (p : Event -> bool) (t : Trace) (e : Event) :
  count p (t ++ [e]) = (count p t + (if p e then 1 else 0))%nat.
Proof.
  rewrite count_app. f_equal. unfold count.
  destruct (p e) eqn:E.
  - rewrite filter_cons_True by exact E. reflexivity.
  - rewrite filter_cons_False by congruence. reflexivity.
Qed.

Lemma time_sleep_nonneg (d : Q) (tr : Trace) :
  (0 <= d)%Q -> time_sleep d tr = (tr ++ [EvSleep d], Ok tt).
Proof.
  intros Hd. unfold time_sleep.
  apply Qle_bool_iff in Hd. rewrite Hd. reflexivity.
Qed.

(** *** [ensure_connected] *)

Section EnsureConnected.

Context {C : Type} `{BasePLCClient C}.

Implicit Type m : PLCConnectionManager C.

Lemma same_policy_refl m : same_policy m m.
Proof. repeat split. Qed.

Lemma same_policy_trans m1 m2 m3 :
  same_policy m1 m2 -> same_policy m2 m3 -> same_policy m1 m3.
Proof.
  intros (? & ? & ?) (? & ? & ?). repeat split; congruence.
Qed.

Lemma ensure_connected_loop_outcome (attempts : list Z) :
  forall m tr,
    (0 <= retry_delay m)%Q ->
    loop_outcome m tr attempts (ensure_connected_loop attempts m tr).
Proof.
  induction attempts as [|attempt rest IH]; intros m tr Hd; simpl.
  - constructor; auto using same_policy_refl.
  - destruct (connect (client m)) as [c' r] eqn:Ec.
    assert (Hfail : forall m2,
      _consecutive_failures m2 = _consecutive_failures m ->
      same_policy m m2 ->
      loop_outcome m tr (attempt :: rest)
        (if attempt <? retry_count m2 - 1
         then match time_sleep (_calculate_backoff m2) (tr ++ [EvConnect]) with
              | (tr2, Ok _) => ensure_connected_loop rest m2 tr2
              | (tr2, Raise e) => (m2, tr2, Some (Raise e))
              end
         else ensure_connected_loop rest m2 (tr ++ [EvConnect]))).
    { intros m2 Hf Hp.
      assert (Hd2 : (0 <= retry_delay m2)%Q).
      { destruct Hp as (_ & -> & _). exact Hd. }
      destruct (attempt <? retry_count m2 - 1).
      - rewrite time_sleep_nonneg by (apply calculate_backoff_nonneg; exact Hd2).
        specialize (IH m2 ((tr ++ [EvConnect]) ++ [EvSleep (_calculate_backoff m2)]) Hd2).
        inversion IH as [m' tr' H1 H2 H3 H4 | m' tr' H1 H2 H3 H4 H5 H6];
          rewrite !count_snoc in *; simpl in *.
        + apply all_failed; simpl; [congruence | lia | lia |].
          eapply same_policy_trans; eassumption.
        + apply connected; simpl; [assumption | assumption | assumption | lia | lia |].
          eapply same_policy_trans; eassumption.
      - specialize (IH m2 (tr ++ [EvConnect]) Hd2).
        inversion IH as [m' tr' H1 H2 H3 H4 | m' tr' H1 H2 H3 H4 H5 H6];
          rewrite !count_snoc in *; simpl in *.
        + apply all_failed; simpl; [congruence | lia | lia |].
          eapply same_policy_trans; eassumption.
        + apply connected; simpl; [assumption | assumption | assumption | lia | lia |].
          eapply same_policy_trans; eassumption. }
    destruct r as [[|]|e].
    + apply connected; simpl; rewrite ?count_snoc; simpl;
        try reflexivity; try lia.
      repeat split.
    + apply Hfail; [reflexivity | repeat split].
    + apply Hfail; [reflexivity | repeat split].
Qed.


Lemma ensure_connected_outcome m tr :
  (0 <= retry_delay m)%Q ->
  exists m' tr' (b : bool),
    ensure_connected m tr = (m', tr', Ok b) /\
    same_policy m m' /\
    count is_func tr' = count is_func tr /\
    (b = true -> is_connected (client m) = true \/ _consecutive_failures m' = 0).
Proof.
  intros Hd. unfold ensure_connected.
  destruct (is_connected (client m)) eqn:Ec.
  { eexists _, _, true. repeat split; auto. }
  destruct (auto_reconnect m); simpl.
  2:{ eexists _, _, false. repeat split; auto; discriminate. }
  pose proof (ensure_connected_loop_outcome (range (retry_count m)) m tr Hd) as Hl.
  inversion Hl as [m' tr' H1 H2 H3 H4 | m' tr' H1 H2 H3 H4 H5 H6].
  - eexists _, _, false. split; [reflexivity|].
    split; [|split; [assumption | discriminate]].
    destruct H4 as (? & ? & ?). repeat split; assumption.
  - eexists _, _, true. repeat split; try apply H6; auto.
Qed.


End EnsureConnected.



(** *** [read_with_retry] and [write_with_retry] *)

Section Retry.

Context {C : Type} `{BasePLCClient C}.

Implicit Type m : PLCConnectionManager C.

Lemma handle_failure_connection_error (attempt : Z) (msg : string) m tr :
  (0 <= retry_delay m)%Q ->
  handle_failure attempt (ConnectionError msg) m tr =
    if attempt <? retry_count m - 1
    then (connection_lost m,
          tr ++ [EvSleep (_calculate_backoff (connection_lost m))], None)
    else (connection_lost m, tr, Some (ConnectionError msg)).
Proof.
  intros Hd. unfold handle_failure. simpl. fold (connection_lost m).
  destruct (attempt <? retry_count m - 1); [|reflexivity].
  rewrite time_sleep_nonneg; [reflexivity|].
  apply calculate_backoff_nonneg. exact Hd.
Qed.

Lemma handle_failure_io_error (attempt : Z) (msg : string) m tr :
  (0 <= retry_delay m)%Q ->
  handle_failure attempt (IOError msg) m tr =
    if attempt <? retry_count m - 1
    then (operation_failed (IOError msg) m,
          tr ++ [EvSleep (_calculate_backoff (operation_failed (IOError msg) m))],
          None)
    else (operation_failed (IOError msg) m, tr, Some (IOError msg)).
Proof.
  intros Hd. unfold handle_failure. simpl.
  fold (operation_failed (IOError msg) m).
  destruct (attempt <? retry_count m - 1); [|reflexivity].
  rewrite time_sleep_nonneg; [reflexivity|].
  apply calculate_backoff_nonneg. exact Hd.
Qed.

Lemma ensure_connected_already m tr :
  is_connected (client m) = true ->
  ensure_connected m tr = (set_connected true m, tr, Ok true).
Proof. intros Hc. unfold ensure_connected. rewrite Hc. reflexivity. Qed.


End Retry.



Section WriteWithRetry.

Context {C : Type} `{BasePLCClient C}.

Implicit Type m : PLCConnectionManager C.

Variable func : C -> C * result bool.

Hypothesis func_falsy : forall c, snd (func c) = Ok false.

Lemma write_with_retry_loop_never_returns (attempts : list Z) :
  forall m tr,
    (0 <= retry_delay m)%Q ->
    match write_with_retry_loop func attempts m tr with
    | (m', tr', None) =>
        Forall (fun a => a < retry_count m - 1) attempts /\
        (count is_func tr' <= count is_func tr + length attempts)%nat
    | (m', tr', Some (Raise e)) =>
        isinstance e IOErrorT = true /\
        (count is_func tr' <= count is_func tr + length attempts)%nat
    | (_, _, Some (Ok _)) => False
    end.
Proof.
  induction attempts as [|attempt rest IH]; intros m tr Hd; simpl.
  - split; [constructor | lia].
  - destruct (ensure_connected_outcome m tr Hd)
      as (m1 & tr1 & b & He & Hp & Hf & _).
    assert (Hd1 : (0 <= retry_delay m1)%Q).
    { destruct Hp as (_ & -> & _). exact Hd. }
    assert (Hrc : retry_count m1 = retry_count m) by apply Hp.
    unfold call_connected. rewrite He.
    destruct b.
    + destruct (func (client m1)) as [c' r] eqn:Ef.
      pose proof (func_falsy (client m1)) as Hr. rewrite Ef in Hr.
      simpl in Hr. subst r.
      rewrite handle_failure_io_error by exact Hd1. simpl retry_count.
      rewrite Hrc.
      destruct (attempt <? retry_count m - 1) eqn:El.
      * match goal with |- context [write_with_retry_loop func rest ?m2 ?tr2] =>
          specialize (IH m2 tr2 Hd1);
          destruct (write_with_retry_loop func rest m2 tr2) as [[m' tr'] [[v|e]|]]
        end; try exact IH.
        -- destruct IH as [IH1 IH2]. rewrite !count_snoc in IH2. simpl in *.
           split; [exact IH1 | lia].
        -- destruct IH as [IH1 IH2]. rewrite !count_snoc in IH2. simpl in *.
           rewrite Hrc in IH1.
           split; [constructor; [lia | exact IH1] | lia].
      * split; [reflexivity|]. rewrite count_snoc. simpl. lia.
    + rewrite handle_failure_connection_error by exact Hd1. rewrite Hrc.
      destruct (attempt <? retry_count m - 1) eqn:El.
      * match goal with |- context [write_with_retry_loop func rest ?m2 ?tr2] =>
          specialize (IH m2 tr2 Hd1);
          destruct (write_with_retry_loop func rest m2 tr2) as [[m' tr'] [[v|e]|]]
        end; try exact IH.
        -- destruct IH as [IH1 IH2]. rewrite !count_snoc in IH2. simpl in *.
           split; [exact IH1 | lia].
        -- destruct IH as [IH1 IH2]. rewrite !count_snoc in IH2. simpl in *.
           rewrite Hrc in IH1.
           split; [constructor; [lia | exact IH1] | lia].
      * split; [reflexivity|]. lia.
Qed.


Lemma write_with_retry_loop_falsy_as_io_error (attempts : list Z) :
  forall m tr,
    write_with_retry_loop func attempts m tr
    = write_with_retry_loop (raising_io_error func) attempts m tr.
Proof.
  induction attempts as [|attempt rest IH]; intros m tr; [reflexivity|].
  cbn [write_with_retry_loop]. unfold call_connected.
  destruct (ensure_connected m tr) as [[m1 tr1] [[|]|e]].
  - unfold raising_io_error.
    pose proof (func_falsy (client m1)) as Hr.
    destruct (func (client m1)) as [c' r]. simpl in Hr. subst r.
    cbn [fst].
    destruct (handle_failure attempt _ _ _) as [[m2 tr2] [e'|]];
      [reflexivity | apply IH].
  - destruct (handle_failure attempt _ _ _) as [[m2 tr2] [e'|]];
      [reflexivity | apply IH].
  - destruct (handle_failure attempt _ _ _) as [[m2 tr2] [e'|]];
      [reflexivity | apply IH].
Qed.

Lemma write_with_retry_loop_connected (n : nat) :
  forall (k : nat) m tr,
    (forall c, is_connected c = true -> is_connected (fst (func c)) = true) ->
    is_connected (client m) = true ->
    Z.of_nat k + Z.of_nat (S n) = retry_count m ->
    (0 <= retry_delay m)%Q ->
    exists m' tr',
      write_with_retry_loop func (map Z.of_nat (seq k (S n))) m tr =
        (m', tr', Some (Raise (IOError "Write operation returned False"))) /\
      count is_func tr' = (count is_func tr + S n)%nat /\
      count is_sleep tr' = (count is_sleep tr + n)%nat /\
      count is_connect tr' = count is_connect tr /\
      _consecutive_failures m' = _consecutive_failures m + Z.of_nat (S n).
Proof.
  induction n as [|n IH]; intros k m tr Hkeep Hc Hk Hd.
  - cbn [seq map write_with_retry_loop].
    unfold call_connected. rewrite (ensure_connected_already m tr Hc).
    cbn [client set_connected].
    destruct (func (client m)) as [c' r] eqn:Ef.
    pose proof (func_falsy (client m)) as Hr. rewrite Ef in Hr.
    simpl in Hr. subst r.
    rewrite handle_failure_io_error by exact Hd. simpl retry_count.
    replace (Z.of_nat k <? retry_count m - 1) with false
      by (symmetry; apply Z.ltb_ge; lia).
    cbv beta iota.
    eexists _, _. split; [reflexivity|].
    rewrite !count_snoc. simpl. repeat split; lia.
  - change (seq k (S (S n))) with (k :: seq (S k) (S n)).
    remember (seq (S k) (S n)) as rest eqn:Er.
    cbn [map write_with_retry_loop].
    unfold call_connected. rewrite (ensure_connected_already m tr Hc).
    cbn [client set_connected].
    destruct (func (client m)) as [c' r] eqn:Ef.
    pose proof (func_falsy (client m)) as Hr. rewrite Ef in Hr.
    simpl in Hr. subst r.
    rewrite handle_failure_io_error by exact Hd. simpl retry_count.
    replace (Z.of_nat k <? retry_count m - 1) with true
      by (symmetry; apply Z.ltb_lt; lia).
    cbv beta iota.
    subst rest.
    match goal with |- context [write_with_retry_loop func _ ?m2 ?tr2] =>
      destruct (IH (S k) m2 tr2 Hkeep) as (m' & tr' & Hl & H1 & H2 & H3 & H4)
    end.
    + simpl. specialize (Hkeep (client m) Hc). rewrite Ef in Hkeep. exact Hkeep.
    + simpl. lia.
    + exact Hd.
    + eexists _, _. split; [exact Hl|].
      rewrite !count_snoc in *. simpl in *. repeat split; lia.
Qed.

(** C8: when the write closure returns [False] on every call (positive
    attempt budget, non-negative delay), [write_with_retry] behaves as if
    the closure had raised [IOError("Write operation returned False")] each
    time, and it never returns: it raises an [IOError] after at most
    [retry_count] calls of the closure.  If moreover the client stays
    connected, every attempt calls the closure, each falsy return increments
    the counter, a backoff sleep separates the attempts, the closure runs
    exactly [retry_count] times and that [IOError] is raised. *)
Theorem write_with_retry_falsy_raises m tr :
  0 < retry_count m ->
  (0 <= retry_delay m)%Q ->
  exists m' tr' e,
    write_with_retry func m tr = (m', tr', Raise e) /\
    write_with_retry func m tr = write_with_retry (raising_io_error func) m tr /\
    isinstance e IOErrorT = true /\
    (count is_func tr' <= count is_func tr + Z.to_nat (retry_count m))%nat /\
    (is_connected (client m) = true ->
     (forall c, is_connected c = true -> is_connected (fst (func c)) = true) ->
     e = IOError "Write operation returned False" /\
     count is_func tr' = (count is_func tr + Z.to_nat (retry_count m))%nat /\
     count is_sleep tr' = (count is_sleep tr + (Z.to_nat (retry_count m) - 1))%nat /\
     _consecutive_failures m' = _consecutive_failures m + retry_count m).
Proof.
  intros Hrc Hd. unfold write_with_retry.
  pose proof (write_with_retry_loop_never_returns (range (retry_count m)) m tr Hd) as Hg.
  destruct (write_with_retry_loop func (range (retry_count m)) m tr)
    as [[m' tr'] [[v|e]|]] eqn:El.
  - contradiction.
  - destruct Hg as [Hi Hn]. rewrite length_range in Hn.
    exists m', tr', e.
    split; [reflexivity|].
    split.
    { unfold write_with_retry.
      rewrite <- write_with_retry_loop_falsy_as_io_error, El. reflexivity. }
    split; [exact Hi|]. split; [exact Hn|].
    intros Hc Hkeep.
    destruct (Z.to_nat (retry_count m)) as [|n] eqn:En; [lia|].
    destruct (write_with_retry_loop_connected n 0 m tr Hkeep Hc ltac:(lia) Hd)
      as (m2 & tr2 & Hl & H1 & H2 & H3 & H4).
    unfold range in El. rewrite En, Hl in El.
    inversion El; subst m2 tr2 e.
    repeat split; [exact H1 | lia | lia].
  - exfalso. destruct Hg as [Hall _].
    rewrite Forall_forall in Hall.
    specialize (Hall (retry_count m - 1)).
    assert (Hin : retry_count m - 1 ∈ range (retry_count m)).
    { unfold range. apply list_elem_of_fmap.
      exists (Z.to_nat (retry_count m - 1)). split; [lia|].
      apply elem_of_seq. lia. }
    specialize (Hall Hin). lia.
Qed.

End WriteWithRetry.

(** C8, witness of the theorem: a connected client and a closure that
    always reports rejection, three attempts. *)
Lemma write_with_retry_falsy_raises_witness :
  let m := init (Scripted.MkClient [] true) 3 1 true in
  exists m' tr' e,
    write_with_retry Scripted.write_rejected m [] = (m', tr', Raise e) /\
    write_with_retry Scripted.write_rejected m []
      = write_with_retry (raising_io_error Scripted.write_rejected) m [] /\
    isinstance e IOErrorT = true /\
    (count is_func tr' <= count is_func [] + Z.to_nat (retry_count m))%nat /\
    (is_connected (client m) = true ->
     (forall c, is_connected c = true ->
                is_connected (fst (Scripted.write_rejected c)) = true) ->
     e = IOError "Write operation returned False" /\
     count is_func tr' = (count is_func [] + Z.to_nat (retry_count m))%nat /\
     count is_sleep tr' =
       (count is_sleep [] + (Z.to_nat (retry_count m) - 1))%nat /\
     _consecutive_failures m' = _consecutive_failures m + retry_count m).
Proof.
  intros m.
  apply (write_with_retry_falsy_raises Scripted.write_rejected
           (fun c => eq_refl) m []);
    [reflexivity | discriminate].
Defined.

(** With an empty attempt budget the loop body never runs and the call
    returns [False] without calling the closure. *)
Lemma write_with_retry_no_budget :
  let m := init (Scripted.MkClient [] true) 0 1 true in
  write_with_retry Scripted.write_rejected m [] = (m, [], Ok false).
Proof. reflexivity. Qed.

End ConnectionManagerProps.

(** ** Simulated PLC *)

Module MockPLCProps.

Import MockPLC.

(** *** Disconnected instances *)

Lemma ensure_connected_disconnected (s : MockPLC) :
  _connected s = false -> _ensure_connected s = Raise not_connected.
Proof. intros Hs. unfold _ensure_connected. rewrite Hs. reflexivity. Qed.

(** C10: on a disconnected instance each of [read_holding_registers],
    [read_coils], [write_register], [write_coil] and [read_state] raises
    [ConnectionError] and returns the instance unchanged (registers and coils
    included); [connect()], from any state, returns [True], raises nothing
    and only sets the connection flag. *)
Theorem disconnected_operations_raise (s : MockPLC) (rnd rnd' : Draws)
    (address count value now : Z) (b : bool) :
  (_connected s = false ->
   read_holding_registers rnd address count s = (s, Raise not_connected) /\
   read_coils address count s = (s, Raise not_connected) /\
   write_register address value s = (s, Raise not_connected) /\
   write_coil address b s = (s, Raise not_connected) /\
   read_state rnd rnd' now s = (s, Raise not_connected) /\
   exn_type not_connected = ConnectionErrorT) /\
  (connect s = (set_connected true s, Ok true) /\
   is_connected (fst (connect s)) = true /\
   _registers (fst (connect s)) = _registers s /\
   _coils (fst (connect s)) = _coils s).
Proof.
  split.
  - intros Hs.
    unfold read_holding_registers, read_coils, write_register, write_coil,
      read_state.
    rewrite (ensure_connected_disconnected s Hs).
    repeat split.
  - repeat split.
Qed.

(** C10, witness: a freshly constructed instance is disconnected. *)
Lemma disconnected_operations_raise_witness :
  let s := init None in
  (read_holding_registers calm 100 6 s = (s, Raise not_connected) /\
   read_coils 0 7 s = (s, Raise not_connected) /\
   write_register 100 50 s = (s, Raise not_connected) /\
   write_coil 0 true s = (s, Raise not_connected) /\
   read_state calm calm 0 s = (s, Raise not_connected) /\
   exn_type not_connected = ConnectionErrorT) /\
  (connect s = (set_connected true s, Ok true) /\
   is_connected (fst (connect s)) = true /\
   _registers (fst (connect s)) = _registers s /\
   _coils (fst (connect s)) = _coils s).
Proof.
  intros s.
  destruct (disconnected_operations_raise s calm calm 100 6 50 0 true)
    as [Hops Hconnect].
  split; [apply Hops; reflexivity | exact Hconnect].
Defined.

(** [connect()] succeeds from every state. *)
Lemma connect_always_succeeds (s : MockPLC) :
  snd (connect s) = Ok true /\ is_connected (fst (connect s)) = true.
Proof. split; reflexivity. Qed.

(** *** The two motor coils *)

Lemma init_complementary : complementary (init None).
Proof. exists false. split; reflexivity. Qed.

(** [write_coil] on either motor coil re-establishes the complement, as
    its comment announces. *)
Lemma write_coil_complementary (s : MockPLC) (address : Z) (value : bool) :
  _connected s = true ->
  address = COIL_MOTOR_RUNNING \/ address = COIL_MOTOR_STOPPED ->
  complementary (fst (write_coil address value s)).
Proof.
  intros Hs [-> | ->]; unfold write_coil, _ensure_connected; rewrite Hs;
    cbn [negb fst Z.eqb COIL_MOTOR_RUNNING COIL_MOTOR_STOPPED Pos.eqb].
  - exists value. unfold complementary.
    destruct value; cbn [negb set_coil set_register _coils];
      unfold COIL_MOTOR_RUNNING, COIL_MOTOR_STOPPED; split; by simplify_map_eq.
  - exists (negb value). rewrite Bool.negb_involutive.
    cbn [negb set_coil set_register _coils];
      unfold COIL_MOTOR_RUNNING, COIL_MOTOR_STOPPED; split; by simplify_map_eq.
Qed.

(** C2, the code at the failing input: after [connect()] and
    [write_register(100, 50)] on a fresh instance, a write that updates the
    [motor_stopped] coil, both motor coils are [False]; they are not
    complementary. *)
Theorem write_register_breaks_complement :
  _coils speed_written !! COIL_MOTOR_RUNNING = Some false /\
  _coils speed_written !! COIL_MOTOR_STOPPED = Some false /\
  ~ complementary speed_written /\
  ~ (forall ops : list Op, complementary (run ops (init None))).
Proof.
  split; [reflexivity | split; [reflexivity |]].
  assert (Hbroken : ~ complementary speed_written);
    [| split; [exact Hbroken |];
       intros Hall; apply Hbroken; apply (Hall [OpConnect; OpWriteRegister REGISTER_MOTOR_SPEED 50])].
  intros [r [H1 H2]].
  assert (Hr : _coils speed_written !! COIL_MOTOR_RUNNING = Some false)
    by reflexivity.
  assert (Hs : _coils speed_written !! COIL_MOTOR_STOPPED = Some false)
    by reflexivity.
  rewrite Hr in H1. rewrite Hs in H2.
  destruct r; discriminate.
Qed.

(** The same defect through the helper [start_motor]: at speed 0 the
    [write_register] it ends with sets [motor_stopped] while the motor coil
    stays set. *)
Lemma start_motor_zero_speed :
  let s := fst (start_motor 0 (fst (connect (init None)))) in
  _coils s !! COIL_MOTOR_RUNNING = Some true /\
  _coils s !! COIL_MOTOR_STOPPED = Some true.
Proof. split; reflexivity. Qed.

(** *** Simulation steps *)

(** [read_coils] returns the instance as it received it. *)
Lemma read_coils_state (s : MockPLC) (address count : Z) :
  fst (read_coils address count s) = s.
Proof. unfold read_coils. destruct (_ensure_connected s); reflexivity. Qed.

(** C7, the code at the failing input: with the motor running at speed 50
    a register read runs one simulation step (current 0 -> 25, temperature
    250 -> 251 for draws without noise), a coil read runs none (the
    instance is returned unchanged and no exception is raised), and
    [read_state] runs two (temperature 250 -> 252). *)
Theorem read_coils_runs_no_simulation_step :
  let s := motor_at_half_speed in
  _connected s = true /\
  _registers s !! REGISTER_MOTOR_CURRENT = Some 0 /\
  _registers s !! REGISTER_TEMPERATURE = Some 250 /\
  (let s1 := fst (read_holding_registers calm 100 6 s) in
   _registers s1 !! REGISTER_MOTOR_CURRENT = Some 25 /\
   _registers s1 !! REGISTER_TEMPERATURE = Some 251) /\
  (fst (read_coils 0 7 s) = s /\
   snd (read_coils 0 7 s)
     = Ok [true; false; false; false; false; false; false]) /\
  (let s2 := fst (read_state calm calm 0 s) in
   _registers s2 !! REGISTER_TEMPERATURE = Some 252).
Proof.
  intros s. split; [reflexivity|].
  split; [reflexivity|]. split; [reflexivity|].
  split; [split; reflexivity|].
  split; [split; [apply read_coils_state | reflexivity]|].
  reflexivity.
Qed.

End MockPLCProps.

(** ** Connection service *)

Module PLCConnectionServiceProps.

Import PLCConnectionService.

Lemma writable_coils_listed :
  WRITABLE_COILS = [0; 1; 2; 3; 4; 5; 6; 15; 16; 17].
Proof. reflexivity. Qed.

Lemma contains_writable (address : Z) :
  contains WRITABLE_COILS address = true <-> in_writable_set address.
Proof.
  rewrite writable_coils_listed. unfold contains, in_writable_set. simpl.
  rewrite !Bool.orb_true_iff, !Z.eqb_eq. lia.
Qed.

Section Service.

Context {C : Type} `{ModbusTCPClient C}.

(** C5: on a connected service, [write_coil] to an address outside the
    writable set [{0-6, 15-17}] raises [ValueError] with the message
    "Address <address> is not writable. Writable: [0, 1, 2, 3, 4, 5, 6, 15,
    16, 17]"; the service and its client are left as they were and no
    write call reaches the client. *)
Theorem write_coil_rejects_unwritable_address
    (now address : Z) (value : bool) (svc : Service C) (c : C)
    (log : list Call) :
  _client svc = Some c ->
  client_is_connected c = Ok true ->
  ~ in_writable_set address ->
  exists log',
    write_coil now address value svc log =
      (svc, log',
       Raise (ValueError
                ("Address " +:+ str address +:+
                 " is not writable. Writable: [0, 1, 2, 3, 4, 5, 6, 15, 16, 17]")))
    /\ write_calls log' = write_calls log.
Proof.
  intros Hc Hup Hout.
  exists (log ++ [CallIsConnected]).
  assert (E : contains WRITABLE_COILS address = false).
  { destruct (contains WRITABLE_COILS address) eqn:E; [|reflexivity].
    apply contains_writable in E. contradiction. }
  unfold write_coil, is_connected. rewrite Hc, Hup.
  cbv beta iota. change (negb true) with false. cbv iota.
  rewrite E. split; [reflexivity|].
  unfold write_calls. rewrite filter_app, length_app. simpl. lia.
Qed.

End Service.

(** C5, witness: the scenario of the specification, a write to address 8. *)
Lemma write_coil_rejects_unwritable_address_witness :
  exists log',
    write_coil 1 8 true connected_service [] =
      (connected_service, log',
       Raise (ValueError
                "Address 8 is not writable. Writable: [0, 1, 2, 3, 4, 5, 6, 15, 16, 17]"))
    /\ write_calls log' = write_calls [].
Proof.
  apply (write_coil_rejects_unwritable_address 1 8 true connected_service
           (MkFake true ∅) []);
    [reflexivity | reflexivity | unfold in_writable_set; lia].
Defined.

End PLCConnectionServiceProps.

(** ** Network scanner *)

Module NetworkScannerProps.

Import NetworkScanner.

Section SortFacts.

Context {A : Type} (key : A -> Q).

Lemma key_lt_true (x y : A) : key_lt key x y = true -> key_le key x y.
Proof.
  unfold key_lt, key_le. intros Hlt.
  apply Qlt_le_weak, Qnot_le_lt. intros Hle.
  apply Qle_bool_iff in Hle. rewrite Hle in Hlt. discriminate.
Qed.

Lemma key_lt_false (x y : A) : key_lt key x y = false -> key_le key y x.
Proof.
  unfold key_lt, key_le. intros Hlt.
  apply Qle_bool_iff. destruct (Qle_bool (key y) (key x)); [reflexivity | discriminate].
Qed.

Lemma insert_by_perm (x : A) (l : list A) : insert_by key x l ≡ₚ x :: l.
Proof.
  induction l as [|y rest IH]; simpl.
  - reflexivity.
  - destruct (key_lt key y x).
    + rewrite IH. apply perm_swap.
    + reflexivity.
Qed.

Lemma sort_by_perm (l : list A) : sort_by key l ≡ₚ l.
Proof.
  induction l as [|x rest IH]; simpl.
  - reflexivity.
  - rewrite insert_by_perm, IH. reflexivity.
Qed.

Lemma insert_by_sorted (x : A) (l : list A) :
  StronglySorted (key_le key) l -> StronglySorted (key_le key) (insert_by key x l).
Proof.
  induction 1 as [|y rest Hs IH Hall]; simpl.
  - repeat constructor.
  - destruct (key_lt key y x) eqn:E.
    + constructor; [exact IH|].
      rewrite insert_by_perm. constructor; [|exact Hall].
      apply key_lt_true. exact E.
    + apply key_lt_false in E.
      constructor; [constructor; assumption|].
      constructor; [exact E|].
      eapply Forall_impl; [exact Hall|].
      intros z Hz. unfold key_le in *. eapply Qle_trans; eassumption.
Qed.

Lemma sort_by_sorted (l : list A) : StronglySorted (key_le key) (sort_by key l).
Proof.
  induction l as [|x rest IH]; simpl.
  - constructor.
  - apply insert_by_sorted. exact IH.
Qed.

(** The sort is stable: the elements that share a key come out in the
    order in which they went in. *)
Lemma insert_by_stable (k : Q) (x : A) (l : list A) :
  List.filter (has_key key k) (insert_by key x l)
  = List.filter (has_key key k) (x :: l).
Proof.
  induction l as [|y rest IH]; [reflexivity|].
  cbn [insert_by]. destruct (key_lt key y x) eqn:E; [|reflexivity].
  cbn [List.filter] in *. rewrite IH.
  destruct (has_key key k y) eqn:Ey, (has_key key k x) eqn:Ex; try reflexivity.
  exfalso. unfold has_key in Ey, Ex. unfold key_lt in E.
  apply Qeq_bool_iff in Ey, Ex.
  assert (Hle : Qle_bool (key x) (key y) = true).
  { apply Qle_bool_iff. rewrite Ey, Ex. apply Qle_refl. }
  rewrite Hle in E. discriminate.
Qed.

Lemma sort_by_stable (k : Q) (l : list A) :
  List.filter (has_key key k) (sort_by key l) = List.filter (has_key key k) l.
Proof.
  induction l as [|x rest IH]; [reflexivity|].
  cbn [sort_by]. rewrite insert_by_stable.
  cbn [List.filter]. rewrite IH. reflexivity.
Qed.

End SortFacts.

Lemma or_zero_some (l : Q) : (or_zero (Some l) == l)%Q.
Proof.
  unfold or_zero. destruct (Qeq_bool l 0) eqn:E; [|reflexivity].
  apply Qeq_bool_iff in E. symmetry. exact E.
Qed.

Lemma online_devices_perm (results : list ScanResult) :
  online_devices results ≡ₚ
    map to_device (filter (fun r => is_online (status r) = true) results).
Proof. unfold online_devices. apply sort_by_perm. Qed.

Lemma online_devices_sorted (results : list ScanResult) :
  StronglySorted (key_le dev_response_time_ms) (online_devices results).
Proof. unfold online_devices. apply sort_by_sorted. Qed.

(** The filter of the code selects the online subset. *)
Lemma online_filter (results : list ScanResult) :
  filter (fun r => is_online (status r) = true) results
  = Spec.online_subset results.
Proof.
  unfold Spec.online_subset. apply list_filter_iff. intros r.
  destruct (status r); cbn; split; congruence.
Qed.

Lemma or_zero_default (x : option Q) : (or_zero x == default 0 x)%Q.
Proof.
  destruct x as [l|]; [apply or_zero_some | reflexivity].
Qed.

Lemma to_device_projects (r : ScanResult) : Spec.projects_to r (to_device r).
Proof.
  repeat split. cbn. apply or_zero_default.
Qed.

(** The devices are the online subset, each result projected, in some
    order. *)
Lemma online_devices_subset (results : list ScanResult) :
  exists online_results,
    online_results ≡ₚ Spec.online_subset results /\
    Forall2 Spec.projects_to online_results (online_devices results).
Proof.
  pose proof (online_devices_perm results) as Hp.
  rewrite online_filter in Hp.
  apply Permutation_map_inv in Hp as (online_results & Heq & Hperm).
  exists online_results. split; [symmetry; exact Hperm|].
  rewrite Heq. apply Forall2_fmap_r, Forall_Forall2_diag, Forall_forall.
  intros r _. apply to_device_projects.
Qed.

Lemma online_subset_online (results : list ScanResult) (r : ScanResult) :
  r ∈ Spec.online_subset results <-> r ∈ results /\ status r = online.
Proof.
  unfold Spec.online_subset. rewrite list_elem_of_filter. tauto.
Qed.

Section Network.

Variable _probe_ip : Scanner -> string -> ScanResult.
Variable as_completed : list ScanResult -> list ScanResult.
Variable elapsed : Q.

(** Every submitted probe completes exactly once, in some order. *)
Hypothesis as_completed_perm : forall l, as_completed l ≡ₚ l.

(** C6: when the probes of the candidate addresses come back online with a
    latency or timed out, [get_online_devices] returns exactly the online
    subset of the results (the results whose status is online), each
    projected to its [DeviceInfo] (same address and port, status online,
    the recorded latency), in ascending order of latency, together with the
    number of addresses scanned. *)
Theorem get_online_devices_sorted_online_subset
    (self : Scanner) (subnet : string) (start end_ : Z)
    (probed : list string) :
  let ips := candidates subnet start end_ in
  let results := as_completed (map (_probe_ip self) ips) in
  0 < max_workers self ->
  Forall online_or_timeout results ->
  exists devices online_results,
    get_online_devices _probe_ip as_completed elapsed self subnet start end_
      probed = (probed ++ ips, Ok (devices, Z.of_nat (length ips), elapsed)) /\
    length results = length ips /\
    online_results ≡ₚ Spec.online_subset results /\
    Forall2 Spec.projects_to online_results devices /\
    Forall (fun r => exists l, response_time_ms r = Some l) online_results /\
    StronglySorted (key_le dev_response_time_ms) devices.
Proof.
  intros ips results Hw Hres.
  assert (Hlen : length results = length ips).
  { unfold results. rewrite as_completed_perm, length_map. reflexivity. }
  destruct (online_devices_subset results) as (online_results & Hperm & Hproj).
  exists (online_devices results), online_results.
  split; [|split; [exact Hlen | split; [exact Hperm | split; [exact Hproj |
            split; [|apply online_devices_sorted]]]]].
  - unfold get_online_devices, scan_subnet.
    replace (max_workers self <=? 0) with false
      by (symmetry; apply Z.leb_gt; exact Hw).
    fold (candidates subnet start end_). fold ips. fold results.
    rewrite Hlen. reflexivity.
  - apply Forall_forall. intros r Hr.
    rewrite Hperm in Hr. apply online_subset_online in Hr as [Hin Hon].
    rewrite Forall_forall in Hres.
    destruct (Hres r Hin) as [[_ [l Hl]] | Ht].
    + exists l. exact Hl.
    + rewrite Ht in Hon. discriminate.
Qed.

End Network.

(** C6, witness: the fixture network scanned over 10.0.0.1-5, the probes
    completing in reverse order of submission. *)
Lemma get_online_devices_sorted_online_subset_witness :
  let ips := candidates "10.0.0" 1 5 in
  let results := rev (map (fixture_probe fixture_scanner) ips) in
  exists devices online_results,
    get_online_devices fixture_probe (@rev ScanResult) (3 # 10) fixture_scanner
      "10.0.0" 1 5 [] = ([] ++ ips, Ok (devices, Z.of_nat (length ips), 3 # 10)) /\
    length results = length ips /\
    online_results ≡ₚ Spec.online_subset results /\
    Forall2 Spec.projects_to online_results devices /\
    Forall (fun r => exists l, response_time_ms r = Some l) online_results /\
    StronglySorted (key_le dev_response_time_ms) devices.
Proof.
  intros ips results.
  apply (get_online_devices_sorted_online_subset fixture_probe (@rev ScanResult)
           (3 # 10) (fun l => Permutation_sym (Permutation_rev l))
           fixture_scanner "10.0.0" 1 5 []).
  - reflexivity.
  - vm_compute.
    repeat (constructor;
            [first [right; reflexivity
                   | left; split; [reflexivity | eexists; reflexivity]]|]).
    constructor.
Defined.

(** The scenario of the specification on the fixture: five addresses
    scanned, two online, the faster one first. *)
Lemma fixture_scan :
  get_online_devices fixture_probe (@rev ScanResult) (3 # 10) fixture_scanner
    "10.0.0" 1 5 []
  = (["10.0.0.1"; "10.0.0.2"; "10.0.0.3"; "10.0.0.4"; "10.0.0.5"],
     Ok ([MkDeviceInfo "10.0.0.5" 502 online (5 # 4);
          MkDeviceInfo "10.0.0.3" 502 online (5 # 2)], 5, 3 # 10)).
Proof. reflexivity. Qed.

End NetworkScannerProps.

(** ** Scan endpoint *)

Module SetupProps.

Import NetworkScanner Setup.

Section Route.

Variable settings : Settings.
Variable _probe_ip : Scanner -> string -> ScanResult.
Variable as_completed : list ScanResult -> list ScanResult.
Variable elapsed : Q.
Variable round2 : Q -> Q.

(** C9: a scan request with [start > end] is answered with
    [HTTPException(400)] naming both bounds; no scanner is constructed and
    no address is probed. *)
Theorem scan_network_rejects_inverted_range
    (request : ScanRequest) (scanners : list Scanner)
    (probed : list string) :
  req_start request > req_end request ->
  scan_network settings _probe_ip as_completed elapsed round2
    (Some request) scanners probed =
  (scanners, probed,
   inl (MkHTTPException 400
          ("start (" +:+ str (req_start request) +:+ ") must be <= end ("
           +:+ str (req_end request) +:+ ")"))).
Proof.
  intros Hgt. unfold scan_network.
  replace (req_end request <? req_start request) with true
    by (symmetry; apply Z.ltb_lt; lia).
  reflexivity.
Qed.

End Route.

(** C9, witness: the range 9-3 of subnet 10.0.0 on the fixture network. *)
Lemma scan_network_rejects_inverted_range_witness :
  scan_network default_settings fixture_probe (@rev ScanResult) (3 # 10)
    (fun q => q) (Some (MkScanRequest "10.0.0" 9 3 (1 # 10))) [] [] =
  ([], [], inl (MkHTTPException 400 "start (9) must be <= end (3)")).
Proof.
  apply (scan_network_rejects_inverted_range default_settings fixture_probe
           (@rev ScanResult) (3 # 10) (fun q => q)
           (MkScanRequest "10.0.0" 9 3 (1 # 10)) [] []).
  reflexivity.
Defined.

(** A well-ordered range is scanned: one scanner, one probe per address. *)
Lemma scan_network_fixture :
  match scan_network default_settings fixture_probe (@rev ScanResult) (3 # 10)
          (fun q => q) (Some (MkScanRequest "10.0.0" 1 5 (1 # 10))) [] [] with
  | (scanners, probed, inr response) =>
      length scanners = 1%nat /\ length probed = 5%nat /\
      count response = 5 /\ online_count response = 2
  | (_, _, inl _) => False
  end.
Proof. vm_compute. repeat split. Qed.

End SetupProps.

(** ** Connection manager: further properties *)

Module ManagerStatusProps.

Import ConnectionManager PyFacts ConnectionManagerProps ManagerStatus.

Lemma calculate_backoff_le_max {C : Type} `{BasePLCClient C}
    (m : PLCConnectionManager C) :
  (_calculate_backoff m <= MAX_BACKOFF_DELAY)%Q.
Proof.
  unfold _calculate_backoff. rewrite min_Qmin. apply Q.le_min_r.
Qed.

Section Effects.

Context {C : Type} `{BasePLCClient C}.

Implicit Type m : PLCConnectionManager C.

Lemma bounded_effects_refl m tr : bounded_effects 0 0 m tr m tr.
Proof. repeat split; auto; lia. Qed.

Lemma bounded_effects_trans (a b a' b' : nat) m1 tr1 m2 tr2 m3 tr3 :
  bounded_effects a b m1 tr1 m2 tr2 ->
  bounded_effects a' b' m2 tr2 m3 tr3 ->
  bounded_effects (a + a') (b + b') m1 tr1 m3 tr3.
Proof.
  intros (Hp & Hc & Hf & Hs) (Hp' & Hc' & Hf' & Hs').
  split; [eapply same_policy_trans; eassumption|].
  repeat split; auto; lia.
Qed.

Lemma bounded_effects_weaken (a b a' b' : nat) m tr m' tr' :
  (a <= a')%nat -> (b <= b')%nat ->
  bounded_effects a b m tr m' tr' -> bounded_effects a' b' m tr m' tr'.
Proof.
  intros Ha Hb (Hp & Hc & Hf & Hs). repeat split; auto; try apply Hp; lia.
Qed.

(** A backoff sleep either is recorded within its bounds or raises. *)
Lemma time_sleep_effects m tr :
  match time_sleep (_calculate_backoff m) tr with
  | (tr', _) => bounded_effects 0 0 m tr m tr'
  end.
Proof.
  unfold time_sleep.
  destruct (Qle_bool 0 (_calculate_backoff m)) eqn:E.
  - apply Qle_bool_iff in E.
    repeat split; rewrite ?count_snoc; simpl; try lia.
    intros Hs. apply Forall_app. split; [exact Hs|].
    constructor; [|constructor].
    split; [exact E | apply calculate_backoff_le_max].
  - apply bounded_effects_refl.
Qed.

Lemma ensure_connected_loop_effects (attempts : list Z) :
  forall m tr,
    match ensure_connected_loop attempts m tr with
    | (m', tr', r) =>
        bounded_effects (length attempts) 0 m tr m' tr' /\
        match r with
        | Some (Ok true) => _connected m' = true /\ _consecutive_failures m' = 0
        | Some (Ok false) => False
        | _ => True
        end
    end.
Proof.
  induction attempts as [|attempt rest IH]; intros m tr;
    cbn [ensure_connected_loop length].
  - split; [apply bounded_effects_refl | exact I].
  - destruct (connect (client m)) as [c' r].
    assert (Hstep : forall m2,
      same_policy m m2 ->
      match
        (if attempt <? retry_count m2 - 1
         then match time_sleep (_calculate_backoff m2) (tr ++ [EvConnect]) with
              | (tr2, Ok _) => ensure_connected_loop rest m2 tr2
              | (tr2, Raise e) => (m2, tr2, Some (Raise e))
              end
         else ensure_connected_loop rest m2 (tr ++ [EvConnect]))
      with
      | (m', tr', r) =>
          bounded_effects (S (length rest)) 0 m tr m' tr' /\
          match r with
          | Some (Ok true) =>
              _connected m' = true /\ _consecutive_failures m' = 0
          | Some (Ok false) => False
          | _ => True
          end
      end).
    { intros m2 Hp.
      assert (H0 : bounded_effects 1 0 m tr m2 (tr ++ [EvConnect])).
      { repeat split; try apply Hp; rewrite ?count_snoc; simpl; try lia.
        intros Hs. apply Forall_app. split; [exact Hs|].
        repeat constructor. }
      destruct (attempt <? retry_count m2 - 1).
      - pose proof (time_sleep_effects m2 (tr ++ [EvConnect])) as Hsl.
        destruct (time_sleep (_calculate_backoff m2) (tr ++ [EvConnect]))
          as [tr2 [u|e]].
        + specialize (IH m2 tr2).
          destruct (ensure_connected_loop rest m2 tr2) as [[m' tr'] r'].
          destruct IH as [IH1 IH2]. split; [|exact IH2].
          apply (bounded_effects_trans 1 0 (length rest) 0 _ _ _ _ _ _
                   (bounded_effects_trans 1 0 0 0 _ _ _ _ _ _ H0 Hsl) IH1).
        + split; [|exact I].
          eapply bounded_effects_weaken;
            [| | exact (bounded_effects_trans 1 0 0 0 _ _ _ _ _ _ H0 Hsl)]; lia.
      - specialize (IH m2 (tr ++ [EvConnect])).
        destruct (ensure_connected_loop rest m2 (tr ++ [EvConnect]))
          as [[m' tr'] r'].
        destruct IH as [IH1 IH2]. split; [|exact IH2].
        apply (bounded_effects_trans 1 0 (length rest) 0 _ _ _ _ _ _ H0 IH1). }
    destruct r as [[|]|e].
    + split; [|split; reflexivity].
      repeat split; rewrite ?count_snoc; simpl; try lia.
      intros Hs. apply Forall_app. split; [exact Hs|]. repeat constructor.
    + apply Hstep. repeat split.
    + apply Hstep. repeat split.
Qed.

Lemma ensure_connected_effects m tr :
  match ensure_connected m tr with
  | (m', tr', r) =>
      bounded_effects (Z.to_nat (retry_count m)) 0 m tr m' tr' /\
      (r = Ok true -> _connected m' = true)
  end.
Proof.
  unfold ensure_connected.
  destruct (is_connected (client m)).
  { split; [|reflexivity]. repeat split; auto; lia. }
  destruct (auto_reconnect m); cbn [negb].
  2:{ split; [|discriminate]. repeat split; auto; lia. }
  pose proof (ensure_connected_loop_effects (range (retry_count m)) m tr) as Hl.
  rewrite length_range in Hl.
  destruct (ensure_connected_loop (range (retry_count m)) m tr)
    as [[m' tr'] [[[|]|e]|]]; destruct Hl as [Hb Hr].
  - split; [exact Hb | intros _; apply Hr].
  - contradiction.
  - split; [exact Hb | discriminate].
  - split; [|discriminate].
    destruct Hb as (Hp & Hc & Hf & Hs). repeat split; auto; apply Hp.
Qed.

End Effects.

(** *** The retry loops, for an arbitrary operation *)

Section RetryEffects.

Context {C : Type} `{BasePLCClient C}.

Implicit Type m : PLCConnectionManager C.

Lemma handle_failure_effects (attempt : Z) (e : PyExn) m tr :
  match handle_failure attempt e m tr with
  | (m', tr', o) =>
      bounded_effects 0 0 m tr m' tr' /\
      (o = None -> attempt < retry_count m - 1)
  end.
Proof.
  unfold handle_failure.
  destruct (isinstance e ConnectionErrorT).
  - cbn zeta. change (retry_count (connection_lost m)) with (retry_count m).
    destruct (attempt <? retry_count m - 1) eqn:El.
    + pose proof (time_sleep_effects (connection_lost m) tr) as Hs.
      destruct (time_sleep (_calculate_backoff (connection_lost m)) tr)
        as [tr1 [u|e']].
      * split; [|intros _; apply Z.ltb_lt; exact El].
        destruct Hs as (_ & Hc & Hf & Hs). repeat split; auto.
      * split; [|discriminate].
        destruct Hs as (_ & Hc & Hf & Hs). repeat split; auto.
    + split; [|discriminate]. repeat split; auto; lia.
  - destruct (isinstance e IOErrorT).
    + cbn zeta.
      change (retry_count (operation_failed e m)) with (retry_count m).
      destruct (attempt <? retry_count m - 1) eqn:El.
      * pose proof (time_sleep_effects (operation_failed e m) tr) as Hs.
        destruct (time_sleep (_calculate_backoff (operation_failed e m)) tr)
          as [tr1 [u|e']].
        -- split; [|intros _; apply Z.ltb_lt; exact El].
           destruct Hs as (_ & Hc & Hf & Hs). repeat split; auto.
        -- split; [|discriminate].
           destruct Hs as (_ & Hc & Hf & Hs). repeat split; auto.
      * split; [|discriminate]. repeat split; auto; lia.
    + split; [|discriminate]. apply bounded_effects_refl.
Qed.

Lemma call_connected_effects {T : Type} (func : C -> C * result T) m tr :
  match call_connected func m tr with
  | (m', tr', _) =>
      bounded_effects (Z.to_nat (retry_count m)) 1 m tr m' tr'
  end.
Proof.
  unfold call_connected.
  pose proof (ensure_connected_effects m tr) as He.
  destruct (ensure_connected m tr) as [[m1 tr1] [[|]|e]];
    destruct He as [Hb _].
  - destruct (func (client m1)) as [c' r].
    destruct Hb as (Hp & Hc & Hf & Hs).
    repeat split; try apply Hp; rewrite ?count_snoc; simpl; try lia.
    intros Hs0. apply Forall_app. split; [auto | repeat constructor].
  - eapply bounded_effects_weaken; [| | exact Hb]; lia.
  - eapply bounded_effects_weaken; [| | exact Hb]; lia.
Qed.

(** One attempt followed by the handling of its failure. *)
Lemma attempt_effects (n : nat) m tr m1 tr1 m2 tr2 (rest : nat) m3 tr3 :
  n = Z.to_nat (retry_count m) ->
  bounded_effects n 1 m tr m1 tr1 ->
  bounded_effects 0 0 m1 tr1 m2 tr2 ->
  bounded_effects (rest * Z.to_nat (retry_count m2)) rest m2 tr2 m3 tr3 ->
  bounded_effects (S rest * n) (S rest) m tr m3 tr3.
Proof.
  intros Hn H1 H2 H3.
  assert (Hrc : retry_count m2 = retry_count m).
  { pose proof H1 as ((E1 & _) & _). pose proof H2 as ((E2 & _) & _).
    congruence. }
  rewrite Hrc, <- Hn in H3.
  pose proof (bounded_effects_trans _ _ _ _ _ _ _ _ _ _
                (bounded_effects_trans _ _ _ _ _ _ _ _ _ _ H1 H2) H3) as Hb.
  eapply bounded_effects_weaken; [| | exact Hb]; simpl; lia.
Qed.

Lemma read_with_retry_loop_effects {T : Type} (func : C -> C * result T)
    (attempts : list Z) :
  forall m tr,
    match read_with_retry_loop func attempts m tr with
    | (m', tr', r) =>
        bounded_effects (length attempts * Z.to_nat (retry_count m))
          (length attempts) m tr m' tr' /\
        match r with
        | Some (Ok _) => _consecutive_failures m' = 0
        | Some (Raise _) => True
        | None => Forall (fun a => a < retry_count m - 1) attempts
        end
    end.
Proof.
  induction attempts as [|attempt rest IH]; intros m tr;
    cbn [read_with_retry_loop length].
  - split; [apply bounded_effects_refl | constructor].
  - pose proof (call_connected_effects func m tr) as Hc.
    destruct (call_connected func m tr) as [[m1 tr1] [v|e]].
    + split; [|reflexivity].
      destruct Hc as (Hp & Hc & Hf & Hs).
      repeat split; try apply Hp; auto; simpl; lia.
    + pose proof (handle_failure_effects attempt e m1 tr1) as Hh.
      destruct (handle_failure attempt e m1 tr1) as [[m2 tr2] [e'|]];
        destruct Hh as [Hb Hlt].
      * split; [|exact I].
        pose proof (bounded_effects_trans _ _ _ _ _ _ _ _ _ _ Hc Hb) as Hb'.
        eapply bounded_effects_weaken; [| | exact Hb']; simpl; lia.
      * specialize (IH m2 tr2).
        destruct (read_with_retry_loop func rest m2 tr2) as [[m3 tr3] r].
        destruct IH as [IH1 IH2].
        assert (Hrc : retry_count m2 = retry_count m).
        { pose proof Hc as ((E1 & _) & _). pose proof Hb as ((E2 & _) & _).
          congruence. }
        split.
        -- eapply attempt_effects; [reflexivity | exact Hc | exact Hb | exact IH1].
        -- destruct r as [[v|e']|]; auto.
           constructor.
           ++ pose proof Hc as ((Hrc1 & _) & _). specialize (Hlt eq_refl). lia.
           ++ rewrite Hrc in IH2. exact IH2.
Qed.

Lemma write_with_retry_loop_effects (func : C -> C * result bool)
    (attempts : list Z) :
  forall m tr,
    match write_with_retry_loop func attempts m tr with
    | (m', tr', r) =>
        bounded_effects (length attempts * Z.to_nat (retry_count m))
          (length attempts) m tr m' tr' /\
        match r with
        | Some (Ok true) => _consecutive_failures m' = 0
        | Some (Ok false) => False
        | Some (Raise _) => True
        | None => Forall (fun a => a < retry_count m - 1) attempts
        end
    end.
Proof.
  induction attempts as [|attempt rest IH]; intros m tr;
    cbn [write_with_retry_loop length].
  - split; [apply bounded_effects_refl | constructor].
  - pose proof (call_connected_effects func m tr) as Hc.
    destruct (call_connected func m tr) as [[m1 tr1] [[|]|e]].
    + split; [|reflexivity].
      destruct Hc as (Hp & Hc & Hf & Hs).
      repeat split; try apply Hp; auto; simpl; lia.
    + pose proof (handle_failure_effects attempt
                    (IOError "Write operation returned False") m1 tr1) as Hh.
      destruct (handle_failure attempt _ m1 tr1) as [[m2 tr2] [e'|]];
        destruct Hh as [Hb Hlt].
      * split; [|exact I].
        pose proof (bounded_effects_trans _ _ _ _ _ _ _ _ _ _ Hc Hb) as Hb'.
        eapply bounded_effects_weaken; [| | exact Hb']; simpl; lia.
      * specialize (IH m2 tr2).
        destruct (write_with_retry_loop func rest m2 tr2) as [[m3 tr3] r].
        destruct IH as [IH1 IH2].
        assert (Hrc : retry_count m2 = retry_count m).
        { pose proof Hc as ((E1 & _) & _). pose proof Hb as ((E2 & _) & _).
          congruence. }
        split.
        -- eapply attempt_effects; [reflexivity | exact Hc | exact Hb | exact IH1].
        -- destruct r as [[[|]|e']|]; auto.
           constructor.
           ++ pose proof Hc as ((Hrc1 & _) & _). specialize (Hlt eq_refl). lia.
           ++ rewrite Hrc in IH2. exact IH2.
    + pose proof (handle_failure_effects attempt e m1 tr1) as Hh.
      destruct (handle_failure attempt e m1 tr1) as [[m2 tr2] [e'|]];
        destruct Hh as [Hb Hlt].
      * split; [|exact I].
        pose proof (bounded_effects_trans _ _ _ _ _ _ _ _ _ _ Hc Hb) as Hb'.
        eapply bounded_effects_weaken; [| | exact Hb']; simpl; lia.
      * specialize (IH m2 tr2).
        destruct (write_with_retry_loop func rest m2 tr2) as [[m3 tr3] r].
        destruct IH as [IH1 IH2].
        assert (Hrc : retry_count m2 = retry_count m).
        { pose proof Hc as ((E1 & _) & _). pose proof Hb as ((E2 & _) & _).
          congruence. }
        split.
        -- eapply attempt_effects; [reflexivity | exact Hc | exact Hb | exact IH1].
        -- destruct r as [[[|]|e']|]; auto.
           constructor.
           ++ pose proof Hc as ((Hrc1 & _) & _). specialize (Hlt eq_refl). lia.
           ++ rewrite Hrc in IH2. exact IH2.
Qed.

Lemma last_attempt_in_range (rc : Z) :
  0 < rc -> ~ Forall (fun a => a < rc - 1) (range rc).
Proof.
  intros Hrc Hall. rewrite Forall_forall in Hall.
  specialize (Hall (rc - 1)).
  assert (Hin : rc - 1 ∈ range rc).
  { unfold range. apply list_elem_of_fmap.
    exists (Z.to_nat (rc - 1)). split; [lia|].
    apply elem_of_seq. lia. }
  specialize (Hall Hin). lia.
Qed.

End RetryEffects.

End ManagerStatusProps.

(** ** Connection manager: what a call can and cannot do *)

Module ManagerRetryProps.

Import ConnectionManager PyFacts ConnectionManagerProps.
Import ManagerStatus ManagerStatusProps ManagerRetry.

Lemma sleeps_app (t1 t2 : Trace) : sleeps (t1 ++ t2) = sleeps t1 ++ sleeps t2.
Proof. unfold sleeps. apply omap_app. Qed.

Section Probe.

Context {C : Type} `{BasePLCClient C}.

Implicit Type m : PLCConnectionManager C.

Lemma backoff_at_policy m m2 (n : Z) :
  retry_delay m2 = retry_delay m -> backoff_at m2 n = backoff_at m n.
Proof.
  intros Hd. unfold backoff_at, _calculate_backoff. simpl. rewrite Hd.
  reflexivity.
Qed.

Lemma calculate_backoff_at m :
  _calculate_backoff m = backoff_at m (_consecutive_failures m).
Proof. reflexivity. Qed.

(** X1: [ensure_connected] is a probe: with a non-negative delay it never
    raises; it answers [True] only with the manager marked connected; it
    never runs an operation, makes at most [retry_count] calls of
    [connect()], keeps the retry policy and sleeps only within the backoff
    bounds; and when the client already reports connected, or
    [auto_reconnect] is off, it answers with the client's liveness at once:
    no [connect()], no sleep, the counter as it was. *)
Theorem ensure_connected_is_a_probe m tr :
  (0 <= retry_delay m)%Q ->
  exists m' tr' (b : bool),
    ensure_connected m tr = (m', tr', Ok b) /\
    bounded_effects (Z.to_nat (retry_count m)) 0 m tr m' tr' /\
    count is_func tr' = count is_func tr /\
    (b = true -> _connected m' = true) /\
    (is_connected (client m) = true \/ auto_reconnect m = false ->
     tr' = tr /\ b = is_connected (client m) /\
     _consecutive_failures m' = _consecutive_failures m).
Proof.
  intros Hd.
  destruct (ensure_connected_outcome m tr Hd)
    as (m' & tr' & b & He & _ & Hf & _).
  pose proof (ensure_connected_effects m tr) as Hb. rewrite He in Hb.
  destruct Hb as [Hb Hconn].
  exists m', tr', b.
  split; [exact He|]. split; [exact Hb|]. split; [exact Hf|].
  split; [intros ->; apply Hconn; reflexivity|].
  intros Hquick. unfold ensure_connected in He.
  destruct (is_connected (client m)) eqn:Ec.
  - inversion He; subst. repeat split.
  - destruct Hquick as [Hq | Hq]; [discriminate|].
    rewrite Hq in He. cbn [negb] in He. inversion He; subst. repeat split.
Qed.

(** Within one failing [ensure_connected] the counter does not move, so the
    delay between its attempts is constant. *)
Lemma ensure_connected_loop_sleeps (n : nat) :
  forall (k : nat) m tr m' tr',
    Z.of_nat k + Z.of_nat n = retry_count m ->
    (0 <= retry_delay m)%Q ->
    ensure_connected_loop (map Z.of_nat (seq k n)) m tr = (m', tr', None) ->
    sleeps tr' = sleeps tr ++ replicate (n - 1) (_calculate_backoff m).
Proof.
  induction n as [|n IH]; intros k m tr m' tr' Hk Hd Hl.
  - cbn in Hl. inversion Hl; subst. cbn. rewrite app_nil_r. reflexivity.
  - change (seq k (S n)) with (k :: seq (S k) n) in Hl.
    cbn [map ensure_connected_loop] in Hl.
    destruct (connect (client m)) as [c' r].
    assert (Hstep : forall m2,
      retry_delay m2 = retry_delay m ->
      retry_count m2 = retry_count m ->
      _consecutive_failures m2 = _consecutive_failures m ->
      (if Z.of_nat k <? retry_count m2 - 1
       then match time_sleep (_calculate_backoff m2) (tr ++ [EvConnect]) with
            | (tr2, Ok _) =>
                ensure_connected_loop (map Z.of_nat (seq (S k) n)) m2 tr2
            | (tr2, Raise e) => (m2, tr2, Some (Raise e))
            end
       else ensure_connected_loop (map Z.of_nat (seq (S k) n)) m2
              (tr ++ [EvConnect])) = (m', tr', None) ->
      sleeps tr' = sleeps tr ++ replicate (S n - 1) (_calculate_backoff m)).
    { intros m2 Hd2 Hrc2 Hf2 Hl2.
      assert (Hb : _calculate_backoff m2 = _calculate_backoff m).
      { rewrite !calculate_backoff_at, Hf2. apply backoff_at_policy. exact Hd2. }
      destruct n as [|n].
      - replace (Z.of_nat k <? retry_count m2 - 1) with false in Hl2
          by (symmetry; apply Z.ltb_ge; lia).
        cbn in Hl2. inversion Hl2; subst.
        rewrite sleeps_app. reflexivity.
      - replace (Z.of_nat k <? retry_count m2 - 1) with true in Hl2
          by (symmetry; apply Z.ltb_lt; lia).
        rewrite time_sleep_nonneg in Hl2
          by (apply calculate_backoff_nonneg; rewrite Hd2; exact Hd).
        apply IH in Hl2; [| lia | rewrite Hd2; exact Hd].
        rewrite Hl2, !sleeps_app, Hb. cbn.
        rewrite Nat.sub_0_r, app_nil_r, <- app_assoc. reflexivity. }
    destruct r as [[|]|e].
    + discriminate.
    + eapply Hstep; [| | | exact Hl]; reflexivity.
    + eapply Hstep; [| | | exact Hl]; reflexivity.
Qed.

(** X2: A failed [ensure_connected] slept [retry_count - 1] times, each time for
    the delay computed from the counter as it stood on entry. *)
Theorem ensure_connected_constant_backoff m tr m' tr' :
  is_connected (client m) = false ->
  auto_reconnect m = true ->
  (0 <= retry_delay m)%Q ->
  ensure_connected m tr = (m', tr', Ok false) ->
  sleeps tr' =
    sleeps tr ++ replicate (Z.to_nat (retry_count m) - 1) (_calculate_backoff m).
Proof.
  intros Hc Ha Hd He. unfold ensure_connected in He.
  rewrite Hc, Ha in He. cbn [negb] in He.
  destruct (ensure_connected_loop (range (retry_count m)) m tr)
    as [[m1 tr1] [r|]] eqn:El.
  - pose proof (ensure_connected_loop_effects (range (retry_count m)) m tr) as Hx.
    rewrite El in Hx. inversion He; subst. destruct Hx as [_ []].
  - inversion He; subst.
    unfold range in El.
    destruct (Z_le_gt_dec (retry_count m) 0) as [Hle | Hgt].
    + replace (Z.to_nat (retry_count m)) with 0%nat in * by lia.
      cbn in El. inversion El; subst. cbn. rewrite app_nil_r. reflexivity.
    + assert (Hk : Z.of_nat 0 + Z.of_nat (Z.to_nat (retry_count m))
                   = retry_count m) by lia.
      apply (ensure_connected_loop_sleeps _ 0%nat m tr m1 tr' Hk Hd El).
Qed.

End Probe.

Section Operations.

Context {C : Type} `{BasePLCClient C}.

Implicit Type m : PLCConnectionManager C.

(** X3: Whatever the operation and the client do, [read_with_retry] calls the
    operation at most [retry_count] times and [connect()] at most
    [retry_count] times per attempt, keeps the retry policy, never sleeps
    longer than [MAX_BACKOFF_DELAY], and leaves the failure counter at zero
    whenever it returns a value. *)
Theorem read_with_retry_bounded {T : Type} (func : C -> C * result T) m tr :
  match read_with_retry func m tr with
  | (m', tr', r) =>
      same_policy m m' /\
      (count is_func tr' <= count is_func tr + Z.to_nat (retry_count m))%nat /\
      (count is_connect tr' <= count is_connect tr
         + Z.to_nat (retry_count m) * Z.to_nat (retry_count m))%nat /\
      (Forall sleep_bounded tr -> Forall sleep_bounded tr') /\
      (forall v, r = Ok v -> _consecutive_failures m' = 0)
  end.
Proof.
  unfold read_with_retry.
  pose proof (read_with_retry_loop_effects func (range (retry_count m)) m tr)
    as Hl.
  rewrite length_range in Hl.
  destruct (read_with_retry_loop func (range (retry_count m)) m tr)
    as [[m' tr'] [[v|e]|]]; destruct Hl as [(Hp & Hc & Hf & Hs) Hr];
    repeat split; auto; try apply Hp; try discriminate.
Qed.

(** X4: The same bounds for [write_with_retry]; it answers [True] only with the
    counter reset, and with a positive attempt budget it never answers
    [False], whatever the operation does. *)
Theorem write_with_retry_bounded (func : C -> C * result bool) m tr :
  match write_with_retry func m tr with
  | (m', tr', r) =>
      same_policy m m' /\
      (count is_func tr' <= count is_func tr + Z.to_nat (retry_count m))%nat /\
      (count is_connect tr' <= count is_connect tr
         + Z.to_nat (retry_count m) * Z.to_nat (retry_count m))%nat /\
      (Forall sleep_bounded tr -> Forall sleep_bounded tr') /\
      (r = Ok true -> _consecutive_failures m' = 0) /\
      (0 < retry_count m -> r <> Ok false)
  end.
Proof.
  unfold write_with_retry.
  pose proof (write_with_retry_loop_effects func (range (retry_count m)) m tr)
    as Hl.
  rewrite length_range in Hl.
  destruct (write_with_retry_loop func (range (retry_count m)) m tr)
    as [[m' tr'] [[[|]|e]|]]; destruct Hl as [(Hp & Hc & Hf & Hs) Hr];
    repeat split; auto; try apply Hp; try discriminate; try contradiction.
  intros Hrc _. exact (last_attempt_in_range _ Hrc Hr).
Qed.

(** X5: With an empty attempt budget neither loop body runs: the read raises the
    [IOError] placed after its loop, the write returns [False], and nothing
    else happens. *)
Theorem retry_with_empty_budget {T : Type}
    (rfunc : C -> C * result T) (wfunc : C -> C * result bool) m tr :
  retry_count m <= 0 ->
  read_with_retry rfunc m tr =
    (m, tr, Raise (IOError "Operation failed after all retries")) /\
  write_with_retry wfunc m tr = (m, tr, Ok false).
Proof.
  intros Hrc. unfold read_with_retry, write_with_retry, range.
  replace (Z.to_nat (retry_count m)) with 0%nat by lia.
  split; reflexivity.
Qed.

Lemma range_pos (rc : Z) :
  0 < rc -> range rc = 0 :: map Z.of_nat (seq 1 (Z.to_nat rc - 1)).
Proof.
  intros Hrc. unfold range.
  destruct (Z.to_nat rc) as [|n] eqn:E; [lia|].
  cbn. rewrite Nat.sub_0_r. reflexivity.
Qed.

(** X6: An exception of the operation that is not an [IOError] (nor one of its
    subclasses) is not retried: it leaves [read_with_retry] after the first
    call, with no sleep and with the counter and the remembered error as
    they were. *)
Theorem read_with_retry_unexpected_exception {T : Type}
    (func : C -> C * result T) m tr (c' : C) (e : PyExn) :
  0 < retry_count m ->
  is_connected (client m) = true ->
  func (client m) = (c', Raise e) ->
  isinstance e IOErrorT = false ->
  read_with_retry func m tr =
    (set_client c' (set_connected true m), tr ++ [EvFunc], Raise e).
Proof.
  intros Hrc Hc Hf He. unfold read_with_retry.
  rewrite (range_pos _ Hrc). cbn [read_with_retry_loop].
  unfold call_connected. rewrite (ensure_connected_already m tr Hc).
  cbn [client set_connected]. rewrite Hf.
  unfold handle_failure.
  assert (Hce : isinstance e ConnectionErrorT = false).
  { destruct e as [[] msg]; try reflexivity; discriminate. }
  rewrite Hce, He. reflexivity.
Qed.

(** How a retryable failure is handled (non-negative delay). *)
Lemma handle_failure_retryable (attempt : Z) (e : PyExn) m tr :
  isinstance e IOErrorT = true ->
  (0 <= retry_delay m)%Q ->
  handle_failure attempt e m tr =
    if attempt <? retry_count m - 1
    then (after_failure e m,
          tr ++ [EvSleep (_calculate_backoff (after_failure e m))], None)
    else (after_failure e m, tr, Some e).
Proof.
  intros He Hd. unfold handle_failure, after_failure.
  destruct (isinstance e ConnectionErrorT).
  - cbn zeta. change (retry_count (connection_lost m)) with (retry_count m).
    destruct (attempt <? retry_count m - 1); [|reflexivity].
    rewrite time_sleep_nonneg; [reflexivity|].
    apply calculate_backoff_nonneg. exact Hd.
  - rewrite He. cbn zeta.
    change (retry_count (operation_failed e m)) with (retry_count m).
    destruct (attempt <? retry_count m - 1); [|reflexivity].
    rewrite time_sleep_nonneg; [reflexivity|].
    apply calculate_backoff_nonneg. exact Hd.
Qed.

Lemma after_failure_fields (e : PyExn) m :
  retry_count (after_failure e m) = retry_count m /\
  retry_delay (after_failure e m) = retry_delay m /\
  client (after_failure e m) = client m /\
  _consecutive_failures (after_failure e m) = _consecutive_failures m + 1 /\
  _connected (after_failure e m)
    = (if isinstance e ConnectionErrorT then false else _connected m) /\
  _last_error (after_failure e m)
    = Some (if isinstance e ConnectionErrorT
            then ConnectionError "Connection lost" else e).
Proof.
  unfold after_failure. destruct (isinstance e ConnectionErrorT);
    repeat split.
Qed.

Lemma operation_backoffs_succ m m2 (n : nat) :
  retry_delay m2 = retry_delay m ->
  _consecutive_failures m2 = _consecutive_failures m + 1 ->
  _calculate_backoff m2 :: operation_backoffs m2 n
  = operation_backoffs m (S n).
Proof.
  intros Hd Hf. unfold operation_backoffs.
  change (seq 0 (S n)) with (0%nat :: seq 1 n).
  cbn [map]. f_equal.
  - rewrite calculate_backoff_at, Hf, (backoff_at_policy m m2 _ Hd).
    f_equal. lia.
  - rewrite <- seq_shift, List.map_map. apply List.map_ext. intros i. rewrite Hf, (backoff_at_policy m m2 _ Hd).
    f_equal. lia.
Qed.

Section Persistent.

Context {T : Type}.
Variable func : C -> C * result T.
Variable e : PyExn.

Hypothesis func_raises :
  forall c, is_connected c = true ->
    snd (func c) = Raise e /\ is_connected (fst (func c)) = true.

Lemma read_with_retry_loop_persistent (n : nat) :
  forall (k : nat) m tr,
    isinstance e IOErrorT = true ->
    is_connected (client m) = true ->
    Z.of_nat k + Z.of_nat (S n) = retry_count m ->
    (0 <= retry_delay m)%Q ->
    exists m' tr',
      read_with_retry_loop func (map Z.of_nat (seq k (S n))) m tr =
        (m', tr', Some (Raise e)) /\
      count is_func tr' = (count is_func tr + S n)%nat /\
      count is_connect tr' = count is_connect tr /\
      sleeps tr' = sleeps tr ++ operation_backoffs m n /\
      _consecutive_failures m' = _consecutive_failures m + Z.of_nat (S n) /\
      _connected m' = negb (isinstance e ConnectionErrorT) /\
      _last_error m' = Some (if isinstance e ConnectionErrorT
                             then ConnectionError "Connection lost" else e).
Proof.
  induction n as [|n IH]; intros k m tr He Hc Hk Hd.
  - cbn [seq map read_with_retry_loop].
    unfold call_connected. rewrite (ensure_connected_already m tr Hc).
    cbn [client set_connected].
    destruct (func_raises (client m) Hc) as [Hr Hkeep].
    destruct (func (client m)) as [c' r]. cbn in Hr, Hkeep. subst r.
    rewrite handle_failure_retryable by (auto; exact Hd).
    cbn [retry_count set_client set_connected].
    replace (Z.of_nat k <? retry_count m - 1) with false
      by (symmetry; apply Z.ltb_ge; lia).
    eexists _, _. split; [reflexivity|].
    destruct (after_failure_fields e (set_client c' (set_connected true m)))
      as (_ & _ & _ & F4 & F5 & F6).
    rewrite F4, F5, F6, !count_snoc, !sleeps_app. cbn.
    rewrite !app_nil_r.
    repeat split; try lia; destruct (isinstance e ConnectionErrorT); reflexivity.
  - change (seq k (S (S n))) with (k :: seq (S k) (S n)).
    remember (seq (S k) (S n)) as rest eqn:Er.
    cbn [map read_with_retry_loop].
    unfold call_connected. rewrite (ensure_connected_already m tr Hc).
    cbn [client set_connected].
    destruct (func_raises (client m) Hc) as [Hr Hkeep].
    destruct (func (client m)) as [c' r]. cbn in Hr, Hkeep. subst r.
    rewrite handle_failure_retryable by (auto; exact Hd).
    cbn [retry_count set_client set_connected].
    replace (Z.of_nat k <? retry_count m - 1) with true
      by (symmetry; apply Z.ltb_lt; lia).
    subst rest.
    set (m2 := after_failure e (set_client c' (set_connected true m))).
    destruct (after_failure_fields e (set_client c' (set_connected true m)))
      as (F1 & F2 & F3 & F4 & _ & _).
    fold m2 in F1, F2, F3, F4. cbn in F1, F2, F3, F4.
    destruct (IH (S k) m2 ((tr ++ [EvFunc]) ++ [EvSleep (_calculate_backoff m2)]) He)
      as (m' & tr' & Hl & H1 & H2 & H3 & H4 & H5 & H6).
    + rewrite F3. exact Hkeep.
    + rewrite F1. lia.
    + rewrite F2. exact Hd.
    + exists m', tr'. split; [exact Hl|].
      rewrite !count_snoc in H1, H2. rewrite !sleeps_app in H3. cbn in H1, H2, H3.
      repeat split; try lia; try assumption.
      rewrite H3, app_nil_r, <- app_assoc. f_equal. cbn [app].
      apply operation_backoffs_succ; assumption.
Qed.

(** X7: An operation that keeps raising the same [IOError] (or subclass) on a
    client that stays connected is retried in place: [retry_count] calls,
    no [connect()], the counter incremented at each failure, and between the
    attempts the delays computed from the counter as it grows.  The
    exception raised last is re-raised; after a [ConnectionError] the
    manager is marked disconnected and remembers "Connection lost", after
    another [IOError] it stays connected and remembers the error itself. *)
Theorem read_with_retry_persistent_failure m tr :
  isinstance e IOErrorT = true ->
  is_connected (client m) = true ->
  0 < retry_count m ->
  (0 <= retry_delay m)%Q ->
  exists m' tr',
    read_with_retry func m tr = (m', tr', Raise e) /\
    count is_func tr' = (count is_func tr + Z.to_nat (retry_count m))%nat /\
    count is_connect tr' = count is_connect tr /\
    sleeps tr' =
      sleeps tr ++ operation_backoffs m (Z.to_nat (retry_count m) - 1) /\
    _consecutive_failures m' = _consecutive_failures m + retry_count m /\
    _connected m' = negb (isinstance e ConnectionErrorT) /\
    _last_error m' = Some (if isinstance e ConnectionErrorT
                           then ConnectionError "Connection lost" else e).
Proof.
  intros He Hc Hrc Hd. unfold read_with_retry, range.
  destruct (Z.to_nat (retry_count m)) as [|n] eqn:En; [lia|].
  destruct (read_with_retry_loop_persistent n 0 m tr He Hc ltac:(lia) Hd)
    as (m' & tr' & Hl & H1 & H2 & H3 & H4 & H5 & H6).
  rewrite Hl. exists m', tr'.
  cbn [Nat.sub]. rewrite Nat.sub_0_r.
  repeat split; try assumption. lia.
Qed.

End Persistent.

End Operations.

(** X1, witness: a client whose three connection attempts fail, default
    policy. *)
Lemma ensure_connected_is_a_probe_witness :
  let m := init Scripted.fails_three_times 3 1 true in
  exists m' tr' (b : bool),
    ensure_connected m [] = (m', tr', Ok b) /\
    bounded_effects (Z.to_nat (retry_count m)) 0 m [] m' tr' /\
    count is_func tr' = count is_func [] /\
    (b = true -> _connected m' = true) /\
    (is_connected (client m) = true \/ auto_reconnect m = false ->
     tr' = [] /\ b = is_connected (client m) /\
     _consecutive_failures m' = _consecutive_failures m).
Proof.
  intros m.
  apply (ensure_connected_is_a_probe m []). discriminate.
Defined.

(** X2, witness: three failed attempts with base delay 1, two sleeps of one
    second. *)
Lemma ensure_connected_constant_backoff_witness :
  let m := init Scripted.fails_three_times 3 1 true in
  sleeps (snd (fst (ensure_connected m [])))
  = sleeps [] ++ replicate (Z.to_nat (retry_count m) - 1) (_calculate_backoff m).
Proof.
  intros m.
  apply (ensure_connected_constant_backoff m []
           (fst (fst (ensure_connected m [])))
           (snd (fst (ensure_connected m []))));
    [reflexivity | reflexivity | discriminate | reflexivity].
Defined.

(** X5, witness: a manager built with [retry_count = 0] around a live client.
    *)
Lemma retry_with_empty_budget_witness :
  let m := init Fixtures.live 0 1 true in
  read_with_retry Scripted.read_42 m [] =
    (m, [], Raise (IOError "Operation failed after all retries")) /\
  write_with_retry Scripted.write_rejected m [] = (m, [], Ok false).
Proof.
  intros m.
  apply (retry_with_empty_budget Scripted.read_42 Scripted.write_rejected m []).
  cbn. lia.
Defined.

(** X6, witness: a live client and a closure that raises [ValueError]. *)
Lemma read_with_retry_unexpected_exception_witness :
  let m := init Fixtures.live 3 1 true in
  read_with_retry Fixtures.read_confused m [] =
    (set_client Fixtures.live (set_connected true m), [] ++ [EvFunc],
     Raise (ValueError "bad register")).
Proof.
  intros m.
  apply (read_with_retry_unexpected_exception Fixtures.read_confused m []
           Fixtures.live (ValueError "bad register"));
    [cbn; lia | reflexivity | reflexivity | reflexivity].
Defined.

(** X7, witness: a live client and a closure that always raises [IOError],
    three attempts. *)
Lemma read_with_retry_persistent_failure_witness :
  let m := init Fixtures.live 3 1 true in
  let e := IOError "read failed" in
  exists m' tr',
    read_with_retry Fixtures.read_fails m [] = (m', tr', Raise e) /\
    count is_func tr' = (count is_func [] + Z.to_nat (retry_count m))%nat /\
    count is_connect tr' = count is_connect [] /\
    sleeps tr' =
      sleeps [] ++ operation_backoffs m (Z.to_nat (retry_count m) - 1) /\
    _consecutive_failures m' = _consecutive_failures m + retry_count m /\
    _connected m' = negb (isinstance e ConnectionErrorT) /\
    _last_error m' = Some (if isinstance e ConnectionErrorT
                           then ConnectionError "Connection lost" else e).
Proof.
  intros m e.
  apply (read_with_retry_persistent_failure Fixtures.read_fails e
           (fun c Hc => conj eq_refl Hc) m []);
    [reflexivity | reflexivity | cbn; lia | discriminate].
Defined.

End ManagerRetryProps.

(** ** Simulated PLC: further properties *)

Module MockHelpersProps.

Import MockPLC MockPLCProps MockHelpers.

Lemma ensure_connected_connected (s : MockPLC) :
  _connected s = true -> _ensure_connected s = Ok tt.
Proof. intros Hs. unfold _ensure_connected. rewrite Hs. reflexivity. Qed.

(** *** Keys are never removed *)

Lemma keeps_keys_refl (s : MockPLC) : keeps_keys s s.
Proof. split; reflexivity. Qed.

Lemma keeps_keys_trans (s1 s2 s3 : MockPLC) :
  keeps_keys s1 s2 -> keeps_keys s2 s3 -> keeps_keys s1 s3.
Proof.
  intros [H1 H2] [H3 H4]. split; etransitivity; eassumption.
Qed.

Lemma keeps_keys_set_register (a v : Z) (s : MockPLC) :
  keeps_keys s (set_register a v s).
Proof.
  split; cbn; [rewrite dom_insert_L; apply union_subseteq_r | reflexivity].
Qed.

Lemma keeps_keys_set_coil (a : Z) (v : bool) (s : MockPLC) :
  keeps_keys s (set_coil a v s).
Proof.
  split; cbn; [reflexivity | rewrite dom_insert_L; apply union_subseteq_r].
Qed.

Lemma keeps_keys_set_connected (b : bool) (s : MockPLC) :
  keeps_keys s (set_connected b s).
Proof. split; reflexivity. Qed.

Ltac keys :=
  repeat first
    [ apply keeps_keys_refl
    | eapply keeps_keys_trans; [| apply keeps_keys_set_register]
    | eapply keeps_keys_trans; [| apply keeps_keys_set_coil]
    | eapply keeps_keys_trans; [| apply keeps_keys_set_connected] ].

Lemma populated_keeps (s s' : MockPLC) :
  populated s -> keeps_keys s s' -> populated s'.
Proof.
  intros [H1 H2] [H3 H4]. split; etransitivity; eassumption.
Qed.

Lemma simulate_keeps_keys (rnd : Draws) (s : MockPLC) :
  keeps_keys s (fst (_simulate_behavior rnd s)).
Proof.
  unfold _simulate_behavior.
  destruct (getitem (_coils s) COIL_MOTOR_RUNNING) as [run|]; [|keys].
  destruct (getitem (_registers s) REGISTER_MOTOR_SPEED) as [speed|]; [|keys].
  destruct (getitem (_registers s) REGISTER_TEMPERATURE) as [temp|]; [|keys].
  assert (Hm : keeps_keys s (simulate_motor rnd run speed temp s)).
  { unfold simulate_motor.
    destruct (run && (0 <? speed)); [destruct (temp <? 800) | destruct (250 <? temp)];
      keys. }
  destruct (getitem _ COIL_CONVEYOR_RUNNING) as [[|]|]; cbn [fst]; try exact Hm.
  eapply keeps_keys_trans; [exact Hm|].
  unfold simulate_sensors.
  destruct (toggle_1 rnd), (toggle_2 rnd); keys.
Qed.

(** *** What a simulation step touches *)

Ltac unfold_points :=
  unfold REGISTER_MOTOR_SPEED, REGISTER_MOTOR_CURRENT, REGISTER_TEMPERATURE,
    REGISTER_PRESSURE, REGISTER_CONVEYOR_SPEED, REGISTER_ERROR_CODE,
    COIL_MOTOR_RUNNING, COIL_MOTOR_STOPPED, COIL_FAULT_ALARM,
    COIL_CONVEYOR_RUNNING, COIL_SENSOR_1, COIL_SENSOR_2, COIL_E_STOP in *.

Lemma simulate_motor_frame (rnd : Draws) (run : bool) (speed temp : Z)
    (s : MockPLC) :
  let s' := simulate_motor rnd run speed temp s in
  _connected s' = _connected s /\
  scene_name s' = scene_name s /\
  _coils s' = _coils s /\
  (forall a, a <> 101 -> a <> 102 -> _registers s' !! a = _registers s !! a).
Proof.
  unfold simulate_motor. unfold_points.
  destruct (run && (0 <? speed)); [destruct (temp <? 800) | destruct (250 <? temp)];
    cbn; repeat split; intros a H1 H2;
    rewrite ?lookup_insert_ne by congruence; reflexivity.
Qed.

Lemma simulate_sensors_frame (rnd : Draws) (s : MockPLC) :
  let s' := simulate_sensors rnd s in
  _connected s' = _connected s /\
  scene_name s' = scene_name s /\
  _registers s' = _registers s /\
  (forall a, a <> 4 -> a <> 5 -> _coils s' !! a = _coils s !! a).
Proof.
  unfold simulate_sensors. unfold_points.
  destruct (toggle_1 rnd), (toggle_2 rnd);
    cbn; repeat split; intros a H1 H2;
    rewrite ?lookup_insert_ne by congruence; reflexivity.
Qed.

(** A simulation step writes to no register but the motor current and the
    temperature and to no coil but the two sensors; the connection flag and
    the scene name are left alone. *)
Lemma simulate_frame (rnd : Draws) (s : MockPLC) :
  let s' := fst (_simulate_behavior rnd s) in
  _connected s' = _connected s /\
  scene_name s' = scene_name s /\
  (forall a, a <> 101 -> a <> 102 -> _registers s' !! a = _registers s !! a) /\
  (forall a, a <> 4 -> a <> 5 -> _coils s' !! a = _coils s !! a).
Proof.
  unfold _simulate_behavior.
  destruct (getitem (_coils s) COIL_MOTOR_RUNNING) as [run|];
    [|cbn; repeat split].
  destruct (getitem (_registers s) REGISTER_MOTOR_SPEED) as [speed|];
    [|cbn; repeat split].
  destruct (getitem (_registers s) REGISTER_TEMPERATURE) as [temp|];
    [|cbn; repeat split].
  destruct (simulate_motor_frame rnd run speed temp s) as (M1 & M2 & M3 & M4).
  destruct (simulate_sensors_frame rnd (simulate_motor rnd run speed temp s))
    as (S1 & S2 & S3 & S4).
  destruct (getitem _ COIL_CONVEYOR_RUNNING) as [[|]|]; cbn [fst].
  - split; [congruence|]. split; [congruence|]. split; intros a H1 H2.
    + rewrite S3. apply M4; assumption.
    + rewrite S4 by assumption. rewrite M3. reflexivity.
  - split; [congruence|]. split; [congruence|]. split; intros a H1 H2.
    + apply M4; assumption.
    + rewrite M3. reflexivity.
  - split; [congruence|]. split; [congruence|]. split; intros a H1 H2.
    + apply M4; assumption.
    + rewrite M3. reflexivity.
Qed.

Lemma and_then_keeps_keys {A B : Type} (s : MockPLC) (r : MockPLC * result A)
    (k : MockPLC -> MockPLC * result B) :
  keeps_keys s (fst r) ->
  (forall s1, keeps_keys s1 (fst (k s1))) ->
  keeps_keys s (fst (and_then r k)).
Proof.
  intros Hr Hk. destruct r as [s1 [a|e]]; cbn in *; [|exact Hr].
  eapply keeps_keys_trans; [exact Hr | apply Hk].
Qed.

Lemma write_register_keeps_keys (a v : Z) (s : MockPLC) :
  keeps_keys s (fst (write_register a v s)).
Proof.
  unfold write_register. destruct (_ensure_connected s); cbn [fst]; [|keys].
  destruct (a =? REGISTER_MOTOR_SPEED); keys.
Qed.

Lemma write_coil_keeps_keys (a : Z) (v : bool) (s : MockPLC) :
  keeps_keys s (fst (write_coil a v s)).
Proof.
  unfold write_coil. destruct (_ensure_connected s); cbn [fst]; [|keys].
  destruct (a =? COIL_MOTOR_RUNNING); [destruct (negb v); keys|].
  destruct (a =? COIL_MOTOR_STOPPED); keys.
Qed.

Lemma read_holding_registers_keeps_keys (rnd : Draws) (a c : Z) (s : MockPLC) :
  keeps_keys s (fst (read_holding_registers rnd a c s)).
Proof.
  unfold read_holding_registers.
  destruct (_ensure_connected s); cbn [fst]; [|keys].
  pose proof (simulate_keeps_keys rnd s) as Hs.
  destruct (_simulate_behavior rnd s) as [s1 [u|e]]; exact Hs.
Qed.

Lemma read_coils_keeps_keys (a c : Z) (s : MockPLC) :
  keeps_keys s (fst (read_coils a c s)).
Proof. rewrite read_coils_state. apply keeps_keys_refl. Qed.

Lemma read_state_keeps_keys (r1 r2 : Draws) (now : Z) (s : MockPLC) :
  keeps_keys s (fst (read_state r1 r2 now s)).
Proof.
  unfold read_state.
  destruct (_ensure_connected s); cbn [fst]; [|keys].
  pose proof (simulate_keeps_keys r1 s) as H1.
  destruct (_simulate_behavior r1 s) as [s1 [u|e]]; cbn [fst] in *; [|exact H1].
  pose proof (read_holding_registers_keeps_keys r2 100 6 s1) as H2.
  destruct (read_holding_registers r2 100 6 s1) as [s2 [regs|e]];
    cbn [fst] in *; [|eapply keeps_keys_trans; eassumption].
  pose proof (read_coils_keeps_keys 0 7 s2) as H3.
  destruct (read_coils 0 7 s2) as [s3 [coils|e]]; cbn [fst] in *;
    eapply keeps_keys_trans; [exact H1 | | exact H1 |];
    eapply keeps_keys_trans; eassumption.
Qed.

Lemma step_keeps_keys (s : MockPLC) (op : Op) : keeps_keys s (step s op).
Proof.
  destruct op; cbn [step].
  - apply keeps_keys_set_connected.
  - apply keeps_keys_set_connected.
  - apply write_coil_keeps_keys.
  - apply write_register_keeps_keys.
  - apply read_holding_registers_keeps_keys.
  - apply read_coils_keeps_keys.
  - apply read_state_keeps_keys.
Qed.

Lemma stop_motor_keeps_keys (s : MockPLC) : keeps_keys s (fst (stop_motor s)).
Proof.
  unfold stop_motor. pose proof (write_coil_keeps_keys COIL_MOTOR_RUNNING false s).
  destruct (write_coil COIL_MOTOR_RUNNING false s) as [s1 [b|e]]; assumption.
Qed.

Lemma start_motor_keeps_keys (speed : Z) (s : MockPLC) :
  keeps_keys s (fst (start_motor speed s)).
Proof.
  unfold start_motor.
  pose proof (write_coil_keeps_keys COIL_MOTOR_RUNNING true s) as H1.
  destruct (write_coil COIL_MOTOR_RUNNING true s) as [s1 [b|e]];
    cbn [fst] in *; [|exact H1].
  pose proof (write_register_keeps_keys REGISTER_MOTOR_SPEED
                (Z.min 100 (Z.max 0 speed)) s1) as H2.
  destruct (write_register _ _ s1) as [s2 [b'|e]]; cbn [fst] in *;
    eapply keeps_keys_trans; eassumption.
Qed.

Lemma stop_conveyor_keeps_keys (s : MockPLC) :
  keeps_keys s (fst (stop_conveyor s)).
Proof.
  unfold stop_conveyor.
  apply and_then_keeps_keys; [apply write_coil_keeps_keys|]. intros s1.
  apply and_then_keeps_keys; [apply write_register_keeps_keys|]. intros s2.
  apply keeps_keys_refl.
Qed.

Lemma call_keeps_keys (s : MockPLC) (c : Call) : keeps_keys s (call s c).
Proof.
  destruct c as [op | speed | | speed | | code | | |]; cbn [call].
  - apply step_keeps_keys.
  - apply start_motor_keeps_keys.
  - apply stop_motor_keeps_keys.
  - unfold start_conveyor.
    apply and_then_keeps_keys; [apply write_coil_keeps_keys|]. intros s1.
    apply and_then_keeps_keys; [apply write_register_keeps_keys|]. intros s2.
    apply keeps_keys_refl.
  - apply stop_conveyor_keeps_keys.
  - unfold trigger_error.
    apply and_then_keeps_keys; [apply write_register_keeps_keys|]. intros s1.
    apply and_then_keeps_keys;
      [destruct (0 <? code); apply write_coil_keeps_keys|].
    intros s2. apply keeps_keys_refl.
  - unfold clear_error, trigger_error.
    apply and_then_keeps_keys; [apply write_register_keeps_keys|]. intros s1.
    apply and_then_keeps_keys; [apply write_coil_keeps_keys|].
    intros s2. apply keeps_keys_refl.
  - unfold trigger_estop.
    apply and_then_keeps_keys; [apply write_coil_keeps_keys|]. intros s1.
    apply and_then_keeps_keys; [apply stop_motor_keeps_keys|]. intros s2.
    apply and_then_keeps_keys; [apply stop_conveyor_keeps_keys|]. intros s3.
    apply keeps_keys_refl.
  - unfold release_estop.
    apply and_then_keeps_keys; [apply write_coil_keeps_keys|]. intros s1.
    apply keeps_keys_refl.
Qed.

Lemma calls_keeps_keys (cs : list Call) :
  forall s, keeps_keys s (calls cs s).
Proof.
  induction cs as [|c cs IH]; intros s; cbn.
  - apply keeps_keys_refl.
  - eapply keeps_keys_trans; [apply call_keeps_keys | apply IH].
Qed.

Lemma store_keeps_keys (t : Target) (value : value_type t) (s : MockPLC) :
  keeps_keys s (store t value s).
Proof. destruct t; cbn [store]; keys. Qed.

Lemma apply_initial_state_keeps_keys (state : list Entry) :
  forall s, keeps_keys s (_apply_initial_state state s).
Proof.
  induction state as [|entry rest IH]; intros s;
    cbn [_apply_initial_state].
  - apply keeps_keys_refl.
  - eapply keeps_keys_trans; [apply store_keeps_keys | apply IH].
Qed.

Lemma populated_defaults :
  populated (MkMock false default_registers default_coils "sorting_station").
Proof.
  split; cbn; unfold default_registers, default_coils, register_addresses,
    coil_addresses; rewrite !dom_insert_L; cbn; set_solver.
Qed.

Lemma populated_init (initial_state : option (list Entry)) :
  populated (init initial_state).
Proof.
  unfold init. destruct initial_state as [state|].
  - eapply populated_keeps;
      [apply populated_defaults | apply apply_initial_state_keeps_keys].
  - apply populated_defaults.
Qed.

Lemma populated_lookup (s : MockPLC) :
  populated s ->
  (forall a, a ∈ register_addresses -> exists v, _registers s !! a = Some v) /\
  (forall a, a ∈ coil_addresses -> exists v, _coils s !! a = Some v).
Proof.
  intros [H1 H2]. split; intros a Ha.
  - apply H1 in Ha. apply elem_of_dom in Ha. destruct Ha as [v Hv]. eauto.
  - apply H2 in Ha. apply elem_of_dom in Ha. destruct Ha as [v Hv]. eauto.
Qed.

Lemma getitem_populated (s : MockPLC) :
  populated s ->
  (forall a, a ∈ register_addresses ->
     exists v, getitem (_registers s) a = Ok v /\ _registers s !! a = Some v) /\
  (forall a, a ∈ coil_addresses ->
     exists v, getitem (_coils s) a = Ok v /\ _coils s !! a = Some v).
Proof.
  intros Hp. destruct (populated_lookup s Hp) as [H1 H2].
  split; intros a Ha; [destruct (H1 a Ha) as [v Hv] | destruct (H2 a Ha) as [v Hv]];
    exists v; unfold getitem; rewrite Hv; split; reflexivity.
Qed.

(** On a populated instance the simulation finds every point it reads. *)
Lemma simulate_populated (rnd : Draws) (s : MockPLC) :
  populated s -> snd (_simulate_behavior rnd s) = Ok tt.
Proof.
  intros Hp. unfold _simulate_behavior.
  destruct (getitem_populated s Hp) as [Hr Hc].
  destruct (Hc COIL_MOTOR_RUNNING) as (run & -> & _);
    [unfold coil_addresses, COIL_MOTOR_RUNNING; set_solver|].
  destruct (Hr REGISTER_MOTOR_SPEED) as (speed & -> & _);
    [unfold register_addresses, REGISTER_MOTOR_SPEED; set_solver|].
  destruct (Hr REGISTER_TEMPERATURE) as (temp & -> & _);
    [unfold register_addresses, REGISTER_TEMPERATURE; set_solver|].
  assert (Hm : keeps_keys s (simulate_motor rnd run speed temp s)).
  { unfold simulate_motor.
    destruct (run && (0 <? speed)); [destruct (temp <? 800) | destruct (250 <? temp)];
      keys. }
  destruct (getitem_populated _ (populated_keeps _ _ Hp Hm)) as [_ Hc'].
  destruct (Hc' COIL_CONVEYOR_RUNNING) as ([|] & -> & _);
    [unfold coil_addresses, COIL_CONVEYOR_RUNNING; set_solver| |]; reflexivity.
Qed.

Lemma read_holding_registers_populated (rnd : Draws) (address count : Z)
    (s : MockPLC) :
  _connected s = true ->
  populated s ->
  exists s' values,
    read_holding_registers rnd address count s = (s', Ok values) /\
    length values = Z.to_nat count /\
    _connected s' = true.
Proof.
  intros Hs Hp. unfold read_holding_registers.
  rewrite (ensure_connected_connected s Hs).
  pose proof (simulate_populated rnd s Hp) as Hok.
  destruct (simulate_frame rnd s) as (Hconn & _).
  destruct (_simulate_behavior rnd s) as [s1 r]. cbn in Hok, Hconn. subst r.
  eexists _, _. split; [reflexivity|]. split; [|cbn; congruence].
  unfold read_values. rewrite length_map. apply PyFacts.length_range.
Qed.

(** X8: On every instance reachable from the constructor, whatever the initial
    state given to it and whatever was called since, the points read by the
    simulation are present: a read on a connected instance whose registers
    hold values a float represents exactly never raises, and it returns as
    many values as were asked for. *)
Theorem reads_never_raise (initial_state : option (list Entry))
    (cs : list Call) (rnd rnd' : Draws) (address count now : Z) :
  let s := calls cs (init initial_state) in
  _connected s = true ->
  float_safe s ->
  (exists s' values,
     read_holding_registers rnd address count s = (s', Ok values) /\
     length values = Z.to_nat count) /\
  (exists values,
     read_coils address count s = (s, Ok values) /\
     length values = Z.to_nat count) /\
  (exists s' state, read_state rnd rnd' now s = (s', Ok state)).
Proof.
  intros s Hs _.
  assert (Hp : populated s).
  { eapply populated_keeps; [apply populated_init | apply calls_keeps_keys]. }
  assert (Hlen : forall (V : Type) (d : gmap Z V) dflt,
            length (read_values d dflt address count) = Z.to_nat count).
  { intros. unfold read_values. rewrite length_map. apply PyFacts.length_range. }
  split; [|split].
  - unfold read_holding_registers.
    rewrite (ensure_connected_connected s Hs).
    pose proof (simulate_populated rnd s Hp) as Hok.
    destruct (_simulate_behavior rnd s) as [s1 r]. cbn in Hok. subst r.
    eexists _, _. split; [reflexivity | apply Hlen].
  - unfold read_coils. rewrite (ensure_connected_connected s Hs).
    eexists. split; [reflexivity | apply Hlen].
  - unfold read_state, read_holding_registers, read_coils.
    rewrite (ensure_connected_connected s Hs).
    pose proof (simulate_populated rnd s Hp) as Hok.
    pose proof (simulate_keeps_keys rnd s) as Hk.
    destruct (simulate_frame rnd s) as (Hconn & _).
    destruct (_simulate_behavior rnd s) as [s1 r]. cbn in Hok, Hk, Hconn. subst r.
    assert (Hs1 : _connected s1 = true) by congruence.
    rewrite (ensure_connected_connected s1 Hs1).
    pose proof (simulate_populated rnd' s1 (populated_keeps _ _ Hp Hk)) as Hok'.
    destruct (simulate_frame rnd' s1) as (Hconn' & _).
    destruct (_simulate_behavior rnd' s1) as [s2 r]. cbn in Hok', Hconn'. subst r.
    assert (Hs2 : _connected s2 = true) by congruence.
    rewrite (ensure_connected_connected s2 Hs2).
    eexists _, _. reflexivity.
Qed.

(** *** One simulation step *)

Lemma getitem_some {V : Type} (d : gmap Z V) (k : Z) (v : V) :
  d !! k = Some v -> getitem d k = Ok v.
Proof. intros Hk. unfold getitem. rewrite Hk. reflexivity. Qed.

(** The registers after a step are those the motor part computes. *)
Lemma simulate_registers (rnd : Draws) (s : MockPLC) (run : bool)
    (speed temp : Z) :
  _coils s !! COIL_MOTOR_RUNNING = Some run ->
  _registers s !! REGISTER_MOTOR_SPEED = Some speed ->
  _registers s !! REGISTER_TEMPERATURE = Some temp ->
  _registers (fst (_simulate_behavior rnd s))
  = _registers (simulate_motor rnd run speed temp s).
Proof.
  intros Hr Hs Ht. unfold _simulate_behavior.
  rewrite (getitem_some _ _ _ Hr), (getitem_some _ _ _ Hs),
    (getitem_some _ _ _ Ht).
  destruct (simulate_sensors_frame rnd (simulate_motor rnd run speed temp s))
    as (_ & _ & S3 & _).
  destruct (getitem _ COIL_CONVEYOR_RUNNING) as [[|]|]; cbn [fst];
    [exact S3 | reflexivity | reflexivity].
Qed.

(** X9: With draws in the ranges of the calls to [random.randint] and a speed
    below 2^53 (where the float product is exact), a simulation step
    moves the temperature by at most five units and never away from
    the band from 250 to 800 (25.0 to 80.0 degrees): it stays in the band
    once inside.  While the motor coil is set and the speed positive the
    current becomes half the speed plus the noise, cut off at zero;
    otherwise the current is left as it is. *)
Theorem simulate_step_bounds (rnd : Draws) (s : MockPLC) (run : bool)
    (speed temp : Z) :
  draws_in_range rnd ->
  speed < 2 ^ 53 ->
  _coils s !! COIL_MOTOR_RUNNING = Some run ->
  _registers s !! REGISTER_MOTOR_SPEED = Some speed ->
  _registers s !! REGISTER_TEMPERATURE = Some temp ->
  let s' := fst (_simulate_behavior rnd s) in
  (exists temp',
     _registers s' !! REGISTER_TEMPERATURE = Some temp' /\
     Z.min temp 250 <= temp' <= Z.max temp 800 /\
     -5 <= temp' - temp <= 3 /\
     (250 <= temp <= 800 -> 250 <= temp' <= 800)) /\
  (if run && (0 <? speed)
   then exists current,
          _registers s' !! REGISTER_MOTOR_CURRENT = Some current /\
          current = Z.max 0 (speed `quot` 2 + noise rnd) /\
          0 <= current <= speed `quot` 2 + 5
   else _registers s' !! REGISTER_MOTOR_CURRENT
        = _registers s !! REGISTER_MOTOR_CURRENT).
Proof.
  intros (Hn & Hw & Hc) _ Hr Hs Ht s'. subst s'.
  rewrite (simulate_registers rnd s run speed temp Hr Hs Ht).
  unfold simulate_motor. unfold_points.
  destruct (run && (0 <? speed)) eqn:Erun.
  - assert (Hpos : 0 < speed).
    { apply andb_prop in Erun as [_ E]. apply Z.ltb_lt in E. exact E. }
    assert (Hq : 0 <= speed `quot` 2) by (apply Z.quot_pos; lia).
    destruct (temp <? 800) eqn:Et; cbn.
    + apply Z.ltb_lt in Et. split.
      * exists (Z.min 800 (temp + warming rnd)).
        rewrite lookup_insert_eq. split; [reflexivity | lia].
      * exists (Z.max 0 (speed `quot` 2 + noise rnd)).
        rewrite lookup_insert_ne by discriminate. rewrite lookup_insert_eq.
        split; [reflexivity | lia].
    + apply Z.ltb_ge in Et. split.
      * exists temp. rewrite lookup_insert_ne by discriminate.
        split; [exact Ht | lia].
      * exists (Z.max 0 (speed `quot` 2 + noise rnd)).
        rewrite lookup_insert_eq. split; [reflexivity | lia].
  - destruct (250 <? temp) eqn:Et; cbn.
    + apply Z.ltb_lt in Et. split.
      * exists (Z.max 250 (temp - cooling rnd)).
        rewrite lookup_insert_eq. split; [reflexivity | lia].
      * rewrite lookup_insert_ne by discriminate. reflexivity.
    + apply Z.ltb_ge in Et. split; [|reflexivity].
      exists temp. split; [exact Ht | lia].
Qed.

(** *** Writing and reading back *)

Lemma read_one {V : Type} (d : gmap Z V) (dflt : V) (a : Z) :
  read_values d dflt a 1 = [get d a dflt].
Proof.
  unfold read_values. change (range 1) with [0]. cbn [map].
  rewrite Z.add_0_r. reflexivity.
Qed.

(** A coil written on a connected instance is read back as written, at
    every address, the two motor coils included. *)
Lemma write_coil_read_back (s : MockPLC) (address : Z) (value : bool) :
  _connected s = true ->
  exists s1,
    write_coil address value s = (s1, Ok true) /\
    read_coils address 1 s1 = (s1, Ok [value]).
Proof.
  intros Hs. unfold write_coil. rewrite (ensure_connected_connected s Hs).
  eexists. split; [reflexivity|].
  unfold read_coils.
  match goal with |- context [_ensure_connected ?s1] =>
    assert (Hs1 : _connected s1 = true)
  end.
  { destruct (address =? COIL_MOTOR_RUNNING); [destruct (negb value)|
      destruct (address =? COIL_MOTOR_STOPPED)]; exact Hs. }
  rewrite (ensure_connected_connected _ Hs1). f_equal. f_equal.
  rewrite read_one. f_equal. unfold get. unfold_points.
  destruct (address =? 0) eqn:E0.
  - apply Z.eqb_eq in E0. subst address.
    destruct value; cbn;
      rewrite ?lookup_insert_ne by discriminate;
      rewrite lookup_insert_eq; reflexivity.
  - destruct (address =? 1) eqn:E1.
    + apply Z.eqb_eq in E1. subst address. cbn.
      rewrite lookup_insert_ne by discriminate.
      rewrite lookup_insert_eq. reflexivity.
    + cbn. rewrite lookup_insert_eq. reflexivity.
Qed.

Lemma write_register_result (s : MockPLC) (address value : Z) :
  _connected s = true ->
  exists s1,
    write_register address value s = (s1, Ok true) /\
    _connected s1 = true /\
    keeps_keys s s1 /\
    _registers s1 = <[address := value]> (_registers s).
Proof.
  intros Hs. unfold write_register. rewrite (ensure_connected_connected s Hs).
  eexists. split; [reflexivity|].
  destruct (address =? REGISTER_MOTOR_SPEED); repeat split; try exact Hs;
    cbn; try reflexivity; try (rewrite dom_insert_L; apply union_subseteq_r).
Qed.

(** A register written on a connected, populated instance is read back as
    written, except at the two addresses the simulation itself writes (motor
    current and temperature); the registers and the value written are taken
    in the range a float represents exactly. *)
Lemma write_register_read_back (rnd : Draws) (s : MockPLC)
    (address value : Z) :
  _connected s = true ->
  populated s ->
  float_safe s ->
  Z.abs value < 2 ^ 53 ->
  address <> REGISTER_MOTOR_CURRENT ->
  address <> REGISTER_TEMPERATURE ->
  exists s1 s2,
    write_register address value s = (s1, Ok true) /\
    read_holding_registers rnd address 1 s1 = (s2, Ok [value]).
Proof.
  intros Hs Hp _ _ H1 H2.
  destruct (write_register_result s address value Hs)
    as (s1 & Hw & Hs1 & Hk & Hregs).
  exists s1. unfold read_holding_registers.
  rewrite (ensure_connected_connected s1 Hs1).
  pose proof (simulate_populated rnd s1 (populated_keeps _ _ Hp Hk)) as Hok.
  destruct (simulate_frame rnd s1) as (_ & _ & Hf & _).
  destruct (_simulate_behavior rnd s1) as [s2 r]. cbn in Hok, Hf. subst r.
  exists s2. split; [exact Hw|]. f_equal. f_equal.
  rewrite read_one. f_equal. unfold get.
  rewrite Hf by assumption. rewrite Hregs, lookup_insert_eq. reflexivity.
Qed.

(** X10: What is written is read back: a coil written on a connected instance
    reads as written at once, and so does a register, although the read
    runs a simulation step in between, except at the two addresses the
    simulation itself writes (motor current and temperature).  The
    registers and the value written are taken in the range a float
    represents exactly. *)
Theorem written_values_read_back (rnd : Draws) (s : MockPLC)
    (coil register value : Z) (flag : bool) :
  _connected s = true ->
  populated s ->
  float_safe s ->
  Z.abs value < 2 ^ 53 ->
  register <> REGISTER_MOTOR_CURRENT ->
  register <> REGISTER_TEMPERATURE ->
  (exists s1,
     write_coil coil flag s = (s1, Ok true) /\
     read_coils coil 1 s1 = (s1, Ok [flag])) /\
  (exists s1 s2,
     write_register register value s = (s1, Ok true) /\
     read_holding_registers rnd register 1 s1 = (s2, Ok [value])).
Proof.
  intros Hs Hp Hf Hv H1 H2. split.
  - apply write_coil_read_back. exact Hs.
  - apply write_register_read_back; assumption.
Qed.

(** X11: Clearing the motor coil zeroes speed and current, and the next read
    returns them as zero: with the motor off the simulation does not touch
    the current. *)
Theorem stop_then_read_zero (rnd : Draws) (s : MockPLC) :
  _connected s = true ->
  populated s ->
  exists s1 s2,
    write_coil COIL_MOTOR_RUNNING false s = (s1, Ok true) /\
    read_holding_registers rnd REGISTER_MOTOR_SPEED 2 s1 = (s2, Ok [0; 0]).
Proof.
  intros Hs Hp.
  pose (s1 := set_register REGISTER_MOTOR_CURRENT 0
                (set_register REGISTER_MOTOR_SPEED 0
                   (set_coil COIL_MOTOR_STOPPED true
                      (set_coil COIL_MOTOR_RUNNING false s)))).
  assert (Hw : write_coil COIL_MOTOR_RUNNING false s = (s1, Ok true)).
  { unfold write_coil. rewrite (ensure_connected_connected s Hs). reflexivity. }
  assert (Hk : keeps_keys s s1) by (subst s1; keys).
  assert (Hp1 : populated s1) by (eapply populated_keeps; eassumption).
  destruct (populated_lookup s1 Hp1) as [Hr _].
  destruct (Hr REGISTER_TEMPERATURE) as [temp Ht];
    [unfold register_addresses, REGISTER_TEMPERATURE; set_solver|].
  assert (Hrun : _coils s1 !! COIL_MOTOR_RUNNING = Some false).
  { subst s1. unfold_points. cbn.
    rewrite lookup_insert_ne by discriminate. apply lookup_insert_eq. }
  assert (Hspeed : _registers s1 !! REGISTER_MOTOR_SPEED = Some 0).
  { subst s1. unfold_points. cbn.
    rewrite lookup_insert_ne by discriminate. apply lookup_insert_eq. }
  assert (Hcur : _registers s1 !! REGISTER_MOTOR_CURRENT = Some 0).
  { subst s1. unfold_points. cbn. apply lookup_insert_eq. }
  assert (Hs1 : _connected s1 = true) by exact Hs.
  clearbody s1. exists s1.
  unfold read_holding_registers.
  rewrite (ensure_connected_connected s1 Hs1).
  pose proof (simulate_populated rnd s1 Hp1) as Hok.
  pose proof (simulate_registers rnd s1 false 0 temp Hrun Hspeed Ht) as Hregs.
  destruct (_simulate_behavior rnd s1) as [s2 r]. cbn in Hok, Hregs. subst r.
  exists s2. split; [exact Hw|]. f_equal. f_equal.
  unfold read_values. change (range 2) with [0; 1].
  cbn [map]. rewrite Hregs. unfold get.
  unfold simulate_motor. cbn [andb]. unfold_points.
  change (100 + 0) with 100. change (100 + 1) with 101.
  destruct (250 <? temp); cbn [_registers set_register];
    rewrite ?lookup_insert_ne by discriminate;
    rewrite Hspeed, Hcur; reflexivity.
Qed.

(** *** Helper methods *)

(** Runs the writes of a helper on a connected instance. *)
Ltac run_helper Hs :=
  unfold trigger_estop, release_estop, clear_error, trigger_error,
    stop_conveyor, start_conveyor, stop_motor, start_motor, and_then,
    write_coil, write_register, _ensure_connected;
  unfold_points;
  repeat (cbn [_connected set_coil set_register negb fst snd Z.eqb Pos.eqb];
          rewrite ?Hs).

(** X12: [start_motor] and [start_conveyor] bring the requested speed into the
    range 0 to 100 before writing it, and set the running coil. *)
Theorem start_helpers_clamp_speed (s : MockPLC) (speed : Z) :
  _connected s = true ->
  (exists s',
     start_motor speed s = (s', Ok true) /\
     _registers s' !! REGISTER_MOTOR_SPEED = Some (clamp_percent speed) /\
     _coils s' !! COIL_MOTOR_RUNNING = Some true) /\
  (exists s',
     start_conveyor speed s = (s', Ok true) /\
     _registers s' !! REGISTER_CONVEYOR_SPEED = Some (clamp_percent speed) /\
     _coils s' !! COIL_CONVEYOR_RUNNING = Some true) /\
  0 <= clamp_percent speed <= 100.
Proof.
  intros Hs. split; [|split].
  - eexists. split; [run_helper Hs; reflexivity|].
    unfold_points. cbn. split.
    + apply lookup_insert_eq.
    + rewrite !lookup_insert_ne by discriminate. apply lookup_insert_eq.
  - eexists. split; [run_helper Hs; reflexivity|].
    unfold_points. cbn. split; apply lookup_insert_eq.
  - unfold clamp_percent. lia.
Qed.

(** X13: [trigger_error] stores the code and raises the fault alarm exactly for a
    positive code; [clear_error] afterwards leaves code 0 and no alarm.
    Neither touches any other register or coil. *)
Theorem trigger_and_clear_error (s : MockPLC) (code : Z) :
  _connected s = true ->
  exists s1 s2,
    trigger_error code s = (s1, Ok tt) /\
    _registers s1 !! REGISTER_ERROR_CODE = Some code /\
    _coils s1 !! COIL_FAULT_ALARM = Some (0 <? code) /\
    clear_error s1 = (s2, Ok tt) /\
    _registers s2 !! REGISTER_ERROR_CODE = Some 0 /\
    _coils s2 !! COIL_FAULT_ALARM = Some false /\
    (forall a, a <> REGISTER_ERROR_CODE ->
       _registers s2 !! a = _registers s !! a) /\
    (forall a, a <> COIL_FAULT_ALARM -> _coils s2 !! a = _coils s !! a).
Proof.
  intros Hs.
  exists (set_coil COIL_FAULT_ALARM (0 <? code)
            (set_register REGISTER_ERROR_CODE code s)).
  eexists.
  split; [run_helper Hs; destruct (0 <? code); run_helper Hs; reflexivity|].
  split; [unfold_points; cbn; apply lookup_insert_eq|].
  split; [unfold_points; cbn; apply lookup_insert_eq|].
  split; [run_helper Hs; reflexivity|].
  unfold_points. cbn.
  split; [apply lookup_insert_eq|].
  split; [apply lookup_insert_eq|].
  split; intros a Ha; rewrite !lookup_insert_ne by congruence; reflexivity.
Qed.

(** X14: [trigger_estop] sets the e-stop coil and stops motor and conveyor:
    motor coil cleared, stopped coil set, both speeds and the current zero.
    [release_estop] afterwards clears the e-stop coil and nothing else:
    motor and conveyor stay stopped. *)
Theorem estop_stops_everything (s : MockPLC) :
  _connected s = true ->
  exists s1 s2,
    trigger_estop s = (s1, Ok tt) /\
    _coils s1 !! COIL_E_STOP = Some true /\
    _coils s1 !! COIL_MOTOR_RUNNING = Some false /\
    _coils s1 !! COIL_MOTOR_STOPPED = Some true /\
    _coils s1 !! COIL_CONVEYOR_RUNNING = Some false /\
    _registers s1 !! REGISTER_MOTOR_SPEED = Some 0 /\
    _registers s1 !! REGISTER_MOTOR_CURRENT = Some 0 /\
    _registers s1 !! REGISTER_CONVEYOR_SPEED = Some 0 /\
    release_estop s1 = (s2, Ok tt) /\
    _coils s2 !! COIL_E_STOP = Some false /\
    _registers s2 = _registers s1 /\
    (forall a, a <> COIL_E_STOP -> _coils s2 !! a = _coils s1 !! a).
Proof.
  intros Hs. eexists _, _.
  split; [run_helper Hs; reflexivity|].
  unfold_points. cbn.
  repeat (split; [rewrite ?lookup_insert_ne by discriminate;
                  apply lookup_insert_eq|]).
  split; [run_helper Hs; reflexivity|].
  cbn. split; [apply lookup_insert_eq|]. split; [reflexivity|].
  intros a Ha. rewrite lookup_insert_ne by congruence. reflexivity.
Qed.

(** X15: On a disconnected instance every helper raises the [ConnectionError]
    of its first write and leaves the instance as it was. *)
Theorem helpers_need_connection (s : MockPLC) (speed code : Z) :
  _connected s = false ->
  start_motor speed s = (s, Raise not_connected) /\
  stop_motor s = (s, Raise not_connected) /\
  start_conveyor speed s = (s, Raise not_connected) /\
  stop_conveyor s = (s, Raise not_connected) /\
  trigger_error code s = (s, Raise not_connected) /\
  clear_error s = (s, Raise not_connected) /\
  trigger_estop s = (s, Raise not_connected) /\
  release_estop s = (s, Raise not_connected).
Proof.
  intros Hs.
  unfold trigger_estop, release_estop, clear_error, trigger_error,
    stop_conveyor, start_conveyor, stop_motor, start_motor, and_then,
    write_coil, write_register.
  rewrite (ensure_connected_disconnected s Hs).
  repeat split.
Qed.

(** *** The snapshot of [read_state] *)


(** *** The constructor *)

Lemma register_map_injective (k k' : string) (a : Z) :
  assoc k register_map = Some a -> assoc k' register_map = Some a -> k = k'.
Proof.
  unfold register_map. unfold_points. cbn [assoc].
  repeat match goal with
         | |- context [String.eqb k ?x] =>
             destruct (String.eqb_spec k x) as [-> | _];
             [intros [= <-];
              repeat match goal with
                     | |- context [String.eqb k' ?y] =>
                         destruct (String.eqb_spec k' y) as [-> | _];
                         [first [intros _; reflexivity | discriminate]|]
                     end;
              discriminate|]
         end.
  discriminate.
Qed.

Lemma coil_map_injective (k k' : string) (a : Z) :
  assoc k coil_map = Some a -> assoc k' coil_map = Some a -> k = k'.
Proof.
  unfold coil_map. unfold_points. cbn [assoc].
  repeat match goal with
         | |- context [String.eqb k ?x] =>
             destruct (String.eqb_spec k x) as [-> | _];
             [intros [= <-];
              repeat match goal with
                     | |- context [String.eqb k' ?y] =>
                         destruct (String.eqb_spec k' y) as [-> | _];
                         [first [intros _; reflexivity | discriminate]|]
                     end;
              discriminate|]
         end.
  discriminate.
Qed.

Lemma target_register (key : string) (a : Z) :
  target key = ToRegister a <-> assoc key register_map = Some a.
Proof.
  unfold target. destruct (assoc key register_map) as [a0|].
  - split; intros [= ->]; reflexivity.
  - destruct (assoc key coil_map); split; discriminate.
Qed.

Lemma target_coil (key : string) (a : Z) :
  target key = ToCoil a -> assoc key coil_map = Some a.
Proof.
  unfold target. destruct (assoc key register_map); [discriminate|].
  destruct (assoc key coil_map); [intros [= ->]; reflexivity | discriminate].
Qed.

Lemma target_injective (key key' : string) (t : Target) :
  t <> Nowhere -> target key = t -> target key' = t -> key = key'.
Proof.
  destruct t as [a|a|]; intros Ht Hk Hk'; [| |contradiction].
  - apply target_register in Hk, Hk'.
    exact (register_map_injective _ _ _ Hk Hk').
  - apply target_coil in Hk, Hk'.
    exact (coil_map_injective _ _ _ Hk Hk').
Qed.

Lemma register_given_target (entry : Entry) (a value : Z) :
  register_given entry = Some (a, value) ->
  target (entry_key entry) = ToRegister a /\
  forall s, _registers (store (target (entry_key entry)) (entry_value entry) s)
            !! a = Some value.
Proof.
  destruct entry as [key v]. unfold register_given.
  cbn [entry_key entry_value]. revert v.
  destruct (target key) as [a0|a0|]; intros v; [|discriminate..].
  intros [= <- <-]. split; [reflexivity|].
  intros s. cbn. apply lookup_insert_eq.
Qed.

Lemma coil_given_target (entry : Entry) (a : Z) (value : bool) :
  coil_given entry = Some (a, value) ->
  target (entry_key entry) = ToCoil a /\
  forall s, _coils (store (target (entry_key entry)) (entry_value entry) s)
            !! a = Some value.
Proof.
  destruct entry as [key v]. unfold coil_given.
  cbn [entry_key entry_value]. revert v.
  destruct (target key) as [a0|a0|]; intros v; [discriminate| |discriminate].
  intros [= <- <-]. split; [reflexivity|].
  intros s. cbn. apply lookup_insert_eq.
Qed.

Lemma store_other_registers (t : Target) (value : value_type t) (s : MockPLC)
    (a : Z) :
  t <> ToRegister a -> _registers (store t value s) !! a = _registers s !! a.
Proof.
  destruct t as [a0|a0|]; intros Hne; cbn; try reflexivity.
  apply lookup_insert_ne. congruence.
Qed.

Lemma store_other_coils (t : Target) (value : value_type t) (s : MockPLC)
    (a : Z) :
  t <> ToCoil a -> _coils (store t value s) !! a = _coils s !! a.
Proof.
  destruct t as [a0|a0|]; intros Hne; cbn; try reflexivity.
  apply lookup_insert_ne. congruence.
Qed.

Lemma apply_initial_state_other_registers (state : list Entry) (a : Z) :
  forall s,
    (forall entry, entry ∈ state -> target (entry_key entry) <> ToRegister a) ->
    _registers (_apply_initial_state state s) !! a = _registers s !! a.
Proof.
  induction state as [|e0 rest IH]; intros s Hno;
    cbn [_apply_initial_state]; [reflexivity|].
  rewrite IH by (intros entry Hin; apply Hno; right; exact Hin).
  apply store_other_registers. apply Hno. left.
Qed.

Lemma apply_initial_state_other_coils (state : list Entry) (a : Z) :
  forall s,
    (forall entry, entry ∈ state -> target (entry_key entry) <> ToCoil a) ->
    _coils (_apply_initial_state state s) !! a = _coils s !! a.
Proof.
  induction state as [|e0 rest IH]; intros s Hno;
    cbn [_apply_initial_state]; [reflexivity|].
  rewrite IH by (intros entry Hin; apply Hno; right; exact Hin).
  apply store_other_coils. apply Hno. left.
Qed.

(** In a dict with distinct keys no later item is sent where [entry] is. *)
Lemma later_entries_elsewhere (entry : Entry) (rest : list Entry)
    (t : Target) :
  t <> Nowhere ->
  target (entry_key entry) = t ->
  entry_key entry ∉ map entry_key rest ->
  forall entry', entry' ∈ rest -> target (entry_key entry') <> t.
Proof.
  intros Ht Hk Hfresh entry' Hin Hk'. apply Hfresh.
  rewrite (target_injective _ _ t Ht Hk Hk').
  apply list_elem_of_fmap. exists entry'. split; [reflexivity | exact Hin].
Qed.

(** X17: Construction from an [initial_state] dict with distinct keys, the
    values typed as the stores are: every register and every coil named in
    the dict holds the value given for it, as given; every other point
    holds its default; a key that names no point is ignored.  The names
    are those of the two tables: each sends its value to the address the
    table gives. *)
Theorem init_applies_initial_state (state : list Entry) :
  NoDup (map entry_key state) ->
  let s := init (Some state) in
  (forall entry a value, entry ∈ state ->
     register_given entry = Some (a, value) ->
     _registers s !! a = Some value) /\
  (forall entry a value, entry ∈ state ->
     coil_given entry = Some (a, value) ->
     _coils s !! a = Some value) /\
  (forall a, (forall entry, entry ∈ state ->
                target (entry_key entry) <> ToRegister a) ->
     _registers s !! a = default_registers !! a) /\
  (forall a, (forall entry, entry ∈ state ->
                target (entry_key entry) <> ToCoil a) ->
     _coils s !! a = default_coils !! a) /\
  (forall key a, (key, a) ∈ register_map -> target key = ToRegister a) /\
  (forall key a, (key, a) ∈ coil_map -> target key = ToCoil a).
Proof.
  intros Hnd s. subst s. unfold init.
  split; [|split; [|split; [|split; [|split]]]].
  - generalize (MkMock false default_registers default_coils "sorting_station").
    intros m entry a value Hin Hg. revert m Hnd Hin.
    induction state as [|e0 rest IH]; intros s Hnd Hin; [inversion Hin|].
    cbn [map] in Hnd. apply NoDup_cons in Hnd as [Hfresh Hnd].
    cbn [_apply_initial_state].
    apply elem_of_cons in Hin as [<- | Hin]; [|apply IH; assumption].
    destruct (register_given_target entry a value Hg) as [Ht Hstore].
    rewrite apply_initial_state_other_registers; [apply Hstore|].
    apply (later_entries_elsewhere entry rest (ToRegister a));
      [discriminate | exact Ht | exact Hfresh].
  - generalize (MkMock false default_registers default_coils "sorting_station").
    intros m entry a value Hin Hg. revert m Hnd Hin.
    induction state as [|e0 rest IH]; intros s Hnd Hin; [inversion Hin|].
    cbn [map] in Hnd. apply NoDup_cons in Hnd as [Hfresh Hnd].
    cbn [_apply_initial_state].
    apply elem_of_cons in Hin as [<- | Hin]; [|apply IH; assumption].
    destruct (coil_given_target entry a value Hg) as [Ht Hstore].
    rewrite apply_initial_state_other_coils; [apply Hstore|].
    apply (later_entries_elsewhere entry rest (ToCoil a));
      [discriminate | exact Ht | exact Hfresh].
  - intros a Hno.
    rewrite apply_initial_state_other_registers by exact Hno. reflexivity.
  - intros a Hno.
    rewrite apply_initial_state_other_coils by exact Hno. reflexivity.
  - intros key a Hin. unfold register_map in Hin.
    repeat (apply elem_of_cons in Hin as [[= -> ->] | Hin]; [reflexivity|]).
    inversion Hin.
  - intros key a Hin. unfold coil_map in Hin.
    repeat (apply elem_of_cons in Hin as [[= -> ->] | Hin]; [reflexivity|]).
    inversion Hin.
Qed.

(** X8, witness: an instance built with a temperature of 30.0 degrees,
    connected, motor started at 40 %. *)
Lemma reads_never_raise_witness :
  let s := calls [Basic OpConnect; StartMotor 40]
             (init (Some [MkEntry "temperature" 300])) in
  (exists s' values,
     read_holding_registers Fixtures.quiet_draws 100 6 s = (s', Ok values) /\
     length values = Z.to_nat 6) /\
  (exists values,
     read_coils 100 6 s = (s, Ok values) /\
     length values = Z.to_nat 6) /\
  (exists s' state,
     read_state Fixtures.quiet_draws Fixtures.quiet_draws 0 s = (s', Ok state)).
Proof.
  apply (reads_never_raise (Some [MkEntry "temperature" 300])
           [Basic OpConnect; StartMotor 40]
           Fixtures.quiet_draws Fixtures.quiet_draws 100 6 0);
    [reflexivity | apply (bool_decide_unpack _); vm_compute; exact I].
Defined.

(** X9, witness: the motor running at 40 % at 25.0 degrees, noise -2. *)
Lemma simulate_step_bounds_witness :
  let s := Fixtures.running_plc in
  let s' := fst (_simulate_behavior Fixtures.quiet_draws s) in
  (exists temp',
     _registers s' !! REGISTER_TEMPERATURE = Some temp' /\
     Z.min 250 250 <= temp' <= Z.max 250 800 /\
     -5 <= temp' - 250 <= 3 /\
     (250 <= 250 <= 800 -> 250 <= temp' <= 800)) /\
  (if true && (0 <? 40)
   then exists current,
          _registers s' !! REGISTER_MOTOR_CURRENT = Some current /\
          current = Z.max 0 (40 `quot` 2 + noise Fixtures.quiet_draws) /\
          0 <= current <= 40 `quot` 2 + 5
   else _registers s' !! REGISTER_MOTOR_CURRENT
        = _registers s !! REGISTER_MOTOR_CURRENT).
Proof.
  intros s.
  apply (simulate_step_bounds Fixtures.quiet_draws s true 40 250);
    [unfold draws_in_range, Fixtures.quiet_draws; cbn; lia
    | reflexivity | reflexivity | reflexivity | reflexivity].
Defined.

(** X10, witness: sensor 1 and the conveyor speed on the running instance. *)
Lemma written_values_read_back_witness :
  (exists s1,
     write_coil COIL_SENSOR_1 true Fixtures.running_plc = (s1, Ok true) /\
     read_coils COIL_SENSOR_1 1 s1 = (s1, Ok [true])) /\
  (exists s1 s2,
     write_register REGISTER_CONVEYOR_SPEED 75 Fixtures.running_plc
       = (s1, Ok true) /\
     read_holding_registers Fixtures.quiet_draws REGISTER_CONVEYOR_SPEED 1 s1
       = (s2, Ok [75])).
Proof.
  apply (written_values_read_back Fixtures.quiet_draws Fixtures.running_plc
           COIL_SENSOR_1 REGISTER_CONVEYOR_SPEED 75 true);
    [reflexivity
    | split; apply (bool_decide_unpack _); vm_compute; exact I
    | apply (bool_decide_unpack _); vm_compute; exact I
    | reflexivity | discriminate | discriminate].
Defined.

(** X11, witness: the motor running at 40 % is stopped. *)
Lemma stop_then_read_zero_witness :
  exists s1 s2,
    write_coil COIL_MOTOR_RUNNING false Fixtures.running_plc = (s1, Ok true) /\
    read_holding_registers Fixtures.quiet_draws REGISTER_MOTOR_SPEED 2 s1
      = (s2, Ok [0; 0]).
Proof.
  apply (stop_then_read_zero Fixtures.quiet_draws Fixtures.running_plc);
    [reflexivity | split; apply (bool_decide_unpack _); vm_compute; exact I].
Defined.

(** X12, witness: a requested speed of 250 is written as 100. *)
Lemma start_helpers_clamp_speed_witness :
  let s := Fixtures.running_plc in
  (exists s',
     start_motor 250 s = (s', Ok true) /\
     _registers s' !! REGISTER_MOTOR_SPEED = Some (clamp_percent 250) /\
     _coils s' !! COIL_MOTOR_RUNNING = Some true) /\
  (exists s',
     start_conveyor 250 s = (s', Ok true) /\
     _registers s' !! REGISTER_CONVEYOR_SPEED = Some (clamp_percent 250) /\
     _coils s' !! COIL_CONVEYOR_RUNNING = Some true) /\
  0 <= clamp_percent 250 <= 100.
Proof.
  intros s. apply (start_helpers_clamp_speed s 250). reflexivity.
Defined.

(** X13, witness: error code 3 on the running instance. *)
Lemma trigger_and_clear_error_witness :
  let s := Fixtures.running_plc in
  exists s1 s2,
    trigger_error 3 s = (s1, Ok tt) /\
    _registers s1 !! REGISTER_ERROR_CODE = Some 3 /\
    _coils s1 !! COIL_FAULT_ALARM = Some (0 <? 3) /\
    clear_error s1 = (s2, Ok tt) /\
    _registers s2 !! REGISTER_ERROR_CODE = Some 0 /\
    _coils s2 !! COIL_FAULT_ALARM = Some false /\
    (forall a, a <> REGISTER_ERROR_CODE ->
       _registers s2 !! a = _registers s !! a) /\
    (forall a, a <> COIL_FAULT_ALARM -> _coils s2 !! a = _coils s !! a).
Proof.
  intros s. apply (trigger_and_clear_error s 3). reflexivity.
Defined.

(** X14, witness: emergency stop with the motor running at 40 %. *)
Lemma estop_stops_everything_witness :
  let s := Fixtures.running_plc in
  exists s1 s2,
    trigger_estop s = (s1, Ok tt) /\
    _coils s1 !! COIL_E_STOP = Some true /\
    _coils s1 !! COIL_MOTOR_RUNNING = Some false /\
    _coils s1 !! COIL_MOTOR_STOPPED = Some true /\
    _coils s1 !! COIL_CONVEYOR_RUNNING = Some false /\
    _registers s1 !! REGISTER_MOTOR_SPEED = Some 0 /\
    _registers s1 !! REGISTER_MOTOR_CURRENT = Some 0 /\
    _registers s1 !! REGISTER_CONVEYOR_SPEED = Some 0 /\
    release_estop s1 = (s2, Ok tt) /\
    _coils s2 !! COIL_E_STOP = Some false /\
    _registers s2 = _registers s1 /\
    (forall a, a <> COIL_E_STOP -> _coils s2 !! a = _coils s1 !! a).
Proof.
  intros s. apply (estop_stops_everything s). reflexivity.
Defined.

(** X15, witness: a freshly constructed instance is disconnected. *)
Lemma helpers_need_connection_witness :
  let s := init None in
  start_motor 50 s = (s, Raise not_connected) /\
  stop_motor s = (s, Raise not_connected) /\
  start_conveyor 50 s = (s, Raise not_connected) /\
  stop_conveyor s = (s, Raise not_connected) /\
  trigger_error 1 s = (s, Raise not_connected) /\
  clear_error s = (s, Raise not_connected) /\
  trigger_estop s = (s, Raise not_connected) /\
  release_estop s = (s, Raise not_connected).
Proof.
  intros s. apply (helpers_need_connection s 50 1). reflexivity.
Defined.


(** X17, witness: an initial state that names one register and one coil. *)
Lemma init_applies_initial_state_witness :
  let state := [MkEntry "motor_speed" 75; MkEntry "e_stop_active" true] in
  let s := init (Some state) in
  (forall entry a value, entry ∈ state ->
     register_given entry = Some (a, value) ->
     _registers s !! a = Some value) /\
  (forall entry a value, entry ∈ state ->
     coil_given entry = Some (a, value) ->
     _coils s !! a = Some value) /\
  (forall a, (forall entry, entry ∈ state ->
                target (entry_key entry) <> ToRegister a) ->
     _registers s !! a = default_registers !! a) /\
  (forall a, (forall entry, entry ∈ state ->
                target (entry_key entry) <> ToCoil a) ->
     _coils s !! a = default_coils !! a) /\
  (forall key a, (key, a) ∈ register_map -> target key = ToRegister a) /\
  (forall key a, (key, a) ∈ coil_map -> target key = ToCoil a).
Proof.
  intros state.
  apply (init_applies_initial_state state).
  apply (bool_decide_unpack _). vm_compute. exact I.
Defined.

End MockHelpersProps.

(** ** Connection service and routes: further properties *)

Module PLCSessionProps.

Import PLCConnectionService PLCConnectionServiceProps PLCSession Setup PLCRoutes.

Lemma writable_has_name (address : Z) :
  in_writable_set address -> exists name, COIL_NAMES !! address = Some name.
Proof.
  unfold in_writable_set. intros Hw.
  assert (Hcases : address = 0 \/ address = 1 \/ address = 2 \/ address = 3 \/
                   address = 4 \/ address = 5 \/ address = 6 \/ address = 15 \/
                   address = 16 \/ address = 17) by lia.
  repeat (destruct Hcases as [-> | Hcases]; [eexists; reflexivity|]).
  subst. eexists; reflexivity.
Qed.

Lemma write_calls_snoc (log : list Call) (c : Call) :
  write_calls (log ++ [c]) = (write_calls log + (if is_write c then 1 else 0))%nat.
Proof.
  unfold write_calls. rewrite filter_app, length_app. f_equal.
  destruct (is_write c) eqn:E.
  - rewrite filter_cons_True by exact E. reflexivity.
  - rewrite filter_cons_False by congruence. reflexivity.
Qed.

Section Service.

Context {C : Type} `{ModbusTCPSession C}.

Lemma is_connected_up (svc : Service C) (c : C) (log : list Call) :
  _client svc = Some c ->
  client_is_connected c = Ok true ->
  is_connected svc log = (log ++ [CallIsConnected], true).
Proof. intros Hc Hup. unfold is_connected. rewrite Hc, Hup. reflexivity. Qed.

Lemma is_connected_log (svc : Service C) (log : list Call) :
  write_calls (fst (is_connected svc log)) = write_calls log /\
  snd (is_connected svc log) = connected svc.
Proof.
  unfold connected, is_connected. destruct (_client svc); cbn [fst snd].
  - rewrite write_calls_snoc. cbn. split; [lia | reflexivity].
  - split; reflexivity.
Qed.

Lemma write_coil_reaches_client
    (now address : Z) (value success : bool) (svc : Service C) (c c' : C)
    (log : list Call) :
  _client svc = Some c ->
  client_is_connected c = Ok true ->
  in_writable_set address ->
  client_write_coil address value c = (c', Ok success) ->
  exists name,
    COIL_NAMES !! address = Some name /\
    PLCConnectionService.write_coil now address value svc log =
      (MkService (Some c') (_ip svc) (_port svc) (_connected svc) (Some now),
       log ++ [CallIsConnected; CallWriteCoil address value],
       Ok (MkWriteCoilResult success address value name)).
Proof.
  intros Hc Hup Hw Hwrite.
  destruct (writable_has_name address Hw) as [name Hname].
  exists name. split; [exact Hname|].
  unfold PLCConnectionService.write_coil.
  rewrite (is_connected_up svc c log Hc Hup).
  cbv beta iota. change (negb true) with false. cbv iota.
  replace (contains WRITABLE_COILS address) with true
    by (symmetry; apply contains_writable; exact Hw).
  cbn [negb]. rewrite Hc, Hwrite, Hname, <- app_assoc. reflexivity.
Qed.

(** X18: A write to a writable address on a connected service reaches the client
    exactly once, with the address and value given; the answer carries the
    client's success flag and the documented name of the coil (every
    writable address has one), and the time of the write is recorded. *)
Theorem write_coil_writable_address
    (now address : Z) (value success : bool) (svc : Service C) (c c' : C)
    (log : list Call) :
  _client svc = Some c ->
  client_is_connected c = Ok true ->
  in_writable_set address ->
  client_write_coil address value c = (c', Ok success) ->
  exists name,
    COIL_NAMES !! address = Some name /\
    PLCConnectionService.write_coil now address value svc log =
      (MkService (Some c') (_ip svc) (_port svc) (_connected svc) (Some now),
       log ++ [CallIsConnected; CallWriteCoil address value],
       Ok (MkWriteCoilResult success address value name)).
Proof.
  exact (write_coil_reaches_client now address value success svc c c' log).
Qed.

(** X19: On a service that is not connected (no client, or a client that reports
    down or raises when asked) [write_coil] raises [ConnectionError] for
    every address, writable or not, and [read_io] does the same; the
    [write_coil] route answers 503 before calling the service.  The service
    is unchanged and the client receives no write. *)
Theorem disconnected_service_raises
    (now stamp address : Z) (value : bool) (svc : Service C)
    (log : list Call) :
  connected svc = false ->
  (exists log',
     PLCConnectionService.write_coil now address value svc log =
       (svc, log', Raise (ConnectionError "Not connected to PLC")) /\
     write_calls log' = write_calls log) /\
  read_io now stamp svc
    = (svc, Raise (ConnectionError "Not connected to PLC")) /\
  (exists log',
     PLCRoutes.write_coil now address value svc log =
       (svc, log', HTTPError (MkHTTPException 503 not_connected_detail)) /\
     write_calls log' = write_calls log).
Proof.
  intros Hdown.
  destruct (is_connected_log svc log) as [Hlog Hup]. rewrite Hdown in Hup.
  split; [|split].
  - unfold PLCConnectionService.write_coil.
    destruct (is_connected svc log) as [log1 up]. cbn in Hlog, Hup. subst up.
    exists log1. split; [reflexivity | exact Hlog].
  - unfold read_io. rewrite Hdown. reflexivity.
  - unfold PLCRoutes.write_coil.
    destruct (is_connected svc log) as [log1 up]. cbn in Hlog, Hup. subst up.
    exists log1. split; [reflexivity | exact Hlog].
Qed.

(** [disconnect] always leaves a service that is not connected, whatever the
    client answers, and keeps address, port and the time last seen. *)
Lemma disconnect_disconnects (svc : Service C) :
  connected (disconnect svc) = false /\
  _client (disconnect svc) = None /\
  _ip (disconnect svc) = _ip svc /\
  _port (disconnect svc) = _port svc /\
  _last_seen (disconnect svc) = _last_seen svc.
Proof. repeat split. Qed.

(** X20: [connect] reports success exactly when the client could be constructed
    and its [connect()] returned true; the service then holds that client,
    records the time, and the message names address and port.  After a
    failure the time last seen is the one before the call.  In every case
    the address and port of the service are those just given. *)
Theorem connect_reports_outcome (now : Z) (ip : string) (port : Z)
    (svc : Service C) :
  let svc' := fst (connect now ip port svc) in
  let r := snd (connect now ip port svc) in
  _ip svc' = Some ip /\ _port svc' = port /\
  (connect_success r = true <->
   exists c c', new_client ip port 3%Q = Ok c /\
                client_connect c = (c', Ok true) /\
                _client svc' = Some c') /\
  (connect_success r = true ->
   _last_seen svc' = Some now /\
   connect_message r = "Connected to " +:+ ip +:+ ":" +:+ str port) /\
  (connect_success r = false -> _last_seen svc' = _last_seen svc).
Proof.
  unfold connect.
  destruct (new_client ip port 3%Q) as [c|e]; cbn;
    [destruct (client_connect c) as [c' [[|]|e]] eqn:Ec; cbn|];
    repeat split; try discriminate; try reflexivity;
    try (intros _; exists c, c'; repeat split; [exact Ec]);
    try (intros (c0 & c1 & E1 & E2 & _); congruence).
Qed.

Lemma length_18 {A : Type} (l : list A) :
  length l = 18%nat ->
  exists x0 x1 x2 x3 x4 x5 x6 x7 x8 x9 x10 x11 x12 x13 x14 x15 x16 x17,
    l = [x0; x1; x2; x3; x4; x5; x6; x7; x8; x9; x10; x11; x12; x13; x14;
         x15; x16; x17].
Proof.
  intros Hl.
  do 18 (destruct l as [|? l]; [discriminate|]).
  destruct l; [|discriminate]. repeat eexists.
Qed.

Lemma length_6 {A : Type} (l : list A) :
  length l = 6%nat -> exists x0 x1 x2 x3 x4 x5, l = [x0; x1; x2; x3; x4; x5].
Proof.
  intros Hl.
  do 6 (destruct l as [|? l]; [discriminate|]).
  destruct l; [|discriminate]. repeat eexists.
Qed.

(** X21: When the client answers the two bulk reads with 18 coils and 6
    registers, [read_io] returns them under their documented names: coils
    0-6 as program variables, 7-14 as inputs, 15-17 as outputs, registers
    100-105 by name; the time of the read is recorded. *)
Theorem read_io_groups_by_address (now stamp : Z) (svc : Service C)
    (c c1 c2 : C)
    (coils : list bool) (registers : list Z) :
  _client svc = Some c ->
  client_is_connected c = Ok true ->
  client_read_coils 0 18 c = (c1, Ok coils) ->
  client_read_holding_registers 100 6 c1 = (c2, Ok registers) ->
  length coils = 18%nat ->
  length registers = 6%nat ->
  read_io now stamp svc =
    (MkService (Some c2) (_ip svc) (_port svc) (_connected svc) (Some now),
     Ok (MkIOData (named program_names (take 7 coils))
                  (named input_names (take 8 (drop 7 coils)))
                  (named output_names (drop 15 coils))
                  (named register_names registers)
                  stamp)).
Proof.
  intros Hc Hup Hcoils Hregs Hl18 Hl6.
  unfold read_io, connected. rewrite (is_connected_up svc c [] Hc Hup).
  cbn [snd negb]. rewrite Hc, Hcoils, Hregs.
  destruct (length_18 coils Hl18)
    as (x0 & x1 & x2 & x3 & x4 & x5 & x6 & x7 & x8 & x9 & x10 & x11 & x12
        & x13 & x14 & x15 & x16 & x17 & ->).
  destruct (length_6 registers Hl6) as (r0 & r1 & r2 & r3 & r4 & r5 & ->).
  reflexivity.
Qed.

(** X22: The [write_coil] route on a connected service: 400 with the service's
    message for an address outside the writable set, the service's answer
    for a successful write, and for an exception of the client 503 when it
    is a [ConnectionError], 500 with "Write failed: " for another
    [IOError], 400 for a [ValueError]; anything else is not caught.  Among
    the addresses the request model allows (0 to 17) the route refuses
    exactly 7 to 14. *)
Theorem write_coil_route_status (now address : Z) (value : bool)
    (svc : Service C) (c : C) (log : list Call) :
  _client svc = Some c ->
  client_is_connected c = Ok true ->
  let out := snd (PLCRoutes.write_coil now address value svc log) in
  (~ in_writable_set address ->
   out = HTTPError (MkHTTPException 400 (not_writable_message address))) /\
  (in_writable_set address ->
   match snd (client_write_coil address value c) with
   | Ok success =>
       exists name, COIL_NAMES !! address = Some name /\
         out = Response (MkWriteCoilResult success address value name)
   | Raise e =>
       out = (if isinstance e ValueErrorT
              then HTTPError (MkHTTPException 400 (exn_args e))
              else if isinstance e ConnectionErrorT
              then HTTPError (MkHTTPException 503 (exn_args e))
              else if isinstance e IOErrorT
              then HTTPError
                     (MkHTTPException 500 ("Write failed: " +:+ exn_args e))
              else Uncaught e)
   end) /\
  (valid_write_coil_address address = true ->
   (~ in_writable_set address <-> 7 <= address <= 14)).
Proof.
  intros Hc Hup out. subst out. unfold PLCRoutes.write_coil.
  rewrite (is_connected_up svc c log Hc Hup). cbn [negb].
  split; [|split].
  - intros Hout.
    assert (E : contains WRITABLE_COILS address = false).
    { destruct (contains WRITABLE_COILS address) eqn:E; [|reflexivity].
      apply contains_writable in E. contradiction. }
    unfold PLCConnectionService.write_coil.
    rewrite (is_connected_up svc c _ Hc Hup).
    cbv beta iota. change (negb true) with false. cbv iota.
    rewrite E. reflexivity.
  - intros Hw.
    destruct (client_write_coil address value c) as [c' [success|e]] eqn:Ew;
      cbn [snd].
    + destruct (write_coil_reaches_client now address value success svc c c'
                  (log ++ [CallIsConnected]) Hc Hup Hw Ew) as (name & Hn & Hr).
      rewrite Hr. exists name. split; [exact Hn | reflexivity].
    + unfold PLCConnectionService.write_coil.
      rewrite (is_connected_up svc c _ Hc Hup).
      cbv beta iota. change (negb true) with false. cbv iota.
      replace (contains WRITABLE_COILS address) with true
        by (symmetry; apply contains_writable; exact Hw).
      cbn [negb]. rewrite Hc, Ew. reflexivity.
  - unfold valid_write_coil_address, in_writable_set. intros Hv.
    apply andb_prop in Hv as [H1 H2].
    apply Z.leb_le in H1. apply Z.leb_le in H2. lia.
Qed.

End Service.

(** X18, witness: output 15 written through the connected fake service. *)
Lemma write_coil_writable_address_witness :
  exists name,
    COIL_NAMES !! 15 = Some name /\
    PLCConnectionService.write_coil 1700000000 15 true connected_service [] =
      (MkService (Some (MkFake true (<[15 := true]> ∅)))
         (_ip connected_service) (_port connected_service)
         (_connected connected_service) (Some 1700000000),
       [] ++ [CallIsConnected; CallWriteCoil 15 true],
       Ok (MkWriteCoilResult true 15 true name)).
Proof.
  apply (write_coil_writable_address 1700000000 15 true true connected_service
           (MkFake true ∅) (MkFake true (<[15 := true]> ∅)) []);
    [reflexivity | reflexivity | unfold in_writable_set; lia | reflexivity].
Defined.

(** X19, witness: a service that was never connected. *)
Lemma disconnected_service_raises_witness :
  let svc := Fixtures.idle_service in
  (exists log',
     PLCConnectionService.write_coil 1700000000 0 true svc [] =
       (svc, log', Raise (ConnectionError "Not connected to PLC")) /\
     write_calls log' = write_calls []) /\
  read_io 1700000000 1700000001 svc
    = (svc, Raise (ConnectionError "Not connected to PLC")) /\
  (exists log',
     PLCRoutes.write_coil 1700000000 0 true svc [] =
       (svc, log', HTTPError (MkHTTPException 503 not_connected_detail)) /\
     write_calls log' = write_calls []).
Proof.
  intros svc.
  apply (disconnected_service_raises 1700000000 1700000001 0 true svc []).
  reflexivity.
Defined.

(** X21, witness: a fake client with output 15 set. *)
Lemma read_io_groups_by_address_witness :
  let c := MkFake true (<[15 := true]> ∅) in
  let svc := MkService (Some c) (Some "192.168.1.100") 502 true None in
  let coils := map (fun i => default false (fake_coils c !! (0 + i))) (range 18) in
  let registers := map (fun _ : Z => 0) (range 6) in
  read_io 1700000000 1700000001 svc =
    (MkService (Some c) (_ip svc) (_port svc) (_connected svc)
       (Some 1700000000),
     Ok (MkIOData (named program_names (take 7 coils))
                  (named input_names (take 8 (drop 7 coils)))
                  (named output_names (drop 15 coils))
                  (named register_names registers)
                  1700000001)).
Proof.
  intros c svc coils registers.
  apply (read_io_groups_by_address 1700000000 1700000001 svc c c c
           coils registers);
    reflexivity.
Defined.

(** X22, witness: a write to input 9 through the connected fake service. *)
Lemma write_coil_route_status_witness :
  let svc := connected_service in
  let c := MkFake true ∅ in
  let out := snd (PLCRoutes.write_coil 1700000000 9 true svc []) in
  (~ in_writable_set 9 ->
   out = HTTPError (MkHTTPException 400 (not_writable_message 9))) /\
  (in_writable_set 9 ->
   match snd (client_write_coil 9 true c) with
   | Ok success =>
       exists name, COIL_NAMES !! 9 = Some name /\
         out = Response (MkWriteCoilResult success 9 true name)
   | Raise e =>
       out = (if isinstance e ValueErrorT
              then HTTPError (MkHTTPException 400 (exn_args e))
              else if isinstance e ConnectionErrorT
              then HTTPError (MkHTTPException 503 (exn_args e))
              else if isinstance e IOErrorT
              then HTTPError
                     (MkHTTPException 500 ("Write failed: " +:+ exn_args e))
              else Uncaught e)
   end) /\
  (valid_write_coil_address 9 = true ->
   (~ in_writable_set 9 <-> 7 <= 9 <= 14)).
Proof.
  intros svc c.
  apply (write_coil_route_status 1700000000 9 true svc c []); reflexivity.
Defined.

End PLCSessionProps.

(** ** Network scanner and scan endpoint: further properties *)

Module ScanProps.

Import NetworkScanner NetworkScannerProps Setup Probe.

Lemma length_range2 (a b : Z) : length (range2 a b) = Z.to_nat (b - a).
Proof. unfold range2. rewrite length_map, length_seq. reflexivity. Qed.

Lemma elem_of_range2 (a b i : Z) : i ∈ range2 a b <-> a <= i < b.
Proof.
  unfold range2. rewrite list_elem_of_fmap. split.
  - intros (n & -> & Hn). apply elem_of_seq in Hn. lia.
  - intros Hi. exists (Z.to_nat (i - a)). split; [lia|].
    apply elem_of_seq. lia.
Qed.

Lemma NoDup_range2 (a b : Z) : NoDup (range2 a b).
Proof.
  unfold range2. apply NoDup_fmap_2; [|apply NoDup_seq].
  intros x y Hxy. lia.
Qed.

(** The candidate addresses of a scan: one per suffix from [start] to
    [end], in order, all different; none at all when [end < start]. *)
Lemma candidates_spec (subnet : string) (start end_ : Z) :
  length (candidates subnet start end_) = Z.to_nat (end_ - start + 1) /\
  NoDup (candidates subnet start end_) /\
  (forall ip, ip ∈ candidates subnet start end_ <->
     exists i, start <= i <= end_ /\ ip = subnet +:+ "." +:+ str i) /\
  (end_ < start -> candidates subnet start end_ = []).
Proof.
  unfold candidates. split; [|split; [|split]].
  - rewrite length_map, length_range2. f_equal. lia.
  - apply NoDup_fmap_2; [|apply NoDup_range2].
    intros x y Hxy.
    apply (inj (String.app subnet)) in Hxy.
    apply (inj (String.app ".")) in Hxy.
    apply (inj pretty) in Hxy. exact Hxy.
  - intros ip. rewrite list_elem_of_fmap. split.
    + intros (i & -> & Hi). apply elem_of_range2 in Hi.
      exists i. split; [lia | reflexivity].
    + intros (i & Hi & ->). exists i. split; [reflexivity|].
      apply elem_of_range2. lia.
  - intros Hlt. unfold range2.
    replace (Z.to_nat (end_ + 1 - start)) with 0%nat by lia. reflexivity.
Qed.

Lemma length_sort_by {A : Type} (key : A -> Q) (l : list A) :
  length (sort_by key l) = length l.
Proof. apply Permutation_length, sort_by_perm. Qed.

Section Network.

Variable _probe_ip : Scanner -> string -> ScanResult.
Variable as_completed : list ScanResult -> list ScanResult.
Variable elapsed : Q.

Hypothesis as_completed_perm : forall l, as_completed l ≡ₚ l.

Lemma scan_subnet_outcome
    (self : Scanner) (subnet : string) (start end_ : Z)
    (probed : list string) :
  0 < max_workers self ->
  exists results,
    scan_subnet _probe_ip as_completed elapsed self subnet start end_ probed
      = (probed ++ candidates subnet start end_, Ok (results, elapsed)) /\
    results ≡ₚ map (_probe_ip self) (candidates subnet start end_) /\
    length results = Z.to_nat (end_ - start + 1) /\
    NoDup (candidates subnet start end_) /\
    (end_ < start -> results = [] /\ candidates subnet start end_ = []).
Proof.
  intros Hw. unfold scan_subnet.
  replace (max_workers self <=? 0) with false
    by (symmetry; apply Z.leb_gt; exact Hw).
  fold (candidates subnet start end_).
  destruct (candidates_spec subnet start end_) as (Hlen & Hnd & _ & Hempty).
  eexists. split; [reflexivity|].
  split; [apply as_completed_perm|].
  split; [rewrite as_completed_perm, length_map; exact Hlen|].
  split; [exact Hnd|].
  intros Hlt. split; [|exact (Hempty Hlt)].
  apply Permutation_nil_r. rewrite as_completed_perm, (Hempty Hlt).
  reflexivity.
Qed.

(** X23: [scan_subnet] probes every candidate address exactly once and returns
    one result per address, in the order of completion; for [end < start]
    it probes nothing and returns no result. *)
Theorem scan_subnet_probes_each_address_once
    (self : Scanner) (subnet : string) (start end_ : Z)
    (probed : list string) :
  0 < max_workers self ->
  exists results,
    scan_subnet _probe_ip as_completed elapsed self subnet start end_ probed
      = (probed ++ candidates subnet start end_, Ok (results, elapsed)) /\
    results ≡ₚ map (_probe_ip self) (candidates subnet start end_) /\
    length results = Z.to_nat (end_ - start + 1) /\
    NoDup (candidates subnet start end_) /\
    (end_ < start -> results = [] /\ candidates subnet start end_ = []).
Proof.
  exact (scan_subnet_outcome self subnet start end_ probed).
Qed.

End Network.

Lemma online_devices_outcome (results : list ScanResult) :
  let devices := online_devices results in
  (exists online_results,
     online_results ≡ₚ Spec.online_subset results /\
     Forall2 Spec.projects_to online_results devices) /\
  length devices = length (Spec.online_subset results) /\
  (length devices <= length results)%nat /\
  (Forall (fun r => status r <> online) results -> devices = []).
Proof.
  intros devices. subst devices.
  destruct (online_devices_subset results) as (online_results & Hperm & Hproj).
  assert (Hlen : length (online_devices results)
                 = length (Spec.online_subset results)).
  { rewrite <- (Forall2_length _ _ _ Hproj), Hperm. reflexivity. }
  split; [exists online_results; split; assumption|].
  split; [exact Hlen|]. split.
  - rewrite Hlen. apply length_filter.
  - intros Hnone. apply length_zero_iff_nil. rewrite Hlen.
    apply length_zero_iff_nil. unfold Spec.online_subset.
    clear Hperm Hproj Hlen.
    induction Hnone as [|r rest Hr _ IH]; [reflexivity|].
    rewrite filter_cons_False; [exact IH | exact Hr].
Qed.


Section ProbeFacts.

Variable round2 : Q -> Q.
Variable lower : string -> string.

(** X25: Whatever the course of the connection attempt, [_probe_ip] answers for
    the address and port it was asked about; the status is online exactly
    when [connect()] returned true, the result carries a response time
    exactly when it is online and an error message exactly when its status
    is error. *)
Theorem probe_result_well_formed (self : Scanner) (address : string)
    (attempt : Attempt) :
  let r := Probe._probe_ip round2 lower self address attempt in
  ip r = address /\ port r = scan_port self /\
  (status r = online <-> exists t, attempt = Connected t) /\
  (is_Some (response_time_ms r) <-> status r = online) /\
  (is_Some (error_message r) <-> status r = error) /\
  (forall t, attempt = Connected t -> response_time_ms r = Some (round2 t)).
Proof.
  intros r. subst r.
  destruct attempt as [t | | [] msg]; cbn;
    try destruct (occurs_in "timed out" (lower msg)); cbn;
    repeat split; try discriminate; eauto;
    try (intros [x Hx]; discriminate);
    try (intros t0 [= ->]; reflexivity).
Qed.

End ProbeFacts.

Section Route.

Variable settings : Settings.
Variable _probe_ip : Scanner -> string -> ScanResult.
Variable as_completed : list ScanResult -> list ScanResult.
Variable elapsed : Q.
Variable round2 : Q -> Q.

Hypothesis as_completed_perm : forall l, as_completed l ≡ₚ l.

(** X26: A scan request with [start <= end] (and a positive worker count in the
    settings) is served by one scanner built from the request's timeout and
    the configured port; it probes each address of the range once and the
    response reports [end - start + 1] addresses scanned and, as devices,
    exactly the probes of the range that came back online, each projected
    to a device (same address and port, status online, its latency), in
    ascending order of response time, with their number, which never
    exceeds the count. *)
Theorem scan_network_reports_range (request : ScanRequest)
    (scanners : list Scanner) (probed : list string) :
  req_start request <= req_end request ->
  0 < scanner_max_workers settings ->
  exists response online_results,
    scan_network settings _probe_ip as_completed elapsed round2
      (Some request) scanners probed
    = (scanners ++ [MkScanner (req_timeout request)
                      (scanner_default_port settings)
                      (scanner_max_workers settings)],
       probed ++ candidates (req_subnet request) (req_start request)
                   (req_end request),
       inr response) /\
    count response = req_end request - req_start request + 1 /\
    online_results ≡ₚ
      Spec.online_subset
        (map (_probe_ip (MkScanner (req_timeout request)
                           (scanner_default_port settings)
                           (scanner_max_workers settings)))
           (candidates (req_subnet request) (req_start request)
              (req_end request))) /\
    Forall2 Spec.projects_to online_results (devices response) /\
    online_count response = Z.of_nat (length (devices response)) /\
    online_count response <= count response /\
    StronglySorted (key_le dev_response_time_ms) (devices response) /\
    scan_time_seconds response = round2 elapsed /\
    subnet_scanned response
      = req_subnet request +:+ "." +:+ str (req_start request)
        +:+ "-" +:+ str (req_end request).
Proof.
  intros Hle Hw. unfold scan_network.
  replace (req_end request <? req_start request) with false
    by (symmetry; apply Z.ltb_ge; exact Hle).
  unfold get_online_devices.
  set (scanner := MkScanner _ _ _).
  destruct (scan_subnet_outcome _probe_ip as_completed elapsed
              as_completed_perm scanner (req_subnet request)
              (req_start request) (req_end request) probed Hw)
    as (results & Hscan & Hres & Hlen & _).
  rewrite Hscan.
  destruct (online_devices_outcome results)
    as ((online_results & Hperm & Hproj) & _ & Hn & _).
  eexists _, online_results. split; [reflexivity|]. cbn.
  split; [rewrite Hlen; lia|].
  split.
  { rewrite Hperm. unfold Spec.online_subset. rewrite Hres. reflexivity. }
  split; [exact Hproj|].
  split; [reflexivity|].
  split; [rewrite Hlen in Hn; lia|].
  split; [apply online_devices_sorted|].
  split; reflexivity.
Qed.

End Route.

(** X23, witness: the fixture network scanned over 10.0.0.1-6, the probes
    completing in reverse order. *)
Lemma scan_subnet_probes_each_address_once_witness :
  exists results,
    scan_subnet fixture_probe (@rev ScanResult) (3 # 10) fixture_scanner
      "10.0.0" 1 6 []
      = ([] ++ candidates "10.0.0" 1 6, Ok (results, 3 # 10)) /\
    results ≡ₚ map (fixture_probe fixture_scanner) (candidates "10.0.0" 1 6) /\
    length results = Z.to_nat (6 - 1 + 1) /\
    NoDup (candidates "10.0.0" 1 6) /\
    (6 < 1 -> results = [] /\ candidates "10.0.0" 1 6 = []).
Proof.
  apply (scan_subnet_probes_each_address_once fixture_probe (@rev ScanResult)
           (3 # 10) (fun l => Permutation_sym (Permutation_rev l))
           fixture_scanner "10.0.0" 1 6 []).
  reflexivity.
Defined.

(** X26, witness: the range 1-6 of subnet 10.0.0 on the fixture network
    with the default settings. *)
Lemma scan_network_reports_range_witness :
  let request := MkScanRequest "10.0.0" 1 6 (1 # 10) in
  exists response online_results,
    scan_network default_settings fixture_probe (@rev ScanResult) (3 # 10)
      (fun q => q) (Some request) [] []
    = ([] ++ [MkScanner (req_timeout request)
                (scanner_default_port default_settings)
                (scanner_max_workers default_settings)],
       [] ++ candidates (req_subnet request) (req_start request)
               (req_end request),
       inr response) /\
    count response = req_end request - req_start request + 1 /\
    online_results ≡ₚ
      Spec.online_subset
        (map (fixture_probe (MkScanner (req_timeout request)
                               (scanner_default_port default_settings)
                               (scanner_max_workers default_settings)))
           (candidates (req_subnet request) (req_start request)
              (req_end request))) /\
    Forall2 Spec.projects_to online_results (devices response) /\
    online_count response = Z.of_nat (length (devices response)) /\
    online_count response <= count response /\
    StronglySorted (key_le dev_response_time_ms) (devices response) /\
    scan_time_seconds response = 3 # 10 /\
    subnet_scanned response
      = req_subnet request +:+ "." +:+ str (req_start request)
        +:+ "-" +:+ str (req_end request).
Proof.
  intros request.
  apply (scan_network_reports_range default_settings fixture_probe
           (@rev ScanResult) (3 # 10) (fun q => q)
           (fun l => Permutation_sym (Permutation_rev l)) request [] []);
    [discriminate | reflexivity].
Defined.

End ScanProps.

(** ** factory.py: properties *)

Module FactoryProps.

Import Factory.

Lemma or_int_nonzero (x : option Z) (y : Z) : y <> 0 -> or_int x y <> 0.
Proof.
  intros Hy. unfold or_int. destruct x as [n|]; [|exact Hy].
  destruct (Z.eqb_spec n 0); [exact Hy | assumption].
Qed.

Section Environment.

Variable environ : string -> option string.
Variable lower strip : string -> string.
Variable int_ : string -> result Z.
Variable float_ : string -> result Q.

(** X27: With [USE_MOCK_PLC] set to a spelling of "true", [create_plc_client]
    returns a fresh, disconnected [MockPLC] whatever type, host and port
    were requested, also for a type it would otherwise reject; the only
    failure left is a numeric setting of the environment that does not
    parse. *)
Theorem use_mock_overrides_type
    (plc_type host : option string) (port : option Z) (timeout : option Q)
    (retries : option Z) (scene_name : option string) :
  lower (getenv environ "USE_MOCK_PLC" "false") = "true" ->
  strip (lower "mock") = "mock" ->
  match create_plc_client environ lower strip int_ float_
          plc_type host port timeout retries scene_name with
  | Ok client =>
      client = Mock (MockPLC.init None) /\
      MockPLC.is_connected (MockPLC.init None) = false
  | Raise e =>
      (truthy_int port = false /\
       int_ (getenv environ "PLC_PORT" "502") = Raise e) \/
      (truthy_float timeout = false /\
       float_ (getenv environ "PLC_TIMEOUT" "5") = Raise e) \/
      (truthy_int retries = false /\
       int_ (getenv environ "PLC_RETRY_COUNT" "3") = Raise e)
  end.
Proof.
  intros Hmock Hnorm. unfold create_plc_client.
  rewrite Hmock. cbn [String.eqb Ascii.eqb Bool.eqb].
  destruct (truthy_int port) eqn:Hp.
  2: destruct (int_ (getenv environ "PLC_PORT" "502")) as [p|e] eqn:Ep;
       [|left; split; reflexivity].
  all: destruct (truthy_float timeout) eqn:Ht.
  all: try (destruct (float_ (getenv environ "PLC_TIMEOUT" "5"))
              as [t|e] eqn:Et; [|right; left; split; reflexivity]).
  all: destruct (truthy_int retries) eqn:Hr.
  all: try (destruct (int_ (getenv environ "PLC_RETRY_COUNT" "3"))
              as [r|e] eqn:Er; [|right; right; split; congruence]).
  all: rewrite Hnorm; cbn; split; reflexivity.
Qed.

(** X28: An argument that is falsy in Python (an empty string, port 0,
    timeout 0.0, zero retries) is treated exactly as an argument left
    out: the value comes from the environment or the built-in default. *)
Theorem falsy_arguments_fall_back
    (plc_type host scene_name : option string) (port retries : option Z)
    (timeout : option Q) :
  let blank (x : option string) :=
    match x with
    | Some s => if String.eqb s EmptyString then None else x
    | None => None
    end in
  let nonzero (x : option Z) :=
    match x with Some n => if n =? 0 then None else x | None => None end in
  let nonzero_float (x : option Q) :=
    match x with Some q => if Qeq_bool q 0 then None else x | None => None end in
  create_plc_client environ lower strip int_ float_
    plc_type host port timeout retries scene_name
  = create_plc_client environ lower strip int_ float_
      (blank plc_type) (blank host) (nonzero port) (nonzero_float timeout)
      (nonzero retries) (blank scene_name).
Proof.
  intros blank nonzero nonzero_float. unfold create_plc_client.
  assert (Hs : forall x y, or_string (blank x) y = or_string x y).
  { intros [s|] y; cbn; [|reflexivity].
    destruct (String.eqb s EmptyString) eqn:E; cbn; rewrite ?E; reflexivity. }
  assert (Hi : forall x, truthy_int (nonzero x) = truthy_int x /\
                 (truthy_int x = true -> default 0 (nonzero x) = default 0 x)).
  { intros [n|]; cbn; [|split; [reflexivity | discriminate]].
    destruct (n =? 0) eqn:E; cbn; rewrite ?E; split;
      try reflexivity; discriminate. }
  assert (Hf : forall x, truthy_float (nonzero_float x) = truthy_float x /\
                 (truthy_float x = true ->
                  default 0%Q (nonzero_float x) = default 0%Q x)).
  { intros [q|]; cbn; [|split; [reflexivity | discriminate]].
    destruct (Qeq_bool q 0) eqn:E; cbn; rewrite ?E; split;
      try reflexivity; discriminate. }
  rewrite !Hs.
  destruct (Hi port) as [-> Hp], (Hi retries) as [-> Hr],
           (Hf timeout) as [-> Ht].
  destruct (truthy_int port); [rewrite (Hp eq_refl)|];
  destruct (truthy_float timeout); rewrite ?(Ht eq_refl);
  destruct (truthy_int retries); rewrite ?(Hr eq_refl); reflexivity.
Qed.

(** X29: The manager built by [create_managed_client] starts disconnected with
    no recorded failure, waits one second as base delay, and takes its
    retry budget from the [retries] argument alone: 3 when the argument is
    left out or 0, whatever [PLC_RETRY_COUNT] says, and never 0; the
    client it wraps is the one [create_plc_client] returns for the same
    arguments, and an error of that call is passed on. *)
Theorem managed_client_budget
    (plc_type host : option string) (port : option Z) (timeout : option Q)
    (retries : option Z) (scene_name : option string) (auto_reconnect : bool) :
  match create_managed_client environ lower strip int_ float_
          plc_type host port timeout retries scene_name auto_reconnect with
  | Ok m =>
      create_plc_client environ lower strip int_ float_
        plc_type host port timeout retries scene_name
        = Ok (ConnectionManager.client m) /\
      ConnectionManager.retry_count m <> 0 /\
      (forall n, retries = Some n -> n <> 0 ->
         ConnectionManager.retry_count m = n) /\
      (retries = None \/ retries = Some 0 ->
         ConnectionManager.retry_count m = 3) /\
      ConnectionManager.retry_delay m = 1%Q /\
      ConnectionManager.auto_reconnect m = auto_reconnect /\
      ConnectionManager._connected m = false /\
      ConnectionManager._consecutive_failures m = 0 /\
      ConnectionManager._last_error m = None
  | Raise e =>
      create_plc_client environ lower strip int_ float_
        plc_type host port timeout retries scene_name = Raise e
  end.
Proof.
  unfold create_managed_client.
  destruct (create_plc_client environ lower strip int_ float_
              plc_type host port timeout retries scene_name) as [c|e];
    [|reflexivity].
  cbn. split; [reflexivity|]. split; [apply or_int_nonzero; lia|].
  split.
  { intros n -> Hn. cbn. destruct (Z.eqb_spec n 0); [contradiction|reflexivity]. }
  split.
  { intros [-> | ->]; reflexivity. }
  repeat split.
Qed.

End Environment.

(** X27, witness: [USE_MOCK_PLC=TRUE] in the environment and an unknown type
    requested. *)
Lemma use_mock_overrides_type_witness :
  match create_plc_client Fixtures.fixture_environ Fixtures.fixture_lower
          Fixtures.fixture_strip Fixtures.fixture_int Fixtures.fixture_float
          (Some "siemens") (Some "10.0.0.7") None None None None with
  | Ok client =>
      client = Mock (MockPLC.init None) /\
      MockPLC.is_connected (MockPLC.init None) = false
  | Raise e =>
      (truthy_int None = false /\
       Fixtures.fixture_int (getenv Fixtures.fixture_environ "PLC_PORT" "502")
         = Raise e) \/
      (truthy_float None = false /\
       Fixtures.fixture_float
         (getenv Fixtures.fixture_environ "PLC_TIMEOUT" "5") = Raise e) \/
      (truthy_int None = false /\
       Fixtures.fixture_int
         (getenv Fixtures.fixture_environ "PLC_RETRY_COUNT" "3") = Raise e)
  end.
Proof.
  apply (use_mock_overrides_type Fixtures.fixture_environ
           Fixtures.fixture_lower Fixtures.fixture_strip Fixtures.fixture_int
           Fixtures.fixture_float (Some "siemens") (Some "10.0.0.7")
           None None None None);
    reflexivity.
Defined.

End FactoryProps.

(** ** The simulated PLC behind the connection manager *)

Module ManagedMockProps.

Import ConnectionManager ManagerRetryProps.
Import MockHelpers MockHelpersProps.

(** X30: A freshly built manager with [auto_reconnect] around a simulated PLC
    serves a register read at the first attempt: when the PLC is not yet
    connected it is connected by one call of [connect()], the read is
    issued once, nothing is slept, and the manager is left connected with
    no failure recorded. *)
Theorem managed_mock_read_connects_once (rnd : MockPLC.Draws)
    (address count : Z) (s : MockPLC.MockPLC) (rc : Z) (rd : Q) (tr : Trace) :
  0 < rc ->
  populated s ->
  float_safe s ->
  exists s' values,
    MockPLC.read_holding_registers rnd address count
      (MockPLC.set_connected true s) = (s', Ok values) /\
    length values = Z.to_nat count /\
    read_with_retry (MockPLC.read_holding_registers rnd address count)
      (init s rc rd true) tr
    = (MkManager s' rc rd true true 0 None,
       tr ++ (if MockPLC._connected s then [] else [EvConnect]) ++ [EvFunc],
       Ok values).
Proof.
  intros Hrc Hp _.
  assert (Hp1 : populated (MockPLC.set_connected true s)) by exact Hp.
  destruct (read_holding_registers_populated rnd address count
              (MockPLC.set_connected true s) eq_refl Hp1)
    as (s' & values & Hread & Hlen & _).
  exists s', values. split; [exact Hread|]. split; [exact Hlen|].
  unfold read_with_retry. cbn [retry_count init].
  rewrite (range_pos rc Hrc). cbn [read_with_retry_loop].
  unfold call_connected, ensure_connected.
  cbn [client init auto_reconnect retry_count negb is_connected
       MockPLC_client MockPLC.is_connected].
  unfold MockPLC.is_connected.
  destruct (MockPLC._connected s) eqn:Hs.
  - assert (Hsame : MockPLC.set_connected true s = s).
    { destruct s; cbn in Hs |- *; subst; reflexivity. }
    rewrite Hsame in Hread.
    cbn [client set_connected init]. rewrite Hread. cbn.
    reflexivity.
  - rewrite (range_pos rc Hrc). cbn [ensure_connected_loop].
    cbn [client connect MockPLC_client]. unfold MockPLC.connect.
    cbn [client set_client set_connected set_failures set_last_error init].
    rewrite Hread. cbn. rewrite <- app_assoc. reflexivity.
Qed.

(** X30, witness: a freshly constructed simulated PLC, six registers read
    from address 100. *)
Lemma managed_mock_read_connects_once_witness :
  exists s' values,
    MockPLC.read_holding_registers Fixtures.quiet_draws 100 6
      (MockPLC.set_connected true (MockPLC.init None)) = (s', Ok values) /\
    length values = Z.to_nat 6 /\
    read_with_retry (MockPLC.read_holding_registers Fixtures.quiet_draws 100 6)
      (init (MockPLC.init None) 3 1 true) []
    = (MkManager s' 3 1 true true 0 None,
       [] ++ (if MockPLC._connected (MockPLC.init None) then []
              else [EvConnect]) ++ [EvFunc],
       Ok values).
Proof.
  apply (managed_mock_read_connects_once Fixtures.quiet_draws 100 6
           (MockPLC.init None) 3 1 []);
    [reflexivity
    | split; apply (bool_decide_unpack _); vm_compute; exact I
    | apply (bool_decide_unpack _); vm_compute; exact I].
Defined.

End ManagedMockProps.
